(** * Diary planner bot ([diary_bot_v2.py]): scheduler, itog review and input parsing

    A shallow embedding of the parts of [diary_bot_v2.py] that carry the
    bot's ordering and dedup logic: the text parsers of [enter_plans] and
    [handle_time_input], the itog (evening review) handlers, and the
    [notification_scheduler] tick with its two delivery helpers.

    Conventions.
    - A Python [str] is a [string]; a character is read as the code point
      of the same number, so the texts covered are those whose code points
      are below 256.  The character classes below ([isspace], [isdigit],
      the whitespace and digits of [int()]) are the full tables for that
      range.
    - A handler or a scheduler tick is a function of the state it reads
      (the users file, the clock, the transport) to the state it leaves and
      the list of messages it asked the transport to send.
    - An exception is the value [None] of a computation; a [try] of the
      source turns it back into a normal end, with the state as the
      exception left it. *)

From Stdlib Require Import ZArith Ascii String.
From stdpp Require Import base decidable option list strings gmap pretty.

Open Scope string_scope.
Open Scope list_scope.
Open Scope nat_scope.

(* ===================================================================== *)
(** ** Python string built-ins used by the handlers *)
(* ===================================================================== *)

Module PyStr.

Definition code (c : ascii) : nat := nat_of_ascii c.

(** [str.isspace] per character (used by [str.strip] and [str.split()]):
    U+0009..U+000D, U+001C..U+0020, U+0085 and U+00A0. *)
Definition isspace (c : ascii) : bool :=
  let n := code c in
  ((9 <=? n) && (n <=? 13)) || ((28 <=? n) && (n <=? 32))
  || (n =? 133) || (n =? 160).

(** The ten characters [0]..[9]: the only decimal digits below U+0100. *)
Definition is_decimal (c : ascii) : bool :=
  let n := code c in (48 <=? n) && (n <=? 57).

(** [str.isdigit] per character: the decimal digits and the superscripts
    U+00B2, U+00B3 and U+00B9, which [int()] does not read. *)
Definition isdigit_char (c : ascii) : bool :=
  let n := code c in
  is_decimal c || (n =? 178) || (n =? 179) || (n =? 185).

Fixpoint forall_chars (p : ascii -> bool) (s : string) : bool :=
  match s with
  | EmptyString => true
  | String c s' => p c && forall_chars p s'
  end.

(** [s.isdigit()]: at least one character and all of them digits. *)
Definition isdigit (s : string) : bool :=
  match s with
  | EmptyString => false
  | _ => forall_chars isdigit_char s
  end.

Fixpoint lstrip_with (p : ascii -> bool) (s : string) : string :=
  match s with
  | EmptyString => EmptyString
  | String c s' => if p c then lstrip_with p s' else s
  end.

Fixpoint rstrip_with (p : ascii -> bool) (s : string) : string :=
  match s with
  | EmptyString => EmptyString
  | String c s' =>
      match rstrip_with p s' with
      | EmptyString => if p c then EmptyString else String c EmptyString
      | r => String c r
      end
  end.

(** [s.strip()] *)
Definition strip (s : string) : string :=
  rstrip_with isspace (lstrip_with isspace s).

(** [s.split(sep)] for a one-character separator: never the empty list,
    empty fields are kept. *)
Fixpoint split_on (sep : ascii) (s : string) : list string :=
  match s with
  | EmptyString => [EmptyString]
  | String c s' =>
      if Ascii.eqb c sep then EmptyString :: split_on sep s'
      else match split_on sep s' with
           | [] => [String c EmptyString]
           | f :: fs => String c f :: fs
           end
  end.

(** The longest prefix of characters satisfying [p], and the rest. *)
Fixpoint span (p : ascii -> bool) (s : string) : string * string :=
  match s with
  | EmptyString => (EmptyString, EmptyString)
  | String c s' =>
      if p c then let '(a, b) := span p s' in (String c a, b)
      else (EmptyString, s)
  end.

(** [s.split(maxsplit=1)]: leading whitespace is skipped, the first run
    of non-blank characters is the first part, whitespace after it is
    skipped and what is left, if anything, is the second part as it
    stands. *)
Definition split_maxsplit1 (s : string) : list string :=
  match lstrip_with isspace s with
  | EmptyString => []
  | s1 =>
      let '(tok, rest) := span (fun c => negb (isspace c)) s1 in
      match lstrip_with isspace rest with
      | EmptyString => [tok]
      | rest' => [tok; rest']
      end
  end.

(** [s[:n]] and [s[n:]] *)
Fixpoint take (n : nat) (s : string) : string :=
  match n, s with
  | S n', String c s' => String c (take n' s')
  | _, _ => EmptyString
  end.

Fixpoint drop (n : nat) (s : string) : string :=
  match n, s with
  | S n', String _ s' => drop n' s'
  | _, _ => s
  end.

(** *** [int(s)] in base 10 *)

(** Whitespace that [int()] skips at both ends: the C-locale blanks, and
    U+0085 and U+00A0, which it first rewrites to a space.  U+001C..U+001F
    are copied unchanged and are not blanks for it. *)
Definition int_space (c : ascii) : bool :=
  let n := code c in
  ((9 <=? n) && (n <=? 13)) || (n =? 32) || (n =? 133) || (n =? 160).

Definition underscore : ascii := "_"%char.

Definition digit_or_underscore (c : ascii) : bool :=
  is_decimal c || Ascii.eqb c underscore.

(** No two underscores in a row and none at the end; [prev] tells
    whether the character before was an underscore. *)
Fixpoint underscores_ok (prev : bool) (s : string) : bool :=
  match s with
  | EmptyString => negb prev
  | String c s' =>
      if Ascii.eqb c underscore
      then negb prev && underscores_ok true s'
      else underscores_ok false s'
  end.

Fixpoint count_digits (s : string) : nat :=
  match s with
  | EmptyString => 0
  | String c s' => (if is_decimal c then 1 else 0) + count_digits s'
  end.

Fixpoint digits_value (acc : Z) (s : string) : Z :=
  match s with
  | EmptyString => acc
  | String c s' =>
      if is_decimal c
      then digits_value (10 * acc + Z.of_nat (code c - 48)) s'
      else digits_value acc s'
  end.

(** The interpreter's default limit on the number of digits [int()]
    converts ([sys.int_info.default_max_str_digits]). *)
Definition int_max_str_digits : nat := 4300.

(** [int(s)]: [None] stands for [ValueError]. *)
Definition py_int (s : string) : option Z :=
  let s1 := lstrip_with int_space s in
  let '(neg, s2) :=
    match s1 with
    | String "+" r => (false, r)
    | String "-" r => (true, r)
    | _ => (false, s1)
    end in
  let '(body, rest) := span digit_or_underscore s2 in
  match body with
  | EmptyString => None
  | String c _ =>
      if Ascii.eqb c underscore then None
      else if negb (underscores_ok false body) then None
      else match lstrip_with int_space rest with
           | String _ _ => None
           | EmptyString =>
               if int_max_str_digits <? count_digits body then None
               else let v := digits_value 0 body in
                    Some (if neg then (- v)%Z else v)
           end
  end.

(** [f"{n:02d}"] for a non-negative [n]. *)
Definition format_02d (n : nat) : string :=
  if n <? 10 then String "0" (pretty n) else pretty n.

(** [sep.join(parts)] *)
Fixpoint join (sep : string) (parts : list string) : string :=
  match parts with
  | [] => EmptyString
  | [p] => p
  | p :: ps => p ++ sep ++ join sep ps
  end.

End PyStr.

(* ===================================================================== *)
(** ** Data model: plans, itog sessions, profiles, the users file *)
(* ===================================================================== *)

(** [DAYS_OF_WEEK], Monday first, in the order of [datetime.weekday()]. *)
Inductive weekday :=
  | Monday | Tuesday | Wednesday | Thursday | Friday | Saturday | Sunday.

Definition weekday_index (d : weekday) : nat :=
  match d with
  | Monday => 0 | Tuesday => 1 | Wednesday => 2 | Thursday => 3
  | Friday => 4 | Saturday => 5 | Sunday => 6
  end.

Definition weekday_of_index (n : nat) : option weekday :=
  match n with
  | 0 => Some Monday | 1 => Some Tuesday | 2 => Some Wednesday
  | 3 => Some Thursday | 4 => Some Friday | 5 => Some Saturday
  | 6 => Some Sunday | _ => None
  end.

#[global] Instance weekday_eq_dec : EqDecision weekday.
Proof. solve_decision. Defined.

#[global] Instance weekday_countable : Countable weekday.
Proof.
  refine (inj_countable weekday_index weekday_of_index _).
  intros []; reflexivity.
Defined.

(** An entry of a day's plan.  [enter_plans] stores dicts [{"time", "text"}];
    lists written by the first revision of the bot hold bare strings, which
    [format_plan_line] and the scheduler's [isinstance(plan, dict)] test
    still provide for. *)
Inductive plan :=
  | PlanStr (s : string)
  | PlanDict (time : option string) (text : string).

#[global] Instance plan_eq_dec : EqDecision plan.
Proof. solve_decision. Defined.

(** [user["itog_state"]] *)
Record ItogState := mkItogState {
  date : string;
  day_name : weekday;
  plans : list plan;             (* the snapshot taken by [start_itog] *)
  current_index : nat;
  completed : gset nat;          (* stored as [list(set)], read as [set(list)] *)
  list_message_id : option nat;
  question_message_id : option nat;
}.

(** A record of [users_data.json].  A key that a dict lacks and a key
    holding [None] read the same through [dict.get], so both are [None]
    here; [user_plans] is the ["plans"] table, which one path reads with
    [user_data['plans']] and so can fail on.  The dynamic keys
    [sent_<date>_<time>_<text>] start with [sent_], which no fixed key
    does; the scheduler alone writes them, always with [True], so they are
    kept as the set of the keys present. *)
Record Profile := mkProfile {
  timezone : option string;
  notification_time : option string;
  user_plans : option (gmap weekday (list plan));
  setup_complete : bool;
  last_message_id : option nat;
  last_summary_date : option string;
  itog_state : option ItogState;
  last_bot_message_id : option nat;
  last_bot_message_chat_id : option string;
  sent_keys : gset string;
}.

(** The dict [{}] that [users.get(user_id, {})] falls back to. *)
Definition empty_profile : Profile :=
  mkProfile None None None false None None None None None ∅.

(** The record [start] creates for a new user. *)
Definition new_profile : Profile :=
  mkProfile (Some "Asia/Irkutsk") None
            (Some (list_to_map
               (map (fun d => (d, []))
                  [Monday; Tuesday; Wednesday; Thursday; Friday; Saturday; Sunday])))
            false None None None None None ∅.

Definition set_itog_state (v : option ItogState) (p : Profile) : Profile :=
  mkProfile (timezone p) (notification_time p) (user_plans p) (setup_complete p)
            (last_message_id p) (last_summary_date p) v
            (last_bot_message_id p) (last_bot_message_chat_id p) (sent_keys p).

Definition set_user_plans (v : option (gmap weekday (list plan))) (p : Profile)
  : Profile :=
  mkProfile (timezone p) (notification_time p) v (setup_complete p)
            (last_message_id p) (last_summary_date p) (itog_state p)
            (last_bot_message_id p) (last_bot_message_chat_id p) (sent_keys p).

Definition set_notification_time (v : option string) (p : Profile) : Profile :=
  mkProfile (timezone p) v (user_plans p) (setup_complete p)
            (last_message_id p) (last_summary_date p) (itog_state p)
            (last_bot_message_id p) (last_bot_message_chat_id p) (sent_keys p).

Definition set_last_message_id (v : option nat) (p : Profile) : Profile :=
  mkProfile (timezone p) (notification_time p) (user_plans p) (setup_complete p)
            v (last_summary_date p) (itog_state p)
            (last_bot_message_id p) (last_bot_message_chat_id p) (sent_keys p).

Definition set_last_summary_date (v : option string) (p : Profile) : Profile :=
  mkProfile (timezone p) (notification_time p) (user_plans p) (setup_complete p)
            (last_message_id p) v (itog_state p)
            (last_bot_message_id p) (last_bot_message_chat_id p) (sent_keys p).

Definition set_last_bot_message (id : nat) (chat : string) (p : Profile) : Profile :=
  mkProfile (timezone p) (notification_time p) (user_plans p) (setup_complete p)
            (last_message_id p) (last_summary_date p) (itog_state p)
            (Some id) (Some chat) (sent_keys p).

Definition add_sent_key (k : string) (p : Profile) : Profile :=
  mkProfile (timezone p) (notification_time p) (user_plans p) (setup_complete p)
            (last_message_id p) (last_summary_date p) (itog_state p)
            (last_bot_message_id p) (last_bot_message_chat_id p)
            ({[ k ]} ∪ sent_keys p).

(** [user.get('plans', {}).get(day, [])] *)
Definition day_plans (p : Profile) (d : weekday) : list plan :=
  default [] (default ∅ (user_plans p) !! d).

(** The users file: a JSON object, read as a dict that keeps the order of
    its keys, which is the order in which the scheduler visits them. *)
Abbreviation Users := (list (string * Profile)).

(** [users.get(user_id)] *)
Fixpoint users_get (uid : string) (us : Users) : option Profile :=
  match us with
  | [] => None
  | (k, p) :: rest => if decide (k = uid) then Some p else users_get uid rest
  end.

(** [users[user_id] = p]: in place for a key present, at the end otherwise. *)
Fixpoint users_set (uid : string) (p : Profile) (us : Users) : Users :=
  match us with
  | [] => [(uid, p)]
  | (k, q) :: rest =>
      if decide (k = uid) then (k, p) :: rest else (k, q) :: users_set uid p rest
  end.

(** The two files of the bot. *)
Record Disk := mkDisk {
  users_file : Users;                          (* users_data.json *)
  global_plans_file : gmap string (list string);   (* global_plans.json *)
}.

(** What the code reads of [get_user_now(user)]. *)
Record Now := mkNow {
  hour : nat;
  minute : nat;
  today_weekday : weekday;       (* DAYS_OF_WEEK[now.weekday()] *)
  date_key : string;             (* now.strftime("%Y-%m-%d") *)
  date_text : string;            (* now.strftime("%d.%m.%Y") *)
}.

(** The fixed texts of the handlers modelled here. *)
Inductive notice :=
  | StartFirst          (* "Сначала запусти /start ..." *)
  | NoEntriesToday      (* "Похоже, на сегодня записей нет. ..." *)
  | ItogNotActive       (* "Сейчас итоги не активны. ..." *)
  | NoPlansBackToMenu   (* "Похоже, планов нет. Возвращаю в меню." *)
  | AllItemsReviewed    (* "Все пункты уже разобрали" *)
  | WhatNext            (* "Чем займёмся дальше?" *)
  | BackToMainMenu      (* "Верну тебя в главное меню:" *)
  | MainMenuPrompt.     (* "Главное меню:" *)

#[global] Instance notice_eq_dec : EqDecision notice.
Proof. solve_decision. Defined.

(** What the bot asks the transport to send, by kind and payload; the
    wording and layout of the texts are left out. *)
Inductive Message :=
  | MorningBrief (today_name : weekday) (today_plans : list plan)
                 (user_global : list string)
  | Reminder (time text : string)
  | EveningSummary (date_text : string) (day : weekday) (today_plans : list plan)
  | ItogList (date_text : string) (day : weekday) (snapshot : list plan)
  | ItogQuestion (index : nat) (item : plan)
  | ItogDone (completed_count total : nat)
  | Notice (which : notice)
  | ReviewPrompt (day : option weekday) (pending : list plan)
  | TimeSaved (time : string)
  | TimeError.

#[global] Instance Message_eq_dec : EqDecision Message.
Proof. solve_decision. Defined.

(** The states a handler returns to the [ConversationHandler]. *)
Inductive ConvState := MAIN_MENU | ITOG_REVIEW | REVIEW_PLANS.

(** The outside of the bot: the transport ([None]: the call raises) and the
    clock, which gives the local time of a zone name and does not advance
    while one handler or one tick runs. *)
Record Env := mkEnv {
  bot_send : string -> Message -> option nat;
  clock : string -> Now;
}.

Definition DEFAULT_TIMEZONE : string := "Asia/Irkutsk".
Definition SUMMARY_TIME : string := "23:59".

Definition get_user_timezone (user : Profile) : string :=
  default DEFAULT_TIMEZONE (timezone user).

Definition get_user_now (env : Env) (user : Profile) : Now :=
  clock env (get_user_timezone user).

(** [context.user_data] of the user whose update is being handled: it
    lives in the process, not in the files. *)
Record Context := mkContext {
  waiting_for_time : bool;
  current_day : option weekday;
  current_plans : option (list plan);
  skip_day : bool;
}.

(** *** State and exceptions

    A computation reads and writes the files and appends to the list of
    send requests (chat, message, delivered or not); [None] as its value is
    an exception on its way up. *)
Record World := mkWorld {
  disk : Disk;
  outbox : list (string * Message * bool);
  context : Context;
}.

Definition M (A : Type) : Type := World -> option A * World.

Definition ret {A} (a : A) : M A := fun w => (Some a, w).

Definition bind {A B} (m : M A) (k : A -> M B) : M B :=
  fun w => match m w with
           | (Some a, w') => k a w'
           | (None, w') => (None, w')
           end.

Notation "x <- m ;; k" := (bind m (fun x => k))
  (at level 100, m at next level, right associativity).
Notation "m ;;; k" := (bind m (fun _ => k))
  (at level 100, right associativity).

(** [try: m except Exception: log] *)
Definition try_except {A} (m : M A) : M (option A) :=
  fun w => let '(r, w') := m w in (Some r, w').

Definition load_users : M Users := fun w => (Some (users_file (disk w)), w).

Definition save_users (us : Users) : M unit :=
  fun w => (Some tt, mkWorld (mkDisk us (global_plans_file (disk w)))
                            (outbox w) (context w)).

Definition load_global_plans : M (gmap string (list string)) :=
  fun w => (Some (global_plans_file (disk w)), w).

(** [bot.send_message(chat_id, ...)], [message.reply_text(...)]: the call
    returns the new message's id or raises; the request is recorded with
    its outcome ([true]: delivered). *)
Definition send_message (env : Env) (chat : string) (m : Message) : M nat :=
  fun w => (bot_send env chat m,
            mkWorld (disk w)
                    (outbox w ++ [(chat, m, bool_decide (is_Some (bot_send env chat m)))])
                    (context w)).

(** [raise] *)
Definition raise {A} : M A := fun w => (None, w).

Definition get_context : M Context := fun w => (Some (context w), w).

Definition set_context (c : Context) : M unit :=
  fun w => (Some tt, mkWorld (disk w) (outbox w) c).

(* ===================================================================== *)
(** ** Handlers *)
(* ===================================================================== *)

(** [send_and_replace(update, users, text)]: the previous bot message is
    deleted on a best-effort basis (a failure is logged and dropped, and
    nothing else depends on it), the new one is sent to the user's chat,
    its id is recorded in the user's record and the users dict is saved.
    The dict handed in is the one updated. *)
Definition send_and_replace (env : Env) (uid : string) (users : Users)
    (m : Message) : M Users :=
  let user := default empty_profile (users_get uid users) in
  id <- send_message env uid m ;;
  let users' := users_set uid (set_last_bot_message id uid user) users in
  save_users users' ;;;
  ret users'.

(** *** Plan entry: [enter_plans] *)

(** The test of lines 697-703 on the first word of an item. *)
Definition time_prefix_shape (tok : string) : bool :=
  (String.length tok =? 5)
  && bool_decide (String.get 2 tok = Some ":"%char)
  && PyStr.isdigit (PyStr.take 2 tok)
  && PyStr.isdigit (PyStr.drop 3 tok).

(** One turn of the loop over [raw_items]; [None] is the [ValueError] of
    [int()], which nothing in the handler catches.  Of the characters
    below U+0100 that [isdigit()] accepts, [int()] reads the ten decimal
    digits and raises on the three superscripts; the decimal digits of
    other scripts, which both accept and which the code would store as a
    time, are not among the texts of this model. *)
Definition parse_plan_item (item : string) : option plan :=
  match PyStr.split_maxsplit1 item with
  | [p0; p1] =>
      if time_prefix_shape p0 then
        match PyStr.py_int (PyStr.take 2 p0), PyStr.py_int (PyStr.drop 3 p0) with
        | Some hh, Some mm =>
            if ((0 <=? hh) && (hh <=? 23) && (0 <=? mm) && (mm <=? 59))%Z
            then Some (PlanDict (Some p0) p1)
            else Some (PlanDict None item)
        | _, _ => None
        end
      else Some (PlanDict None item)
  | _ => Some (PlanDict None item)
  end.

(** [[item.strip() for item in text.split(';') if item.strip()]] *)
Definition raw_items (text : string) : list string :=
  map PyStr.strip
      (List.filter (fun item => negb (String.eqb (PyStr.strip item) ""))
                   (PyStr.split_on ";"%char text)).

Fixpoint parse_plan_items (items : list string) : option (list plan) :=
  match items with
  | [] => Some []
  | item :: rest =>
      match parse_plan_item item with
      | None => None
      | Some p =>
          match parse_plan_items rest with
          | None => None
          | Some ps => Some (p :: ps)
          end
      end
  end.

(** [review_plans], on the path [enter_plans] takes to it: [skip_day] is
    false there and the pending items are shown. *)
Definition review_plans (env : Env) (uid : string) : M ConvState :=
  users <- load_users ;;
  ctx <- get_context ;;
  send_and_replace env uid users
    (ReviewPrompt (current_day ctx) (default [] (current_plans ctx))) ;;;
  ret REVIEW_PLANS.

(** [enter_plans].  The two button labels it compares the text with first
    (cancel, skip the day) hold code points above 255, so a text of this
    model is never one of them and goes to the parser. *)
Definition enter_plans (env : Env) (uid : string) (message_text : string)
  : M ConvState :=
  let text := PyStr.strip message_text in
  match parse_plan_items (raw_items text) with
  | None => raise
  | Some plans =>
      ctx <- get_context ;;
      set_context (mkContext (waiting_for_time ctx) (current_day ctx)
                             (Some plans) false) ;;;
      review_plans env uid
  end.

(** *** Notification time: [handle_time_input] *)

(** The body of the [try]: [None] is the [ValueError] raised by the
    length test, by [int()] or by the range test. *)
Definition parse_time_input (text : string) : option string :=
  match PyStr.split_on ":"%char text with
  | [p0; p1] =>
      match PyStr.py_int p0 with
      | None => None
      | Some hour =>
          match PyStr.py_int p1 with
          | None => None
          | Some minute =>
              if ((0 <=? hour) && (hour <=? 23)
                  && (0 <=? minute) && (minute <=? 59))%Z
              then Some (PyStr.format_02d (Z.to_nat hour) +:+ ":"
                         +:+ PyStr.format_02d (Z.to_nat minute))
              else None
          end
      end
  | _ => None
  end.

Definition handle_time_input (env : Env) (uid : string) (message_text : string)
  : M ConvState :=
  users <- load_users ;;
  let text := PyStr.strip message_text in
  ctx <- get_context ;;
  if waiting_for_time ctx then
    match parse_time_input text with
    | Some t =>
        match users_get uid users with
        | None => raise                                   (* KeyError *)
        | Some user =>
            let users1 := users_set uid (set_notification_time (Some t) user) users in
            save_users users1 ;;;
            set_context (mkContext false (current_day ctx) (current_plans ctx)
                                   (skip_day ctx)) ;;;
            send_and_replace env uid users1 (TimeSaved t) ;;;
            ret MAIN_MENU
        end
    | None =>
        send_and_replace env uid users TimeError ;;;
        ret MAIN_MENU
    end
  else
    send_and_replace env uid users (Notice MainMenuPrompt) ;;;
    ret MAIN_MENU.

(** *** Itog: [start_itog], [handle_itog_response] *)

Fixpoint enumerate_from {A} (n : nat) (l : list A) : list (nat * A) :=
  match l with
  | [] => []
  | x :: l' => (n, x) :: enumerate_from (S n) l'
  end.

(** [enumerate(l)] *)
Definition enumerate {A} (l : list A) : list (nat * A) := enumerate_from 0 l.

(** [[plan for idx, plan in enumerate(snapshot) if idx not in completed]] *)
Definition remaining_plans (snapshot : list plan) (completed : gset nat)
  : list plan :=
  map snd (List.filter (fun ip => bool_decide (fst ip ∉ completed))
                       (enumerate snapshot)).

(** [apply_itog_results_to_plans(user, state)]; a day name is never an
    empty string, so the first of the three guards never holds. *)
Definition apply_itog_results_to_plans (user : Profile) (state : ItogState)
  : Profile :=
  if bool_decide (plans state = []) || bool_decide (completed state = ∅)
  then user
  else set_user_plans
         (Some (<[ day_name state := remaining_plans (plans state) (completed state) ]>
                  (default ∅ (user_plans user))))
         user.

(** [start_itog]: the messages of an earlier session are deleted on a
    best-effort basis before the new list is sent. *)
Definition start_itog (env : Env) (uid : string) : M ConvState :=
  users <- load_users ;;
  match users_get uid users with
  | None =>
      send_and_replace env uid users (Notice StartFirst) ;;;
      ret MAIN_MENU
  | Some user =>
      let today := get_user_now env user in
      let day := today_weekday today in
      let today_plans := day_plans user day in
      match today_plans with
      | [] =>
          send_and_replace env uid users (Notice NoEntriesToday) ;;;
          ret MAIN_MENU
      | first :: _ =>
          list_id <- send_message env uid (ItogList (date_text today) day today_plans) ;;
          question_id <- send_message env uid (ItogQuestion 0 first) ;;
          let state := mkItogState (date_text today) day today_plans 0 ∅
                                   (Some list_id) (Some question_id) in
          save_users (users_set uid (set_itog_state (Some state) user) users) ;;;
          ret ITOG_REVIEW
      end
  end.

(** The answers that reach [handle_itog_response]: its filter lets through
    the two button texts only, and the handler asks whether the text,
    stripped and lowered, is the word for yes. *)
Inductive Answer := Da | Net.

Definition set_progress (idx : nat) (done : gset nat) (s : ItogState) : ItogState :=
  mkItogState (date s) (day_name s) (plans s) idx done
              (list_message_id s) (question_message_id s).

Definition set_question_message_id (v : option nat) (s : ItogState) : ItogState :=
  mkItogState (date s) (day_name s) (plans s) (current_index s) (completed s)
              (list_message_id s) v.

(** [handle_itog_response]: deleting the answered question and redrawing
    the list are best-effort calls whose failure is logged and dropped. *)
Definition handle_itog_response (env : Env) (uid : string) (answer : Answer)
  : M ConvState :=
  users <- load_users ;;
  match users_get uid users with
  | None =>
      send_and_replace env uid users (Notice ItogNotActive) ;;;
      ret MAIN_MENU
  | Some user =>
      match itog_state user with
      | None =>
          send_and_replace env uid users (Notice ItogNotActive) ;;;
          ret MAIN_MENU
      | Some state =>
          match plans state with
          | [] =>
              let users1 := users_set uid (set_itog_state None user) users in
              save_users users1 ;;;
              send_and_replace env uid users1 (Notice NoPlansBackToMenu) ;;;
              ret MAIN_MENU
          | _ :: _ =>
              if length (plans state) <=? current_index state then
                let user1 := apply_itog_results_to_plans user state in
                let users1 := users_set uid (set_itog_state None user1) users in
                save_users users1 ;;;
                users2 <- send_and_replace env uid users1 (Notice AllItemsReviewed) ;;
                send_and_replace env uid users2 (Notice WhatNext) ;;;
                ret MAIN_MENU
              else
                let done :=
                  match answer with
                  | Da => {[ current_index state ]} ∪ completed state
                  | Net => completed state
                  end in
                let state1 := set_progress (current_index state + 1) done state in
                if length (plans state) <=? current_index state1 then
                  let user1 := apply_itog_results_to_plans user state1 in
                  let users1 := users_set uid (set_itog_state None user1) users in
                  save_users users1 ;;;
                  users2 <- send_and_replace env uid users1
                              (ItogDone (size (completed state1)) (length (plans state))) ;;
                  send_and_replace env uid users2 (Notice BackToMainMenu) ;;;
                  ret MAIN_MENU
                else
                  match plans state !! current_index state1 with
                  | None => raise                          (* IndexError *)
                  | Some item =>
                      next_question_id <-
                        send_message env uid (ItogQuestion (current_index state1) item) ;;
                      let state2 := set_question_message_id (Some next_question_id) state1 in
                      save_users (users_set uid (set_itog_state (Some state2) user) users) ;;;
                      ret ITOG_REVIEW
                  end
          end
      end
  end.

(* ===================================================================== *)
(** ** The notification scheduler *)
(* ===================================================================== *)

(** [send_daily_notification(user_id, application)]: the whole body is in
    a [try] that logs and drops any exception.  Deleting the previous
    brief is a best-effort call in a [try] of its own. *)
Definition send_daily_notification (env : Env) (uid : string) : M unit :=
  try_except (
    users <- load_users ;;
    global_plans <- load_global_plans ;;
    match users_get uid users with
    | None => ret tt
    | Some user_data =>
        let today := get_user_now env user_data in
        let today_name := today_weekday today in
        match user_plans user_data with
        | None => raise                              (* KeyError: 'plans' *)
        | Some table =>
            let plans := default [] (table !! today_name) in
            let user_global := default [] (global_plans !! uid) in
            id <- send_message env uid (MorningBrief today_name plans user_global) ;;
            save_users (users_set uid (set_last_message_id (Some id) user_data) users)
        end
    end) ;;;
  ret tt.

(** [send_daily_summary(user_id, application)], in a [try] as well. *)
Definition send_daily_summary (env : Env) (uid : string) : M unit :=
  try_except (
    users <- load_users ;;
    match users_get uid users with
    | None => ret tt
    | Some user_data =>
        let today := get_user_now env user_data in
        let day := today_weekday today in
        let plans := day_plans user_data day in
        send_message env uid (EveningSummary (date_text today) day plans) ;;;
        save_users (users_set uid
                      (set_last_summary_date (Some (date_key today)) user_data) users)
    end) ;;;
  ret tt.

(** [f"{user_now.hour:02d}:{user_now.minute:02d}"] *)
Definition current_time_of (n : Now) : string :=
  PyStr.format_02d (hour n) +:+ ":" +:+ PyStr.format_02d (minute n).

(** [user_data.get('notification_time') or '09:00'] *)
Definition effective_notification_time (user_data : Profile) : string :=
  match notification_time user_data with
  | None => "09:00"
  | Some t => if String.eqb t "" then "09:00" else t
  end.

(** [f"sent_{today_key}_{plan['time']}_{plan.get('text','')}"] *)
Definition sent_key (today_key time text : string) : string :=
  "sent_" +:+ today_key +:+ "_" +:+ time +:+ "_" +:+ text.

(** One turn of the loop over [day_plans] (lines 1135-1144).  [users_with]
    gives the in-memory users dict for a value of the record being
    visited: [user_data] is the very object the dict holds, so every change
    to it is a change to the dict that [save_users(users)] writes.  The
    send is in no [try] of its own. *)
Definition remind_item (env : Env) (users_with : Profile -> Users)
    (uid today_key current_time : string) (p : plan) (user_data : Profile)
  : M Profile :=
  match p with
  | PlanDict (Some t) text =>
      if String.eqb t current_time then
        let key := sent_key today_key t text in
        if bool_decide (key ∈ sent_keys user_data) then ret user_data
        else
          send_message env uid (Reminder t text) ;;;
          let user_data' := add_sent_key key user_data in
          save_users (users_with user_data') ;;;
          ret user_data'
      else ret user_data
  | _ => ret user_data
  end.

Fixpoint remind_items (env : Env) (users_with : Profile -> Users)
    (uid today_key current_time : string) (ps : list plan) (user_data : Profile)
  : M Profile :=
  match ps with
  | [] => ret user_data
  | p :: rest =>
      user_data' <- remind_item env users_with uid today_key current_time p user_data ;;
      remind_items env users_with uid today_key current_time rest user_data'
  end.

(** The body of [for user_id, user_data in users.items()] (lines
    1122-1152); its value is the record as the turn leaves it in memory. *)
Definition scheduler_user (env : Env) (users_with : Profile -> Users)
    (uid : string) (user_data : Profile) : M Profile :=
  let notification_time := effective_notification_time user_data in
  let user_now := get_user_now env user_data in
  let current_time := current_time_of user_now in
  (if String.eqb current_time notification_time && setup_complete user_data
   then send_daily_notification env uid else ret tt) ;;;
  let today_name := today_weekday user_now in
  let today_key := date_key user_now in
  user_data1 <- remind_items env users_with uid today_key current_time
                  (day_plans user_data today_name) user_data ;;
  if String.eqb current_time SUMMARY_TIME
     && setup_complete user_data1
     && negb (bool_decide (last_summary_date user_data1 = Some today_key))
  then
    send_daily_summary env uid ;;;
    ret (set_last_summary_date (Some today_key) user_data1)
  else ret user_data1.

(** The [for] loop: [visited] are the records already gone through, as
    they now stand in memory, [todo] the ones to come. *)
Fixpoint scheduler_loop (env : Env) (visited todo : Users) : M unit :=
  match todo with
  | [] => ret tt
  | (uid, user_data) :: rest =>
      user_data' <- scheduler_user env
                      (fun ud => visited ++ (uid, ud) :: rest) uid user_data ;;
      scheduler_loop env (visited ++ [(uid, user_data')]) rest
  end.

(** One turn of [while True] in [notification_scheduler]: the [try] is
    around the whole [for], and both ways out sleep for a minute.  The
    value tells whether the turn ended without an exception. *)
Definition scheduler_tick (env : Env) : M bool :=
  r <- try_except (users <- load_users ;; scheduler_loop env [] users) ;;
  ret (bool_decide (is_Some r)).

(** The world a tick or a handler starts from: the files as they are,
    nothing sent yet. *)
Definition empty_context : Context := mkContext false None None false.

Definition start_world (users : Users) (global : gmap string (list string))
  : World := mkWorld (mkDisk users global) [] empty_context.

(* ===================================================================== *)
(** ** Notions the statements below are written with *)
(* ===================================================================== *)

(** The record a user id has in the users file of a world. *)
Definition profile_of (uid : string) (w : World) : option Profile :=
  users_get uid (users_file (disk w)).

(** What a computation added to the list of send requests. *)
Definition sent_since (w w' : World) : list (string * Message * bool) :=
  drop (length (outbox w)) (outbox w').

(** *** Itog sessions *)

(** The two invariants of a stored session; a stored index is below the
    length of the snapshot, the length itself being the value at which the
    handler drops the session instead of storing it. *)
Definition itog_session_ok (s : ItogState) : Prop :=
  current_index s < length (plans s)
  /\ forall i, i ∈ completed s -> i < length (plans s).

Definition itog_invariant (w : World) : Prop :=
  forall uid user s,
    profile_of uid w = Some user -> itog_state user = Some s ->
    itog_session_ok s.

(** A change of the files that is none of the two itog handlers': every
    record afterwards has no session or the session its user had before. *)
Definition keeps_sessions (w w' : World) : Prop :=
  forall uid user', profile_of uid w' = Some user' ->
    itog_state user' = None
    \/ exists user, profile_of uid w = Some user
                    /\ itog_state user' = itog_state user.

(** One step of the bot as far as sessions go. *)
Inductive itog_step : World -> World -> Prop :=
  | step_start_itog env uid w :
      itog_step w (snd (start_itog env uid w))
  | step_itog_response env uid answer w :
      itog_step w (snd (handle_itog_response env uid answer w))
  | step_other w w' :
      keeps_sessions w w' -> itog_step w w'.

(** The itog invariant, on a users dict. *)
Definition users_ok (us : Users) : Prop :=
  forall uid user s,
    users_get uid us = Some user -> itog_state user = Some s ->
    itog_session_ok s.

(** The positions of a list that are not in a set, in order. *)
Definition positions_kept (n : nat) (removed : gset nat) : list nat :=
  List.filter (fun i => bool_decide (i ∉ removed)) (seq 0 n).

(** *** Times and plan entries as the specification writes them *)

Definition digit_value (c : ascii) : nat := PyStr.code c - 48.

Definition decimal_chars : list ascii :=
  ["0"; "1"; "2"; "3"; "4"; "5"; "6"; "7"; "8"; "9"]%char.

(** The times [HH:MM] of a day, written with two digits each. *)
Definition hhmm (h m : nat) : string :=
  PyStr.format_02d h +:+ ":" +:+ PyStr.format_02d m.

(** A valid [HH:MM]: five characters, a colon in the middle, four decimal
    digits, hour at most 23 and minute at most 59. *)
Definition is_valid_hhmm (s : string) : bool :=
  match s with
  | String a (String b (String c (String d (String e EmptyString)))) =>
      PyStr.is_decimal a && PyStr.is_decimal b && Ascii.eqb c ":"
      && PyStr.is_decimal d && PyStr.is_decimal e
      && (10 * digit_value a + digit_value b <=? 23)
      && (10 * digit_value d + digit_value e <=? 59)
  | _ => false
  end.

(** The first word of an item: its characters up to the first blank. *)
Definition first_word (s : string) : string :=
  fst (PyStr.span (fun c => negb (PyStr.isspace c)) s).

(** No superscript digit: every character [str.isdigit] accepts is one of
    [0]..[9]. *)
Definition plain_digits (s : string) : bool :=
  PyStr.forall_chars
    (fun c => implb (PyStr.isdigit_char c) (PyStr.is_decimal c)) s.

(** The text of an item as the user types it between two semicolons: not
    empty, no blank at either end, no semicolon. *)
Definition clean_text (s : string) : bool :=
  negb (String.eqb s "")
  && String.eqb (PyStr.lstrip_with PyStr.isspace s) s
  && String.eqb (PyStr.rstrip_with PyStr.isspace s) s
  && PyStr.forall_chars (fun c => negb (Ascii.eqb c ";")) s.

(** The plan items a plan-entry string stands for: a timed item has a
    valid [HH:MM] and a text, an untimed one a text whose first word is
    not a valid [HH:MM]. *)
Definition entry_ok (p : plan) : bool :=
  match p with
  | PlanDict (Some t) text => is_valid_hhmm t && clean_text text
  | PlanDict None text =>
      clean_text text && plain_digits (first_word text)
      && negb (is_valid_hhmm (first_word text))
  | PlanStr _ => false
  end.

Definition entry_text (p : plan) : string :=
  match p with
  | PlanDict (Some t) text => t +:+ " " +:+ text
  | PlanDict None text => text
  | PlanStr s => s
  end.

(** The string ["08:00 Item A; Item B; 23:59 Item C"] of a list of items. *)
Definition plan_entry_string (ps : list plan) : string :=
  PyStr.join "; " (map entry_text ps).

(** *** Runs of the scheduler *)

(** Successive turns of the scheduler's loop, one environment per turn. *)
Fixpoint run_ticks (envs : list Env) (w : World) : World :=
  match envs with
  | [] => w
  | env :: rest => run_ticks rest (snd (scheduler_tick env w))
  end.

(** The users file has one record per user id, as a dict has. *)
Definition distinct_ids (us : Users) : Prop := NoDup (map fst us).


(** A world after a send request, and after [save_users]. *)
Definition with_sent (e : string * Message * bool) (w : World) : World :=
  mkWorld (disk w) (outbox w ++ [e]) (context w).

Definition with_users (us : Users) (w : World) : World :=
  mkWorld (mkDisk us (global_plans_file (disk w))) (outbox w) (context w).

(** A record with more [sent_] keys. *)
Definition with_keys (K : gset string) (p : Profile) : Profile :=
  mkProfile (timezone p) (notification_time p) (user_plans p) (setup_complete p)
            (last_message_id p) (last_summary_date p) (itog_state p)
            (last_bot_message_id p) (last_bot_message_chat_id p)
            (K ∪ sent_keys p).

(** What the loop over the day's items leaves behind: [R] are its
    requests, [K] the keys of the delivered ones. *)
Definition reminders_post (env : Env) (uw : Profile -> Users)
    (uid tk ct : string) (ps : list plan) (ud : Profile) (w : World)
    (res : option Profile * World)
    (R : list (string * Message * bool)) (K : gset string) : Prop :=
  outbox (snd res) = outbox w ++ R
  /\ Forall (fun e => exists t x,
               e = (uid, Reminder t x,
                    bool_decide (is_Some (bot_send env uid (Reminder t x))))
               /\ t = ct /\ In (PlanDict (Some t) x) ps
               /\ sent_key tk t x ∉ sent_keys ud) R
  /\ NoDup R
  /\ (forall k, k ∈ K <->
                exists t x, In (uid, Reminder t x, true) R
                            /\ k = sent_key tk t x)
  /\ (fst res = None
      \/ (fst res = Some (with_keys K ud) /\ Forall (fun e => snd e = true) R))
  /\ ((K = ∅ /\ users_file (disk (snd res)) = users_file (disk w))
      \/ (K <> ∅ /\ users_file (disk (snd res)) = uw (with_keys K ud)))
  /\ (fst res <> None -> forall t x,
        In (PlanDict (Some t) x) ps -> t = ct ->
        sent_key tk t x ∉ sent_keys ud ->
        In (uid, Reminder t x, true) R)
  /\ global_plans_file (disk (snd res)) = global_plans_file (disk w).

(** [q] is [p] after the scheduler went over it: the keys [K] were
    added, and of the other fields only the bookkeeping ones
    ([last_message_id], [last_summary_date]) may differ. *)
Definition record_after (p : Profile) (K : gset string) (q : Profile) : Prop :=
  timezone q = timezone p
  /\ notification_time q = notification_time p
  /\ user_plans q = user_plans p
  /\ setup_complete q = setup_complete p
  /\ itog_state q = itog_state p
  /\ sent_keys q = K ∪ sent_keys p.

Definition ids (us : Users) : list string := map fst us.

(** The messages of the scheduler, by kind. *)
Definition is_morning_brief (m : Message) : bool :=
  match m with MorningBrief _ _ _ => true | _ => false end.

Definition is_reminder (m : Message) : bool :=
  match m with Reminder _ _ => true | _ => false end.

Definition is_evening_summary (m : Message) : bool :=
  match m with EveningSummary _ _ _ => true | _ => false end.

(** The brief the scheduler composes for a record of the users file. *)
Definition brief_for (env : Env) (uid : string) (w : World) (ud : Profile)
    (table : gmap weekday (list plan)) : Message :=
  MorningBrief (today_weekday (get_user_now env ud))
               (default [] (table !! today_weekday (get_user_now env ud)))
               (default [] (global_plans_file (disk w) !! uid)).

Definition summary_for (env : Env) (ud : Profile) : Message :=
  EveningSummary (date_text (get_user_now env ud))
                 (today_weekday (get_user_now env ud))
                 (day_plans ud (today_weekday (get_user_now env ud))).

(** The two tests of a turn of the scheduler. *)
Definition brief_due (env : Env) (ud : Profile) : bool :=
  String.eqb (current_time_of (get_user_now env ud))
             (effective_notification_time ud)
  && setup_complete ud.

Definition summary_due (now : Now) (ud : Profile) : bool :=
  String.eqb (current_time_of now) SUMMARY_TIME
  && setup_complete ud
  && negb (bool_decide (last_summary_date ud = Some (date_key now))).

(** The requests of a list that went to a user. *)
Definition sent_to (uid : string) (l : list (string * Message * bool))
  : list (string * Message * bool) :=
  List.filter (fun e => String.eqb (fst (fst e)) uid) l.

(** What a turn of the scheduler does for its own user, whose record [p]
    is in the file: [B], [R] and [S] are the requests of its three phases,
    [K] the keys of the reminders delivered, [p_d] the user's record in
    the file after the turn. *)
Definition turn_post (env : Env) (uid : string) (p : Profile) (w : World)
    (res : option Profile * World) (B R S : list (string * Message * bool))
    (K : gset string) (p_d : Profile) : Prop :=
  let now := get_user_now env p in
  outbox (snd res) = outbox w ++ B ++ R ++ S
  /\ ((B = [] /\ (brief_due env p = false \/ user_plans p = None))
      \/ (brief_due env p = true /\ is_Some (user_plans p)
          /\ exists m ok, is_morning_brief m = true /\ B = [(uid, m, ok)]))
  /\ Forall (fun e => exists t x,
               e = (uid, Reminder t x,
                    bool_decide (is_Some (bot_send env uid (Reminder t x))))
               /\ t = current_time_of now
               /\ In (PlanDict (Some t) x) (day_plans p (today_weekday now))
               /\ sent_key (date_key now) t x ∉ sent_keys p) R
  /\ NoDup R
  /\ (forall k, k ∈ K <->
                exists t x, In (uid, Reminder t x, true) R
                            /\ k = sent_key (date_key now) t x)
  /\ (is_Some (fst res) -> forall t x,
        In (PlanDict (Some t) x) (day_plans p (today_weekday now)) ->
        t = current_time_of now ->
        sent_key (date_key now) t x ∉ sent_keys p ->
        In (uid, Reminder t x, true) R)
  /\ ((S = [] /\ (fst res = None \/ summary_due now p = false))
      \/ (is_Some (fst res) /\ summary_due now p = true
          /\ exists m ok,
               is_evening_summary m = true /\ S = [(uid, m, ok)]
               /\ (ok = true ->
                   last_summary_date p_d = Some (date_key now))))
  /\ users_get uid (users_file (disk (snd res))) = Some p_d
  /\ record_after p K p_d
  /\ (last_summary_date p_d = last_summary_date p
      \/ last_summary_date p_d = Some (date_key now))
  /\ (forall p_m, fst res = Some p_m ->
        record_after p K p_m
        /\ last_summary_date p_m
           = if summary_due now p then Some (date_key now)
             else last_summary_date p).

(** What a tick does for a user whose record [p] is in the file: [B], [R]
    and [S] are the briefs, reminders and summaries the user is sent, [K]
    the keys of the reminders delivered, [q] the user's record in the file
    after the tick. *)
Definition tick_post (env : Env) (uid : string) (p : Profile) (w : World)
    (res : option bool * World) (B R S : list (string * Message * bool))
    (K : gset string) (q : Profile) : Prop :=
  let now := get_user_now env p in
  (exists d, outbox (snd res) = outbox w ++ d /\ sent_to uid d = B ++ R ++ S)
  /\ (B = []
      \/ (brief_due env p = true
          /\ exists m ok, is_morning_brief m = true /\ B = [(uid, m, ok)]))
  /\ Forall (fun e => exists t x,
               e = (uid, Reminder t x,
                    bool_decide (is_Some (bot_send env uid (Reminder t x))))
               /\ t = current_time_of now
               /\ In (PlanDict (Some t) x) (day_plans p (today_weekday now))
               /\ sent_key (date_key now) t x ∉ sent_keys p) R
  /\ NoDup R
  /\ (forall k, k ∈ K <->
                exists t x, In (uid, Reminder t x, true) R
                            /\ k = sent_key (date_key now) t x)
  /\ (S = []
      \/ (summary_due now p = true
          /\ exists m ok,
               is_evening_summary m = true /\ S = [(uid, m, ok)]
               /\ (ok = true -> last_summary_date q = Some (date_key now))))
  /\ users_get uid (users_file (disk (snd res))) = Some q
  /\ record_after p K q
  /\ (last_summary_date q = last_summary_date p
      \/ last_summary_date q = Some (date_key now))
  /\ (fst res = Some true ->
      (brief_due env p = true -> is_Some (user_plans p) -> B <> [])
      /\ (forall t x,
            In (PlanDict (Some t) x) (day_plans p (today_weekday now)) ->
            t = current_time_of now ->
            sent_key (date_key now) t x ∉ sent_keys p ->
            In (uid, Reminder t x, true) R)
      /\ (summary_due now p = true -> S <> []))
  /\ ids (users_file (disk (snd res))) = ids (users_file (disk w)).

(** The requests for the reminder of an item, and the delivered ones; the
    summaries delivered to a user. *)
Definition reminder_requests (uid t x : string)
    (l : list (string * Message * bool)) : list (string * Message * bool) :=
  List.filter (fun e => String.eqb (fst (fst e)) uid
                        && bool_decide (snd (fst e) = Reminder t x)) l.

Definition reminders_delivered (uid t x : string)
    (l : list (string * Message * bool)) : list (string * Message * bool) :=
  List.filter (fun e => String.eqb (fst (fst e)) uid
                        && (bool_decide (snd (fst e) = Reminder t x) && snd e)) l.

Definition summaries_delivered (uid : string)
    (l : list (string * Message * bool)) : list (string * Message * bool) :=
  List.filter (fun e => String.eqb (fst (fst e)) uid
                        && (is_evening_summary (snd (fst e)) && snd e)) l.

(* ===================================================================== *)
(** ** Concrete inputs *)
(* ===================================================================== *)

Module ItogExample.
Definition item_a : plan := PlanDict None "A".
Definition item_b : plan := PlanDict None "B".
Definition item_c : plan := PlanDict None "C".

Definition monday : Now := mkNow 21 30 Monday "2025-01-06" "06.01.2025".

Definition env : Env := mkEnv (fun _ _ => Some 100) (fun _ => monday).

Definition user (live : list plan) (session : option ItogState) : Profile :=
  mkProfile (Some DEFAULT_TIMEZONE) (Some "09:00")
            (Some {[ Monday := live ]}) true None None session None None ∅.

(** A user with the plan [A, B] for today and no session. *)
Definition w0 : World := start_world [("1", user [item_a; item_b] None)] ∅.

(** [/itog], then "yes" to the first question. *)
Definition w1 : World :=
  snd (handle_itog_response env "1" Da (snd (start_itog env "1" w0))).

(** A session over the snapshot [A, B] with [A] ticked off and [B] being
    asked, while the live plan has since become [A, B, C]. *)
Definition session : ItogState :=
  mkItogState "06.01.2025" Monday [item_a; item_b] 1 {[ 0 ]} (Some 7) (Some 8).

Definition w_edited : World :=
  start_world [("1", user [item_a; item_b; item_c] (Some session))] ∅.

End ItogExample.

Module SchedulerExample.
Definition run_item : plan := PlanDict (Some "08:00") "run".

Definition at_time (h m : nat) : Now :=
  mkNow h m Monday "2025-01-06" "06.01.2025".

(** Every send succeeds. *)
Definition env_at (h m : nat) : Env :=
  mkEnv (fun _ _ => Some 500) (fun _ => at_time h m).

(** The chat of user 1 cannot be reached; the others can. *)
Definition env_unreachable (h m : nat) : Env :=
  mkEnv (fun chat _ => if String.eqb chat "1" then None else Some 500)
        (fun _ => at_time h m).

(** Brief at 07:00, and the same item twice in Monday's plan. *)
Definition runner (keys : gset string) : Profile :=
  mkProfile (Some DEFAULT_TIMEZONE) (Some "07:00")
            (Some {[ Monday := [run_item; run_item] ]})
            true None None None None None keys.

(** Brief at 08:00, no plans. *)
Definition reader : Profile :=
  mkProfile (Some DEFAULT_TIMEZONE) (Some "08:00") (Some ∅)
            true None None None None None ∅.

(** Setup done, no notification time given. *)
Definition sleeper : Profile :=
  mkProfile (Some DEFAULT_TIMEZONE) None (Some ∅)
            true None None None None None ∅.

Definition two_users : Users := [("1", runner ∅); ("2", reader)].

Definition two_readers : Users := [("1", reader); ("2", reader)].

Definition run_key : string := sent_key "2025-01-06" "08:00" "run".
End SchedulerExample.

Module TimeExample.
(** User 1 has been asked for the notification time. *)
Definition w_waiting : World :=
  mkWorld (mkDisk [("1", SchedulerExample.sleeper)] ∅) []
          (mkContext true None None false).

Definition env : Env := SchedulerExample.env_at 12 0.
End TimeExample.

Module PlanExample.
Definition items : list plan :=
  [PlanDict (Some "08:00") "Item A"; PlanDict None "Item B";
   PlanDict (Some "23:59") "Item C"].

Definition w : World := start_world [("1", SchedulerExample.sleeper)] ∅.
End PlanExample.

(* ===================================================================== *)
(** ** A whole itog session *)
(* ===================================================================== *)

(** The answers of a user to the questions of a session, one update
    after the other. *)
Fixpoint answer_all (env : Env) (uid : string) (answers : list Answer)
    (w : World) : World :=
  match answers with
  | [] => w
  | a :: rest => answer_all env uid rest (snd (handle_itog_response env uid a w))
  end.

(** The items of a plan answered with no, and the number of those
    answered with yes. *)
Fixpoint items_left (ps : list plan) (answers : list Answer) : list plan :=
  match ps, answers with
  | p :: ps', Net :: rest => p :: items_left ps' rest
  | _ :: ps', Da :: rest => items_left ps' rest
  | _, _ => []
  end.

Fixpoint count_yes (answers : list Answer) : nat :=
  match answers with
  | [] => 0
  | Da :: rest => S (count_yes rest)
  | Net :: rest => count_yes rest
  end.

(** The positions answered with yes, the first answer being for
    position [n]. *)
Fixpoint yes_positions (n : nat) (answers : list Answer) : gset nat :=
  match answers with
  | [] => ∅
  | Da :: rest => {[ n ]} ∪ yes_positions (S n) rest
  | Net :: rest => yes_positions (S n) rest
  end.

(** A transport that delivers every message. *)
Definition always_delivers (env : Env) : Prop :=
  forall chat m, is_Some (bot_send env chat m).

(** A request for a reminder that the transport did not deliver. *)
Definition is_failed_reminder (e : string * Message * bool) : bool :=
  is_reminder (snd (fst e)) && negb (snd e).

(** The flag of a request is what the transport made of it. *)
Definition from_transport (env : Env) (e : string * Message * bool) : Prop :=
  snd e = bool_decide (is_Some (bot_send env (fst (fst e)) (snd (fst e)))).

(** The requests [D] of a part of the scheduler's tick that started in
    [w]: a part that ends normally has no failed reminder among them, a
    part that ends with an exception has one, which is its last request. *)
Definition cut_post {A} (env : Env) (w : World) (res : option A * World)
    (D : list (string * Message * bool)) : Prop :=
  outbox (snd res) = outbox w ++ D
  /\ Forall (from_transport env) D
  /\ match fst res with
     | Some _ => Forall (fun e => is_failed_reminder e = false) D
     | None =>
         exists D' e,
           D = D' ++ [e] /\ is_failed_reminder e = true
           /\ Forall (fun e => is_failed_reminder e = false) D'
     end.

Module TurnExample.
(** Brief at 08:00 and an item at 08:00 in Monday's plan. *)
Definition early_runner : Profile :=
  mkProfile (Some DEFAULT_TIMEZONE) (Some "08:00")
            (Some {[ Monday := [SchedulerExample.run_item] ]})
            true (Some 41) None None None None ∅.

(** Setup done, brief at 09:00 by default, and no plans table: the record
    of a user who went through [/plan] without [/start]. *)
Definition no_table : Profile :=
  mkProfile None None None true None None None (Some 7) (Some "3") ∅.
End TurnExample.

Module FailureExample.
(** Brief at 07:00 and the item "run" at 08:00 in Monday's plan. *)
Definition jogger : Profile :=
  mkProfile (Some DEFAULT_TIMEZONE) (Some "07:00")
            (Some {[ Monday := [SchedulerExample.run_item] ]})
            true None None None None None ∅.

(** Two users with the same item due at 08:00. *)
Definition two_joggers : Users := [("1", jogger); ("2", jogger)].

(** Two users with the item twice in Monday's plan. *)
Definition two_runners : Users :=
  [("1", SchedulerExample.runner ∅); ("2", SchedulerExample.runner ∅)].

(** An item at the minute of the evening summary. *)
Definition night_item : plan := PlanDict (Some "23:59") "sleep".

Definition night_owl : Profile :=
  mkProfile (Some DEFAULT_TIMEZONE) (Some "07:00")
            (Some {[ Monday := [night_item] ]})
            true None None None None None ∅.

(** User 1 has an item at 23:59, user 2 has none and no summary yet. *)
Definition owl_and_sleeper : Users :=
  [("1", night_owl); ("2", SchedulerExample.sleeper)].

(** An item that starts with [1²:00], the second character being the
    superscript two U+00B2: five characters, a colon in the middle, and
    [isdigit()] true of both halves. *)
Definition superscript_item : string :=
  String "1" (String (ascii_of_nat 178) ":00 x").

(** A plan entry of two items, the second being that one. *)
Definition superscript_entry : string := "08:00 Item A; " +:+ superscript_item.
End FailureExample.

(* ===================================================================== *)
(** ** Message texts *)
(* ===================================================================== *)

(** The texts the bot composes hold characters of any code point (Cyrillic
    letters, dashes, emoji), so a text here is the list of its code
    points.  A text that comes from the user or the clock is a [string]
    as before and enters a message through [of_str]; a literal of the
    source is written as it is in the source and read through [lit],
    which decodes the UTF-8 bytes this file stores it in. *)
Module PyText.

Definition text : Type := list N.

(** A [str] whose code points are below 256, as a text. *)
Definition of_str (s : string) : text :=
  map N_of_ascii (list_ascii_of_string s).

Fixpoint utf8_decode (bs : list N) : text :=
  match bs with
  | [] => []
  | b0 :: r =>
      if (b0 <? 128)%N then b0 :: utf8_decode r
      else if (b0 <? 224)%N then
        match r with
        | b1 :: r' => ((b0 - 192) * 64 + (b1 - 128))%N :: utf8_decode r'
        | _ => []
        end
      else if (b0 <? 240)%N then
        match r with
        | b1 :: b2 :: r' =>
            ((b0 - 224) * 4096 + (b1 - 128) * 64 + (b2 - 128))%N
              :: utf8_decode r'
        | _ => []
        end
      else
        match r with
        | b1 :: b2 :: b3 :: r' =>
            ((b0 - 240) * 262144 + (b1 - 128) * 4096 + (b2 - 128) * 64
             + (b3 - 128))%N :: utf8_decode r'
        | _ => []
        end
  end.

(** A string literal of the source. *)
Definition lit (s : string) : text := utf8_decode (of_str s).

(** [s.replace(old, new)] for a one-character [old]. *)
Definition replace1 (old : N) (new : text) (s : text) : text :=
  flat_map (fun c => if (c =? old)%N then new else [c]) s.

(** [sep.join(parts)] *)
Fixpoint join (sep : text) (parts : list text) : text :=
  match parts with
  | [] => []
  | [p] => p
  | p :: ps => p ++ sep ++ join sep ps
  end.

End PyText.

Definition DAYS_OF_WEEK : list PyText.text :=
  map PyText.lit
      ["Понедельник"; "Вторник"; "Среда"; "Четверг"; "Пятница"; "Суббота";
       "Воскресенье"].

(** The name a day has in the users file: [DAYS_OF_WEEK[i]]. *)
Definition day_title (d : weekday) : PyText.text :=
  nth (weekday_index d) DAYS_OF_WEEK [].

(** [escape_html(text)] *)
Definition escape_html (t : PyText.text) : PyText.text :=
  PyText.replace1 62 (PyText.lit "&gt;")
    (PyText.replace1 60 (PyText.lit "&lt;")
       (PyText.replace1 38 (PyText.lit "&amp;") t)).

(** [format_plan_line(plan)]: a time that is [None] or empty is left
    out. *)
Definition format_plan_line (p : plan) : PyText.text :=
  match p with
  | PlanDict time text =>
      match time with
      | Some t =>
          if String.eqb t "" then PyText.of_str text
          else PyText.of_str t ++ PyText.lit " — " ++ PyText.of_str text
      | None => PyText.of_str text
      end
  | PlanStr s => PyText.of_str s
  end.

(** One line of the check-list (lines 339-342). *)
Definition itog_list_line (completed : gset nat) (ip : nat * plan)
  : PyText.text :=
  let plan_text := escape_html (format_plan_line (snd ip)) in
  let plan_text :=
    if bool_decide (fst ip ∈ completed)
    then PyText.lit "<s>" ++ plan_text ++ PyText.lit "</s>"
    else plan_text in
  PyText.of_str (pretty (fst ip + 1)) ++ PyText.lit ". " ++ plan_text.

(** [build_itog_list_text(day_name, date_text, plans, completed)] *)
Definition build_itog_list_text (day : weekday) (date_text : string)
    (plans : list plan) (completed : gset nat) : PyText.text :=
  let lines :=
    [PyText.lit "📘 Итоговый чек-лист: " ++ PyText.of_str date_text
       ++ PyText.lit " • " ++ day_title day;
     []] in
  let lines :=
    match plans with
    | [] => lines ++ [PyText.lit "На сегодня планов нет."]
    | _ :: _ => lines ++ map (itog_list_line completed) (enumerate plans)
    end in
  let lines :=
    match plans with
    | [] => lines
    | _ :: _ =>
        lines ++ [[]; PyText.lit "Жми «Да» или «Нет» для каждого пункта ниже."]
    end in
  PyText.join (PyText.lit (String (ascii_of_nat 10) "")) lines.

(** *** Text for the HTML parse mode *)

(** None of [&], [<] and [>]. *)
Definition no_markup (t : PyText.text) : bool :=
  forallb (fun c => negb ((c =? 38)%N || (c =? 60)%N || (c =? 62)%N)) t.

(** Text without tags: characters other than [&], [<] and [>], and the
    entities for these three. *)
Inductive html_plain : PyText.text -> Prop :=
  | plain_nil : html_plain []
  | plain_char c t :
      c <> 38%N -> c <> 60%N -> c <> 62%N ->
      html_plain t -> html_plain (c :: t)
  | plain_entity e t :
      In e [PyText.lit "&amp;"; PyText.lit "&lt;"; PyText.lit "&gt;"] ->
      html_plain t -> html_plain (e ++ t).

(** Text whose only tags are pairs [<s>] ... [</s>] around text without
    tags. *)
Inductive html_ok : PyText.text -> Prop :=
  | ok_nil : html_ok []
  | ok_plain a b : html_plain a -> html_ok b -> html_ok (a ++ b)
  | ok_strike a b :
      html_plain a -> html_ok b ->
      html_ok (PyText.lit "<s>" ++ a ++ PyText.lit "</s>" ++ b).

(* ===================================================================== *)
(** ** The dialogue: [/start], the menus, plan setup, global plans *)
(* ===================================================================== *)

Definition set_timezone (v : option string) (p : Profile) : Profile :=
  mkProfile v (notification_time p) (user_plans p) (setup_complete p)
            (last_message_id p) (last_summary_date p) (itog_state p)
            (last_bot_message_id p) (last_bot_message_chat_id p) (sent_keys p).

Definition set_setup_complete (v : bool) (p : Profile) : Profile :=
  mkProfile (timezone p) (notification_time p) (user_plans p) v
            (last_message_id p) (last_summary_date p) (itog_state p)
            (last_bot_message_id p) (last_bot_message_chat_id p) (sent_keys p).

(** [{day: [] for day in DAYS_OF_WEEK}] *)
Definition empty_week : gmap weekday (list plan) :=
  list_to_map
    (map (fun d => (d, []))
         [Monday; Tuesday; Wednesday; Thursday; Friday; Saturday; Sunday]).

Definition TIMEZONES : list string :=
  ["Asia/Irkutsk"; "Europe/Moscow"; "Europe/Kaliningrad"; "Asia/Yekaterinburg";
   "Asia/Krasnoyarsk"; "Asia/Vladivostok"].

Module Dialog.

(** The labels of the reply keyboards that the handlers compare a text
    with.  Each of them holds a code point above 255. *)
Inductive Button :=
  | BtnSetupPlans       (* "📋 Настроить планы" *)
  | BtnGlobalPlans      (* "🌍 Глобальные планы" *)
  | BtnMyPlans          (* "Мои планы" *)
  | BtnTimezone         (* "🌐 Часовой пояс" *)
  | BtnSkipAll          (* "⏭️ Пропустить все" *)
  | BtnDone             (* "✅ Готово" *)
  | BtnDeleteDay        (* "🗑️ Удалить планы на день" *)
  | BtnDay (d : weekday)  (* DAYS_SHORT: "Пн", "Вт", ... *)
  | BtnSkipDay          (* "⏭️ Пропустить день" *)
  | BtnCancel           (* "❌ Отмена" *)
  | BtnSupplement       (* "➕ Дополнить" *)
  | BtnChange           (* "✏️ Изменить" *)
  | BtnContinue         (* "➡️ Продолжить" *)
  | BtnAdd              (* "➕ Добавить" *)
  | BtnEdit             (* "✏️ Редактировать" *)
  | BtnDelete           (* "🗑️ Удалить" *)
  | BtnBack.            (* "⬅️ Назад" *)

#[global] Instance Button_eq_dec : EqDecision Button.
Proof. solve_decision. Defined.

(** The text of an update: the label of a button, as pressing it sends
    it, or a text whose code points are below 256, which is no label and
    which the handlers strip where the source does. *)
Inductive Input :=
  | Pressed (b : Button)
  | Typed (s : string).

(** The texts that reach [enter_plans]: the two labels it knows, or a
    plan entry. *)
Inductive PlanInput :=
  | Cancel              (* "❌ Отмена" *)
  | SkipDay             (* "⏭️ Пропустить день" *)
  | Entry (s : string).

(** ['replace'] and ['supplement'] of [context.user_data['action']],
    ['replace'] and ['add'] of [context.user_data['global_action']]. *)
Inductive Action := Replace | Supplement.
Inductive GlobalAction := GlobalReplace | GlobalAdd.

(** [context.user_data].  A flag that is absent reads as [False], an
    action that is absent as ['replace'], [current_day] that is absent as
    [None].  [current_plans] is [None] when the key is absent, which
    [.get('current_plans', [])] reads as the empty list, and when
    [enter_plans] stored [None] for a skipped day, together with
    [skip_day = True].  The branch for the button to continue reads the
    value only with [skip_day] false, that is, for a skipped day, only
    when it runs a second time without an entry in between (its reply
    having failed after it had reset [skip_day]); the code then writes
    the [None] as the day's plan, which a table of lists does not hold:
    there, and only there, [store_day_plans] below stands for the code up
    to the readers that take a day's [None] for no plans, which all are
    but the loop of the scheduler and the branch to supplement.
    [setup_day] and [day_index] are written and never used. *)
Record Context := mkContext {
  waiting_for_time : bool;
  choosing_timezone : bool;
  action : Action;
  deleting_day : bool;
  current_day : option weekday;
  current_plans : option (list plan);
  skip_day : bool;
  global_action : GlobalAction;
}.

Definition empty_context : Context :=
  mkContext false false Replace false None None false GlobalReplace.

Definition set_waiting_for_time (v : bool) (c : Context) : Context :=
  mkContext v (choosing_timezone c) (action c) (deleting_day c)
            (current_day c) (current_plans c) (skip_day c) (global_action c).

Definition set_choosing_timezone (v : bool) (c : Context) : Context :=
  mkContext (waiting_for_time c) v (action c) (deleting_day c)
            (current_day c) (current_plans c) (skip_day c) (global_action c).

Definition set_action (v : Action) (c : Context) : Context :=
  mkContext (waiting_for_time c) (choosing_timezone c) v (deleting_day c)
            (current_day c) (current_plans c) (skip_day c) (global_action c).

Definition set_deleting_day (v : bool) (c : Context) : Context :=
  mkContext (waiting_for_time c) (choosing_timezone c) (action c) v
            (current_day c) (current_plans c) (skip_day c) (global_action c).

Definition set_current_day (v : option weekday) (c : Context) : Context :=
  mkContext (waiting_for_time c) (choosing_timezone c) (action c)
            (deleting_day c) v (current_plans c) (skip_day c) (global_action c).

Definition set_current_plans (v : option (list plan)) (c : Context) : Context :=
  mkContext (waiting_for_time c) (choosing_timezone c) (action c)
            (deleting_day c) (current_day c) v (skip_day c) (global_action c).

Definition set_skip_day (v : bool) (c : Context) : Context :=
  mkContext (waiting_for_time c) (choosing_timezone c) (action c)
            (deleting_day c) (current_day c) (current_plans c) v
            (global_action c).

Definition set_global_action (v : GlobalAction) (c : Context) : Context :=
  mkContext (waiting_for_time c) (choosing_timezone c) (action c)
            (deleting_day c) (current_day c) (current_plans c) (skip_day c) v.

(** What [review_plans] shows: the plans a skipped day keeps, or the
    pending ones. *)
Inductive ReviewBody :=
  | KeptAsItIs (existing : list plan)
  | PendingPlans (pending : list plan).

(** The messages of these handlers, by kind and payload; wording and
    reply keyboards are left out. *)
Inductive Reply :=
  | Welcome                 (* "🎯 Привет, ..." *)
  | AskNotificationTime     (* "⏰ Во сколько напоминать о планах? ..." *)
  | TimeSaved (time : string)   (* "✅ Отлично! Теперь я буду писать в ..." *)
  | TimeError               (* "❌ Не получилось прочитать время. ..." *)
  | MainMenuPrompt          (* "Главное меню:" *)
  | TimezoneUpdated (tz : string)  (* "✅ Часовой пояс обновлён: ..." *)
  | TimezoneUnknown         (* "❌ Не узнал этот часовой пояс. ..." *)
  | ChooseNext              (* "Выбери, чем займёмся дальше:" *)
  | StartFirstForPlans      (* "Сначала запусти /start — так я узнаю твои планы 😉" *)
  | WeeklyPlans (table : option (gmap weekday (list plan)))
                            (* format_weekly_plans_text(user) *)
  | ChooseFirstDay          (* "📅 С какого дня начнём? ..." *)
  | KeepEverything          (* "👌 Оставляем всё, как есть. ..." *)
  | PlansSaved              (* "✅ Отлично! Планы сохранены. ..." *)
  | ChooseDayToDelete       (* "Выбери день, у которого нужно полностью удалить планы:" *)
  | PickDayToDelete         (* "❌ Выбери день недели с клавиатуры." *)
  | DayPlansDeleted (d : weekday)  (* "🗑️ Все планы на {day_name} удалены." *)
  | PickDayFromList         (* "❌ Выбери, пожалуйста, день из списка на клавиатуре." *)
  | EnterPlansFor (d : weekday)    (* "📝 {day}\n\nПеречисли планы ..." *)
  | EntryCancelled          (* "Окей, отменяем. Вот меню:" *)
  | ReviewDay (d : option weekday) (body : ReviewBody)
                            (* "✅ Всё готово для {current_day}! ..." *)
  | AskSupplement           (* "Добавь пункты через точку с запятой. ..." *)
  | AskReplacement          (* "Введи планы заново ..." *)
  | DayDone (d : option weekday)   (* "✨ {current_day} готов. ..." *)
  | StartFirstForTimezone   (* "Сначала запусти /start 😉" *)
  | ChooseTimezone          (* "Выбери свой часовой пояс (по названию региона):" *)
  | GlobalMenu (user_plans : list string)
                            (* "🌍 Твои глобальные ориентиры: ..." or "🌍 Пока нет записей. ..." *)
  | AskGlobalAdd            (* "Перечисли глобальные планы через точку с запятой ..." *)
  | AskGlobalReplacement    (* "Напиши глобальные планы заново ..." *)
  | GlobalCleared           (* "✅ Глобальные планы очищены. ..." *)
  | NothingToDelete         (* "❌ Пока нечего удалять — список пуст." *)
  | BackToMenu              (* "Возвращаю в главное меню:" *)
  | MenuOpen                (* "Главное меню открыто:" *)
  | GlobalUpdated.          (* "✅ Глобальные планы обновлены! ..." *)

#[global] Instance ReviewBody_eq_dec : EqDecision ReviewBody.
Proof. solve_decision. Defined.

#[global] Instance Reply_eq_dec : EqDecision Reply.
Proof. solve_decision. Defined.

(** The states of the [ConversationHandler]. *)
Inductive ConvState :=
  | MAIN_MENU | SETUP_PLANS | CHOOSING_DAY | ENTERING_PLANS | REVIEW_PLANS
  | GLOBAL_MENU | ENTERING_GLOBAL_PLANS | REVIEWING_GLOBAL | ITOG_REVIEW.

(** The transport: the id of the new message, or [None] when the call
    raises. *)
Record Env := mkEnv {
  transport : string -> Reply -> option nat;
}.

(** The files, the requests to send (chat, message, delivered or not)
    and the [context.user_data] of the user whose update is handled.
    [cleanup_user_message], which the handlers call first, deletes the
    user's own message and swallows every error: it touches none of the
    three.  A record of the users file is a dict with a key, as every
    record the bot writes is, so [not user] tests for a missing record. *)
Record State := mkState {
  files : Disk;
  replies : list (string * Reply * bool);
  user_data : Context;
}.

Definition Act (A : Type) : Type := State -> option A * State.

Definition ret {A} (a : A) : Act A := fun s => (Some a, s).

Definition bind {A B} (m : Act A) (k : A -> Act B) : Act B :=
  fun s => match m s with
           | (Some a, s') => k a s'
           | (None, s') => (None, s')
           end.

Declare Scope dialog_scope.
Notation "x <- m ;; k" := (bind m (fun x => k)) : dialog_scope.
Notation "m ;;; k" := (bind m (fun _ => k)) : dialog_scope.
#[local] Open Scope dialog_scope.

(** [raise] *)
Definition raise {A} : Act A := fun s => (None, s).

Definition load_users : Act Users := fun s => (Some (users_file (files s)), s).

Definition save_users (us : Users) : Act unit :=
  fun s => (Some tt, mkState (mkDisk us (global_plans_file (files s)))
                            (replies s) (user_data s)).

Definition load_global_plans : Act (gmap string (list string)) :=
  fun s => (Some (global_plans_file (files s)), s).

Definition save_global_plans (plans : gmap string (list string)) : Act unit :=
  fun s => (Some tt, mkState (mkDisk (users_file (files s)) plans)
                            (replies s) (user_data s)).

Definition get_context : Act Context := fun s => (Some (user_data s), s).

Definition update_context (f : Context -> Context) : Act unit :=
  fun s => (Some tt, mkState (files s) (replies s) (f (user_data s))).

(** [message.reply_text(...)] *)
Definition reply_text (env : Env) (chat : string) (r : Reply) : Act nat :=
  fun s => (transport env chat r,
            mkState (files s)
                    (replies s
                     ++ [(chat, r, bool_decide (is_Some (transport env chat r)))])
                    (user_data s)).

(** [send_and_replace(update, users, text, reply_markup)], as before:
    the users dict handed in is updated and saved. *)
Definition send_and_replace (env : Env) (uid : string) (users : Users)
    (r : Reply) : Act Users :=
  let user := default empty_profile (users_get uid users) in
  id <- reply_text env uid r ;;
  let users' := users_set uid (set_last_bot_message id uid user) users in
  save_users users' ;;;
  ret users'.

(** [users[user_id]]: a [KeyError] for an id the dict lacks. *)
Definition users_item (uid : string) (users : Users) : Act Profile :=
  match users_get uid users with
  | Some user => ret user
  | None => raise
  end.

(** [not user.get("notification_time")] *)
Definition no_notification_time (user : Profile) : bool :=
  match notification_time user with
  | None => true
  | Some t => String.eqb t ""
  end.

(** [prompt_notification_time] *)
Definition prompt_notification_time (env : Env) (uid : string) : Act unit :=
  update_context (set_waiting_for_time true) ;;;
  users <- load_users ;;
  send_and_replace env uid users AskNotificationTime ;;;
  ret tt.

(** [ensure_notification_time(update, context, user)] *)
Definition ensure_notification_time (env : Env) (uid : string) (user : Profile)
  : Act bool :=
  if no_notification_time user then
    ctx <- get_context ;;
    (if waiting_for_time ctx then ret tt
     else prompt_notification_time env uid) ;;;
    ret true
  else ret false.

(** The [setdefault] calls of [start] on a record that exists. *)
Definition with_defaults (user : Profile) : Profile :=
  mkProfile (Some (default DEFAULT_TIMEZONE (timezone user)))
            (notification_time user)
            (Some (default empty_week (user_plans user)))
            (setup_complete user) (last_message_id user)
            (last_summary_date user) (itog_state user)
            (last_bot_message_id user) (last_bot_message_chat_id user)
            (sent_keys user).

(** [start] *)
Definition start (env : Env) (uid : string) : Act ConvState :=
  users <- load_users ;;
  let user :=
    match users_get uid users with
    | None => new_profile
    | Some user => with_defaults user
    end in
  let users := users_set uid user users in
  save_users users ;;;
  reply_text env uid Welcome ;;;
  ensure_notification_time env uid user ;;;
  ret MAIN_MENU.

(** [setup_plans] *)
Definition setup_plans (env : Env) (uid : string) : Act ConvState :=
  users <- load_users ;;
  update_context (fun c => set_deleting_day false (set_action Replace c)) ;;;
  send_and_replace env uid users ChooseFirstDay ;;;
  ret CHOOSING_DAY.

(** [plan_command] *)
Definition plan_command (env : Env) (uid : string) : Act ConvState :=
  setup_plans env uid.

(** The search through [DAYS_SHORT] for the text. *)
Definition day_of_input (i : Input) : option weekday :=
  match i with
  | Pressed (BtnDay d) => Some d
  | _ => None
  end.

(** [users[user_id]['setup_complete'] = True] followed by the save, the
    message and the question for the notification time (lines 586-597
    and 600-610). *)
Definition finish_setup (env : Env) (uid : string) (users : Users)
    (r : Reply) : Act ConvState :=
  user <- users_item uid users ;;
  let users := users_set uid (set_setup_complete true user) users in
  save_users users ;;;
  users <- send_and_replace env uid users r ;;
  user <- users_item uid users ;;
  ensure_notification_time env uid user ;;;
  ret MAIN_MENU.

(** [choose_day] *)
Definition choose_day (env : Env) (uid : string) (i : Input) : Act ConvState :=
  users <- load_users ;;
  match i with
  | Pressed BtnSkipAll => finish_setup env uid users KeepEverything
  | Pressed BtnDone => finish_setup env uid users PlansSaved
  | Pressed BtnDeleteDay =>
      send_and_replace env uid users ChooseDayToDelete ;;;
      update_context (set_deleting_day true) ;;;
      ret CHOOSING_DAY
  | _ =>
      ctx <- get_context ;;
      if deleting_day ctx then
        match day_of_input i with
        | None =>
            send_and_replace env uid users PickDayToDelete ;;;
            ret CHOOSING_DAY
        | Some d =>
            user <- users_item uid users ;;
            match user_plans user with
            | None => raise                          (* KeyError: 'plans' *)
            | Some table =>
                let users :=
                  users_set uid (set_user_plans (Some (<[ d := [] ]> table)) user)
                            users in
                save_users users ;;;
                update_context (set_deleting_day false) ;;;
                send_and_replace env uid users (DayPlansDeleted d) ;;;
                ret MAIN_MENU
            end
        end
      else
        match day_of_input i with
        | None =>
            send_and_replace env uid users PickDayFromList ;;;
            ret CHOOSING_DAY
        | Some d =>
            update_context
              (fun c => set_skip_day false (set_current_day (Some d) c)) ;;;
            send_and_replace env uid users (EnterPlansFor d) ;;;
            ret ENTERING_PLANS
        end
  end.

(** [review_plans] *)
Definition review_plans (env : Env) (uid : string) : Act ConvState :=
  users <- load_users ;;
  ctx <- get_context ;;
  body <-
    (if skip_day ctx then
       user <- users_item uid users ;;
       match user_plans user with
       | None => raise                               (* KeyError: 'plans' *)
       | Some table =>
           ret (KeptAsItIs
                  (default [] (d ← current_day ctx; table !! d)))
       end
     else ret (PendingPlans (default [] (current_plans ctx)))) ;;
  send_and_replace env uid users (ReviewDay (current_day ctx) body) ;;;
  ret REVIEW_PLANS.

(** [enter_plans] *)
Definition enter_plans (env : Env) (uid : string) (i : PlanInput)
  : Act ConvState :=
  users <- load_users ;;
  match i with
  | Cancel =>
      send_and_replace env uid users EntryCancelled ;;;
      ret MAIN_MENU
  | SkipDay =>
      update_context (fun c => set_skip_day true (set_current_plans None c)) ;;;
      review_plans env uid
  | Entry message_text =>
      match parse_plan_items (raw_items (PyStr.strip message_text)) with
      | None => raise                                (* ValueError of int() *)
      | Some plans =>
          update_context
            (fun c => set_skip_day false (set_current_plans (Some plans) c)) ;;;
          review_plans env uid
      end
  end.

(** The assignment of lines 790-794.  A [current_day] that is [None] is
    no key of the table of the seven days. *)
Definition store_day_plans (ctx : Context) (user : Profile) : Act Profile :=
  match user_plans user with
  | None => raise                                    (* KeyError: 'plans' *)
  | Some table =>
      let plans := default [] (current_plans ctx) in
      match action ctx, plans with
      | Supplement, _ :: _ =>
          match current_day ctx with
          | None => raise                            (* KeyError: None *)
          | Some d =>
              match table !! d with
              | None => raise                        (* KeyError: the day *)
              | Some existing =>
                  ret (set_user_plans
                         (Some (<[ d := existing ++ plans ]> table)) user)
              end
          end
      | _, _ =>
          match current_day ctx with
          | None => ret user
          | Some d => ret (set_user_plans (Some (<[ d := plans ]> table)) user)
          end
      end
  end.

(** [handle_review_action] *)
Definition handle_review_action (env : Env) (uid : string) (i : Input)
  : Act ConvState :=
  users <- load_users ;;
  match i with
  | Pressed BtnSupplement =>
      send_and_replace env uid users AskSupplement ;;;
      update_context (set_action Supplement) ;;;
      ret ENTERING_PLANS
  | Pressed BtnChange =>
      send_and_replace env uid users AskReplacement ;;;
      update_context (set_action Replace) ;;;
      ret ENTERING_PLANS
  | Pressed BtnContinue =>
      ctx <- get_context ;;
      users <-
        (if skip_day ctx then ret users
         else
           user <- users_item uid users ;;
           user <- store_day_plans ctx user ;;
           ret (users_set uid user users)) ;;
      update_context (fun c => set_skip_day false (set_action Replace c)) ;;;
      save_users users ;;;
      send_and_replace env uid users (DayDone (current_day ctx)) ;;;
      ret CHOOSING_DAY
  | _ =>
      save_users users ;;;
      ret REVIEW_PLANS
  end.

(** [handle_time_input]: the label of a button has no colon, so the
    length test of the [try] raises on it. *)
Definition handle_time_input (env : Env) (uid : string) (i : Input)
  : Act ConvState :=
  users <- load_users ;;
  ctx <- get_context ;;
  if waiting_for_time ctx then
    match (match i with
           | Typed s => parse_time_input (PyStr.strip s)
           | Pressed _ => None
           end) with
    | Some t =>
        user <- users_item uid users ;;
        let users := users_set uid (set_notification_time (Some t) user) users in
        save_users users ;;;
        update_context (set_waiting_for_time false) ;;;
        send_and_replace env uid users (TimeSaved t) ;;;
        ret MAIN_MENU
    | None =>
        send_and_replace env uid users TimeError ;;;
        ret MAIN_MENU
    end
  else
    send_and_replace env uid users MainMenuPrompt ;;;
    ret MAIN_MENU.

(** [timezone_command] *)
Definition timezone_command (env : Env) (uid : string) : Act ConvState :=
  users <- load_users ;;
  match users_get uid users with
  | None =>
      send_and_replace env uid users StartFirstForTimezone ;;;
      ret MAIN_MENU
  | Some _ =>
      send_and_replace env uid users ChooseTimezone ;;;
      update_context (set_choosing_timezone true) ;;;
      ret MAIN_MENU
  end.

(** [global_plans_menu] *)
Definition global_plans_menu (env : Env) (uid : string) : Act ConvState :=
  users <- load_users ;;
  global_plans <- load_global_plans ;;
  send_and_replace env uid users
    (GlobalMenu (default [] (global_plans !! uid))) ;;;
  ret GLOBAL_MENU.

(** [show_weekly_plans(update, user, users)] for [user = users.get(user_id, {})] *)
Definition show_weekly_plans (env : Env) (uid : string) (users : Users)
  : Act unit :=
  match users_get uid users with
  | None =>
      send_and_replace env uid users StartFirstForPlans ;;;
      ret tt
  | Some user =>
      send_and_replace env uid users (WeeklyPlans (user_plans user)) ;;;
      ret tt
  end.

(** [main_menu] *)
Definition main_menu (env : Env) (uid : string) (i : Input) : Act ConvState :=
  users <- load_users ;;
  ctx <- get_context ;;
  if waiting_for_time ctx then handle_time_input env uid i
  else if choosing_timezone ctx then
    match i with
    | Typed s =>
        let tz := PyStr.strip s in
        if bool_decide (tz ∈ TIMEZONES) then
          users <-
            (match users_get uid users with
             | Some user =>
                 let users := users_set uid (set_timezone (Some tz) user) users in
                 save_users users ;;;
                 ret users
             | None => ret users
             end) ;;
          update_context (set_choosing_timezone false) ;;;
          send_and_replace env uid users (TimezoneUpdated tz) ;;;
          ret MAIN_MENU
        else
          send_and_replace env uid users TimezoneUnknown ;;;
          ret MAIN_MENU
    | Pressed _ =>
        send_and_replace env uid users TimezoneUnknown ;;;
        ret MAIN_MENU
    end
  else
    match i with
    | Pressed BtnSetupPlans => setup_plans env uid
    | Pressed BtnGlobalPlans => global_plans_menu env uid
    | Pressed BtnMyPlans =>
        show_weekly_plans env uid users ;;;
        ret MAIN_MENU
    | Pressed BtnTimezone => timezone_command env uid
    | _ =>
        send_and_replace env uid users ChooseNext ;;;
        ret MAIN_MENU
    end.

(** [handle_global_action] *)
Definition handle_global_action (env : Env) (uid : string) (i : Input)
  : Act ConvState :=
  users <- load_users ;;
  match i with
  | Pressed BtnAdd =>
      send_and_replace env uid users AskGlobalAdd ;;;
      update_context (set_global_action GlobalAdd) ;;;
      ret ENTERING_GLOBAL_PLANS
  | Pressed BtnEdit =>
      send_and_replace env uid users AskGlobalReplacement ;;;
      update_context (set_global_action GlobalReplace) ;;;
      ret ENTERING_GLOBAL_PLANS
  | Pressed BtnDelete =>
      global_plans <- load_global_plans ;;
      users <-
        (match global_plans !! uid with
         | Some _ =>
             save_global_plans (delete uid global_plans) ;;;
             send_and_replace env uid users GlobalCleared
         | None => send_and_replace env uid users NothingToDelete
         end) ;;
      send_and_replace env uid users BackToMenu ;;;
      ret MAIN_MENU
  | Pressed BtnBack =>
      send_and_replace env uid users MenuOpen ;;;
      ret MAIN_MENU
  | _ => ret GLOBAL_MENU
  end.

(** [enter_global_plans], for a text of code points below 256. *)
Definition enter_global_plans (env : Env) (uid : string) (message_text : string)
  : Act ConvState :=
  users <- load_users ;;
  global_plans <- load_global_plans ;;
  let new_plans := raw_items (PyStr.strip message_text) in
  ctx <- get_context ;;
  let global_plans :=
    match global_action ctx with
    | GlobalAdd =>
        <[ uid := default [] (global_plans !! uid) ++ new_plans ]> global_plans
    | GlobalReplace => <[ uid := new_plans ]> global_plans
    end in
  save_global_plans global_plans ;;;
  send_and_replace env uid users GlobalUpdated ;;;
  ret MAIN_MENU.

(** A transport that delivers every message. *)
Definition always_delivers (env : Env) : Prop :=
  forall chat r, is_Some (transport env chat r).

(** The state a handler starts from: the files as they are, nothing sent,
    the context as the updates before left it. *)
Definition start_state (d : Disk) (c : Context) : State := mkState d [] c.

End Dialog.

(** *** Notions the statements about the dialogue are written with *)

(** The fields of a record that [send_and_replace] does not write. *)
Definition same_but_bot_message (p q : Profile) : Prop :=
  timezone q = timezone p
  /\ notification_time q = notification_time p
  /\ user_plans q = user_plans p
  /\ setup_complete q = setup_complete p
  /\ last_message_id q = last_message_id p
  /\ last_summary_date q = last_summary_date p
  /\ itog_state q = itog_state p
  /\ sent_keys q = sent_keys p.

(** A property of every record of a users dict. *)
Definition all_users (P : Profile -> Prop) (us : Users) : Prop :=
  forall uid user, users_get uid us = Some user -> P user.

(** The time zone of a record, when it has one, is one of [TIMEZONES]. *)
Definition zone_listed (p : Profile) : Prop :=
  forall tz, timezone p = Some tz -> In tz TIMEZONES.

(** The users file has one record per id and listed time zones only. *)
Definition files_ok (d : Disk) : Prop :=
  distinct_ids (users_file d) /\ all_users zone_listed (users_file d).

(** One run of a handler or one tick of the scheduler, as a change of the
    files: any user, any input, any context, any transport and clock. *)
Inductive files_step : Disk -> Disk -> Prop :=
  | by_start env uid s :
      files_step (Dialog.files s) (Dialog.files (snd (Dialog.start env uid s)))
  | by_plan_command env uid s :
      files_step (Dialog.files s)
                 (Dialog.files (snd (Dialog.plan_command env uid s)))
  | by_main_menu env uid i s :
      files_step (Dialog.files s)
                 (Dialog.files (snd (Dialog.main_menu env uid i s)))
  | by_timezone_command env uid s :
      files_step (Dialog.files s)
                 (Dialog.files (snd (Dialog.timezone_command env uid s)))
  | by_choose_day env uid i s :
      files_step (Dialog.files s)
                 (Dialog.files (snd (Dialog.choose_day env uid i s)))
  | by_enter_plans env uid i s :
      files_step (Dialog.files s)
                 (Dialog.files (snd (Dialog.enter_plans env uid i s)))
  | by_handle_review_action env uid i s :
      files_step (Dialog.files s)
                 (Dialog.files (snd (Dialog.handle_review_action env uid i s)))
  | by_handle_global_action env uid i s :
      files_step (Dialog.files s)
                 (Dialog.files (snd (Dialog.handle_global_action env uid i s)))
  | by_enter_global_plans env uid text s :
      files_step (Dialog.files s)
                 (Dialog.files (snd (Dialog.enter_global_plans env uid text s)))
  | by_start_itog env uid w :
      files_step (disk w) (disk (snd (start_itog env uid w)))
  | by_handle_itog_response env uid answer w :
      files_step (disk w) (disk (snd (handle_itog_response env uid answer w)))
  | by_scheduler_tick env w :
      files_step (disk w) (disk (snd (scheduler_tick env w))).
(* ===================================================================== *)
(** ** Basic facts: the users dict, the monad *)
(* ===================================================================== *)

Lemma users_get_set_eq uid p us :
  users_get uid (users_set uid p us) = Some p.
Proof.
  induction us as [|[k q] us IH]; simpl.
  - rewrite decide_True; auto.
  - destruct (decide (k = uid)) as [->|Hne]; simpl.
    + rewrite decide_True; auto.
    + rewrite decide_False; auto.
Qed.

Lemma users_get_set_ne uid uid' p us :
  uid <> uid' -> users_get uid' (users_set uid p us) = users_get uid' us.
Proof.
  intros Hne. induction us as [|[k q] us IH]; simpl.
  - rewrite decide_False; auto.
  - destruct (decide (k = uid)) as [->|Hk]; simpl.
    + rewrite !decide_False; auto.
    + destruct (decide (k = uid')); auto.
Qed.

Lemma users_set_keys uid p us :
  is_Some (users_get uid us) ->
  map fst (users_set uid p us) = map fst us.
Proof.
  induction us as [|[k q] us IH]; simpl; intros [x Hx]; [discriminate|].
  destruct (decide (k = uid)) as [->|Hk]; simpl; [reflexivity|].
  f_equal. apply IH. eauto.
Qed.

#[local] Arguments Nat.leb : simpl never.
#[local] Arguments String.eqb : simpl never.

(** Unfolding of the monad's operations. *)
Ltac run :=
  unfold send_and_replace, bind, ret, raise, try_except, load_users,
    save_users, load_global_plans, send_message, get_context, set_context,
    profile_of, sent_since in *;
  simpl in *.

(* ===================================================================== *)
(** ** Itog: the session invariants, the empty plan, the results *)
(* ===================================================================== *)

Lemma users_ok_set uid p us :
  users_ok us ->
  (forall s, itog_state p = Some s -> itog_session_ok s) ->
  users_ok (users_set uid p us).
Proof.
  intros Hus Hp uid' user s Hget Hs.
  destruct (decide (uid = uid')) as [->|Hne].
  - rewrite users_get_set_eq in Hget. injection Hget as <-. auto.
  - rewrite users_get_set_ne in Hget by assumption. eauto.
Qed.

Lemma start_itog_users_ok env uid w :
  users_ok (users_file (disk w)) ->
  users_ok (users_file (disk (snd (start_itog env uid w)))).
Proof.
  intros Hok. unfold start_itog. run.
  destruct (users_get uid (users_file (disk w))) as [user|] eqn:Hu; simpl.
  - destruct (day_plans user _) as [|first rest] eqn:Hp; simpl.
    + destruct (bot_send env uid (Notice NoEntriesToday)); simpl; auto.
      apply users_ok_set; auto. simpl. intros s Hs. eapply Hok; eauto.
    + destruct (bot_send env uid (ItogList _ _ _)); simpl; auto.
      destruct (bot_send env uid (ItogQuestion 0 first)); simpl; auto.
      apply users_ok_set; auto. simpl. intros s [= <-].
      split; simpl; [lia|]. intros i Hi. set_solver.
  - destruct (bot_send env uid (Notice StartFirst)); simpl; auto.
    apply users_ok_set; auto. simpl. discriminate.
Qed.

Lemma handle_itog_response_users_ok env uid answer w :
  users_ok (users_file (disk w)) ->
  users_ok (users_file (disk (snd (handle_itog_response env uid answer w)))).
Proof.
  intros Hok. unfold handle_itog_response. run.
  destruct (users_get uid (users_file (disk w))) as [user|] eqn:Hu; simpl;
    [|destruct (bot_send env uid _); simpl; auto;
      apply users_ok_set; auto; simpl; discriminate].
  destruct (itog_state user) as [state|] eqn:Hst; simpl;
    [|destruct (bot_send env uid _); simpl; auto;
      apply users_ok_set; auto; simpl; intros s Hs; congruence].
  assert (Hcleared : forall u, users_ok (users_set uid (set_itog_state None u)
                                            (users_file (disk w)))).
  { intros u. apply users_ok_set; auto. simpl. discriminate. }
  assert (Hbot : forall id us, users_ok us ->
             users_ok (users_set uid
               (set_last_bot_message id uid
                  (default empty_profile (users_get uid us))) us)).
  { intros id us Hus. apply users_ok_set; auto. simpl.
    destruct (users_get uid us) as [q|] eqn:Hq; simpl; [|discriminate].
    intros s Hs. eapply Hus; eauto. }
  destruct (plans state) as [|p0 ps] eqn:Hplans; simpl.
  { destruct (bot_send env uid _); simpl; auto. }
  destruct (S (length ps) <=? current_index state) eqn:Hterm; simpl.
  { destruct (bot_send env uid (Notice AllItemsReviewed)); simpl; auto.
    destruct (bot_send env uid (Notice WhatNext)); simpl; auto. }
  apply Nat.leb_gt in Hterm.
  destruct (S (length ps) <=? current_index state + 1) eqn:Hlast; simpl.
  { destruct (bot_send env uid (ItogDone _ _)); simpl; auto.
    destruct (bot_send env uid (Notice BackToMainMenu)); simpl; auto. }
  apply Nat.leb_gt in Hlast.
  destruct ((p0 :: ps) !! (current_index state + 1)) as [item|] eqn:Hitem;
    simpl; auto.
  destruct (bot_send env uid (ItogQuestion _ item)); simpl; auto.
  apply users_ok_set; auto. simpl. intros s [= <-].
  assert (Hold : itog_session_ok state) by (eapply Hok; eauto).
  destruct Hold as [_ Hdone]. rewrite Hplans in Hdone. simpl in Hdone.
  split; simpl; rewrite Hplans; simpl; [lia|].
  intros i Hi. destruct answer; [|auto].
  apply elem_of_union in Hi as [Hi|Hi]; [|auto].
  apply elem_of_singleton in Hi. lia.
Qed.

Lemma itog_step_preserves w w' :
  itog_invariant w -> itog_step w w' -> itog_invariant w'.
Proof.
  intros Hinv Hstep. destruct Hstep as [env uid w|env uid answer w|w w' Hkeep].
  - apply start_itog_users_ok. exact Hinv.
  - apply handle_itog_response_users_ok. exact Hinv.
  - intros uid user' s Hget Hs.
    destruct (Hkeep uid user' Hget) as [Hnone|(user & Hget0 & Heq)].
    + congruence.
    + eapply Hinv; [exact Hget0|]. congruence.
Qed.

(** C8. Starting from files whose stored sessions satisfy the two session
    invariants (in particular from files with no session at all), every
    sequence of [/itog] commands, itog answers and other changes of the
    files that leave sessions alone ends in files whose stored sessions
    satisfy them: the index is below the length of the snapshot, which is
    the value at which the session is dropped, and every completed index
    is a position of the snapshot. *)
Theorem itog_invariants_hold w w' :
  itog_invariant w -> rtc itog_step w w' -> itog_invariant w'.
Proof.
  intros Hinv Hsteps. induction Hsteps as [w|w1 w2 w3 Hstep _ IH].
  - exact Hinv.
  - apply IH. eapply itog_step_preserves; eassumption.
Qed.

Lemma itog_invariants_hold_witness :
  itog_invariant ItogExample.w0
  /\ rtc itog_step ItogExample.w0 ItogExample.w1
  /\ itog_invariant ItogExample.w1.
Proof.
  assert (H0 : itog_invariant ItogExample.w0).
  { intros uid user s. unfold profile_of. simpl.
    destruct (decide ("1" = uid)); [|discriminate].
    intros [= <-]. simpl. discriminate. }
  assert (H1 : rtc itog_step ItogExample.w0 ItogExample.w1).
  { eapply rtc_l; [apply (step_start_itog ItogExample.env "1")|].
    eapply rtc_l; [apply (step_itog_response ItogExample.env "1" Da)|].
    apply rtc_refl. }
  split; [exact H0|]. split; [exact H1|].
  exact (itog_invariants_hold ItogExample.w0 ItogExample.w1 H0 H1).
Defined.



Lemma omap_ext_in {A B} (f g : A -> option B) (l : list A) :
  (forall x, In x l -> f x = g x) -> omap f l = omap g l.
Proof.
  induction l as [|a l IH]; intros H; [reflexivity|].
  assert (IH' : omap f l = omap g l)
    by (apply IH; intros x Hx; apply H; right; exact Hx).
  assert (Ha : f a = g a) by (apply H; left; reflexivity).
  change (omap f (a :: l))
    with (match f a with Some y => y :: omap f l | None => omap f l end).
  change (omap g (a :: l))
    with (match g a with Some y => y :: omap g l | None => omap g l end).
  rewrite Ha, IH'. reflexivity.
Qed.

Lemma remaining_from_positions (c : gset nat) (l : list plan) : forall n,
  map snd (List.filter (fun ip => bool_decide (fst ip ∉ c)) (enumerate_from n l))
  = omap (fun i => l !! (i - n))
         (List.filter (fun i => bool_decide (i ∉ c)) (seq n (length l))).
Proof.
  induction l as [|x l IH]; intros n; simpl; [reflexivity|].
  assert (Htail :
    omap (fun i => (x :: l) !! (i - n))
         (List.filter (fun i => bool_decide (i ∉ c)) (seq (S n) (length l)))
    = omap (fun i => l !! (i - S n))
         (List.filter (fun i => bool_decide (i ∉ c)) (seq (S n) (length l)))).
  { apply omap_ext_in. intros i Hi. apply filter_In in Hi as [Hi _].
    apply in_seq in Hi. replace (i - n) with (S (i - S n)) by lia.
    reflexivity. }
  destruct (bool_decide (n ∉ c)); simpl.
  - rewrite Nat.sub_diag. simpl. f_equal. rewrite IH. symmetry. exact Htail.
  - rewrite IH. symmetry. exact Htail.
Qed.

(** What is left of a snapshot is its items at the positions not ticked
    off, in their order. *)
Lemma remaining_plans_positions (l : list plan) (c : gset nat) :
  remaining_plans l c
  = omap (fun i => l !! i) (positions_kept (length l) c).
Proof.
  unfold remaining_plans, enumerate, positions_kept.
  rewrite remaining_from_positions. apply omap_ext_in.
  intros i _. rewrite Nat.sub_0_r. reflexivity.
Qed.

Lemma day_plans_apply_itog_results user state d :
  day_plans (apply_itog_results_to_plans user state) d
  = if bool_decide (plans state = []) || bool_decide (completed state = ∅)
    then day_plans user d
    else if decide (d = day_name state)
         then remaining_plans (plans state) (completed state)
         else day_plans user d.
Proof.
  unfold apply_itog_results_to_plans.
  destruct (bool_decide (plans state = []) || bool_decide (completed state = ∅));
    [reflexivity|].
  unfold day_plans. simpl. destruct (decide (d = day_name state)) as [->|Hne].
  - rewrite lookup_insert_eq. reflexivity.
  - rewrite lookup_insert_ne by auto. reflexivity.
Qed.

(** X23. The last answer of a session overwrites the day's plan.  When an
    answer finishes a session, the user's session is cleared and, some
    index being ticked off, the plan of the session's day becomes the
    snapshot without the ticked-off positions: the items of the snapshot
    at the other positions, in order, whatever their texts and whatever
    the live plan had become.  With nothing ticked off the live plan
    stays as it is; the other days always do. *)
Theorem itog_results_replace_plan_by_snapshot env uid answer w user state :
  profile_of uid w = Some user ->
  itog_state user = Some state ->
  current_index state + 1 = length (plans state) ->
  let done := match answer with
              | Da => {[ current_index state ]} ∪ completed state
              | Net => completed state
              end in
  exists user',
    profile_of uid (snd (handle_itog_response env uid answer w)) = Some user'
    /\ itog_state user' = None
    /\ day_plans user' (day_name state)
       = (if bool_decide (done = ∅) then day_plans user (day_name state)
          else omap (fun i => plans state !! i)
                    (positions_kept (length (plans state)) done))
    /\ forall d, d <> day_name state -> day_plans user' d = day_plans user d.
Proof.
  intros Hu Hst Hlast done.
  set (state1 := set_progress (current_index state + 1) done state).
  assert (Hres : forall d,
    day_plans (apply_itog_results_to_plans user state1) d
    = if bool_decide (done = ∅) then day_plans user d
      else if decide (d = day_name state)
           then omap (fun i => plans state !! i)
                     (positions_kept (length (plans state)) done)
           else day_plans user d).
  { intros d. rewrite day_plans_apply_itog_results. simpl.
    rewrite remaining_plans_positions.
    destruct (plans state) eqn:Hp; simpl in *; [lia|].
    reflexivity. }
  assert (Hgoal : forall user',
    itog_state user' = None ->
    (forall d, day_plans user' d
               = day_plans (apply_itog_results_to_plans user state1) d) ->
    itog_state user' = None
    /\ day_plans user' (day_name state)
       = (if bool_decide (done = ∅) then day_plans user (day_name state)
          else omap (fun i => plans state !! i)
                    (positions_kept (length (plans state)) done))
    /\ forall d, d <> day_name state -> day_plans user' d = day_plans user d).
  { intros user' Hnone Hd. split; [exact Hnone|]. split.
    - rewrite Hd, Hres. rewrite decide_True by reflexivity. reflexivity.
    - intros d Hne. rewrite Hd, Hres. rewrite decide_False by exact Hne.
      destruct (bool_decide (done = ∅)); reflexivity. }
  unfold handle_itog_response. run. rewrite Hu. simpl. rewrite Hst. simpl.
  destruct (plans state) as [|p0 ps] eqn:Hp; simpl in Hlast; [lia|].
  simpl. rewrite (proj2 (Nat.leb_gt _ _)) by lia.
  rewrite (proj2 (Nat.leb_le _ _)) by lia.
  fold done. fold state1.
  destruct (bot_send env uid (ItogDone _ _)); simpl.
  - destruct (bot_send env uid (Notice BackToMainMenu)); simpl;
      rewrite !users_get_set_eq; simpl; eexists; (split; [reflexivity|]);
      apply Hgoal; auto.
  - rewrite users_get_set_eq. eexists; (split; [reflexivity|]).
    apply Hgoal; auto.
Qed.

Lemma itog_results_replace_plan_by_snapshot_witness :
  exists user',
    profile_of "1" (snd (handle_itog_response ItogExample.env "1" Net
                           ItogExample.w_edited)) = Some user'
    /\ itog_state user' = None
    /\ day_plans user' Monday = [ItogExample.item_b].
Proof.
  destruct (itog_results_replace_plan_by_snapshot ItogExample.env "1" Net
              ItogExample.w_edited
              (ItogExample.user [ItogExample.item_a; ItogExample.item_b;
                                 ItogExample.item_c]
                                (Some ItogExample.session))
              ItogExample.session eq_refl eq_refl eq_refl)
    as (user' & H1 & H2 & H3 & _).
  exists user'. split; [exact H1|]. split; [exact H2|].
  etransitivity; [exact H3|]. vm_compute. reflexivity.
Defined.

(** C4 at the failing input.  The session was started on the plan
    [A, B], [A] was ticked off, and the live plan became [A, B, C] before
    the last answer.  The live plan without the completed position 0 is
    [B, C]; the plan the handler stores is [B], so the item [C], which
    the review never showed, is gone from the user's plans. *)
Lemma itog_results_ignore_live_plan :
  let live := [ItogExample.item_a; ItogExample.item_b; ItogExample.item_c] in
  let w' := snd (handle_itog_response ItogExample.env "1" Net
                   ItogExample.w_edited) in
  (fun u => day_plans u Monday) <$> profile_of "1" ItogExample.w_edited
    = Some live
  /\ remaining_plans live (completed ItogExample.session)
     = [ItogExample.item_b; ItogExample.item_c]
  /\ (fun u => day_plans u Monday) <$> profile_of "1" w'
     = Some [ItogExample.item_b]
  /\ (fun u => day_plans u Monday) <$> profile_of "1" w'
     <> Some (remaining_plans live (completed ItogExample.session)).
Proof.
  simpl. repeat split; try (vm_compute; reflexivity).
  vm_compute. discriminate.
Qed.

(* ===================================================================== *)
(** ** The scheduler: what each phase of a turn does *)
(* ===================================================================== *)

Lemma send_daily_notification_run env uid w :
  send_daily_notification env uid w =
  (Some tt,
   match users_get uid (users_file (disk w)) with
   | Some ud =>
       match user_plans ud with
       | Some table =>
           let m := brief_for env uid w ud table in
           match bot_send env uid m with
           | Some id =>
               with_users (users_set uid (set_last_message_id (Some id) ud)
                             (users_file (disk w)))
                          (with_sent (uid, m, true) w)
           | None => with_sent (uid, m, false) w
           end
       | None => w
       end
   | None => w
   end).
Proof.
  unfold send_daily_notification, with_users, with_sent, brief_for. run.
  destruct (users_get uid (users_file (disk w))) as [ud|]; simpl; [|reflexivity].
  destruct (user_plans ud) as [table|]; simpl; [|reflexivity].
  destruct (bot_send env uid _); reflexivity.
Qed.

Lemma send_daily_summary_run env uid w :
  send_daily_summary env uid w =
  (Some tt,
   match users_get uid (users_file (disk w)) with
   | Some ud =>
       let m := summary_for env ud in
       match bot_send env uid m with
       | Some _ =>
           with_users (users_set uid
                         (set_last_summary_date
                            (Some (date_key (get_user_now env ud))) ud)
                         (users_file (disk w)))
                      (with_sent (uid, m, true) w)
       | None => with_sent (uid, m, false) w
       end
   | None => w
   end).
Proof.
  unfold send_daily_summary, with_users, with_sent, summary_for. run.
  destruct (users_get uid (users_file (disk w))) as [ud|]; simpl; [|reflexivity].
  destruct (bot_send env uid _); reflexivity.
Qed.

Lemma remind_item_run env uw uid tk ct p ud w :
  remind_item env uw uid tk ct p ud w =
  match p with
  | PlanDict (Some t) text =>
      if String.eqb t ct && negb (bool_decide (sent_key tk t text ∈ sent_keys ud))
      then match bot_send env uid (Reminder t text) with
           | Some _ =>
               (Some (add_sent_key (sent_key tk t text) ud),
                with_users (uw (add_sent_key (sent_key tk t text) ud))
                           (with_sent (uid, Reminder t text, true) w))
           | None => (None, with_sent (uid, Reminder t text, false) w)
           end
      else (Some ud, w)
  | _ => (Some ud, w)
  end.
Proof.
  unfold remind_item, with_users, with_sent.
  destruct p as [s|[t|] text]; try reflexivity.
  destruct (String.eqb t ct); simpl; [|reflexivity].
  destruct (bool_decide (sent_key tk t text ∈ sent_keys ud)); simpl;
    [reflexivity|].
  run. destruct (bot_send env uid (Reminder t text)); reflexivity.
Qed.

Lemma remind_items_cons env uw uid tk ct p ps ud w :
  remind_items env uw uid tk ct (p :: ps) ud w =
  match remind_item env uw uid tk ct p ud w with
  | (Some ud', w') => remind_items env uw uid tk ct ps ud' w'
  | (None, w') => (None, w')
  end.
Proof. reflexivity. Qed.

(** A turn of the scheduler, phase by phase. *)
Lemma scheduler_user_run env uw uid ud w :
  scheduler_user env uw uid ud w =
  let now := get_user_now env ud in
  let w1 := if brief_due env ud
            then snd (send_daily_notification env uid w) else w in
  match remind_items env uw uid (date_key now) (current_time_of now)
          (day_plans ud (today_weekday now)) ud w1 with
  | (Some ud1, w2) =>
      if summary_due now ud1
      then (Some (set_last_summary_date (Some (date_key now)) ud1),
            snd (send_daily_summary env uid w2))
      else (Some ud1, w2)
  | (None, w2) => (None, w2)
  end.
Proof.
  unfold scheduler_user, brief_due, summary_due. unfold bind at 1. simpl.
  destruct (String.eqb _ _ && setup_complete ud); simpl.
  - rewrite send_daily_notification_run. simpl. unfold bind at 1.
    destruct (remind_items _ _ _ _ _ _ _ _) as [[ud1|] w2]; [|reflexivity].
    destruct (_ && _ && _); [|reflexivity].
    unfold bind, ret. rewrite send_daily_summary_run. reflexivity.
  - unfold ret at 1. unfold bind at 1.
    destruct (remind_items _ _ _ _ _ _ _ _) as [[ud1|] w2]; [|reflexivity].
    destruct (_ && _ && _); [|reflexivity].
    unfold bind, ret. rewrite send_daily_summary_run. reflexivity.
Qed.

Lemma with_keys_empty p : with_keys ∅ p = p.
Proof.
  destruct p. unfold with_keys. simpl. f_equal. set_solver.
Qed.

Lemma with_keys_add K k p :
  with_keys K (add_sent_key k p) = with_keys ({[ k ]} ∪ K) p.
Proof.
  unfold with_keys, add_sent_key. simpl. f_equal. set_solver.
Qed.

Lemma append_inj_r (p a b : string) : p +:+ a = p +:+ b -> a = b.
Proof.
  induction p as [|c p IH]; simpl; intros H; [exact H|].
  injection H as H. auto.
Qed.

(** For a date and a time, the key tells the text. *)
Lemma sent_key_inj tk t x y : sent_key tk t x = sent_key tk t y -> x = y.
Proof.
  unfold sent_key. intros H.
  do 5 apply append_inj_r in H. exact H.
Qed.

Lemma reminders_post_nil env uw uid tk ct ud w :
  reminders_post env uw uid tk ct [] ud w (Some ud, w) [] ∅.
Proof.
  unfold reminders_post. simpl. rewrite app_nil_r, with_keys_empty.
  split; [reflexivity|]. split; [constructor|]. split; [apply NoDup_nil_2|].
  split; [|split; [right; split; [reflexivity|constructor]|
           split; [left; split; reflexivity|
           split; [intros _ t x []|reflexivity]]]].
  intros k. split; [set_solver|]. intros (t & x & [] & _).
Qed.

Lemma reminders_post_skip env uw uid tk ct p ps ud w res R K :
  (forall t x, p = PlanDict (Some t) x -> t = ct ->
               sent_key tk t x ∉ sent_keys ud -> False) ->
  reminders_post env uw uid tk ct ps ud w res R K ->
  reminders_post env uw uid tk ct (p :: ps) ud w res R K.
Proof.
  intros Hnot (H1 & H2 & H3 & H4 & H5 & H6 & H7 & H8).
  split; [exact H1|]. split.
  { eapply Forall_impl; [exact H2|]. simpl.
    intros e (t & x & He & Ht & Hin & Hk). exists t, x. auto. }
  split; [exact H3|]. split; [exact H4|]. split; [exact H5|].
  split; [exact H6|]. split; [|exact H8].
  intros Hres t x [Hp|Hin] Ht Hk; [|eauto].
  exfalso. eapply Hnot; eauto.
Qed.

Lemma reminders_post_failed env uw uid tk ct text ps ud w :
  bot_send env uid (Reminder ct text) = None ->
  sent_key tk ct text ∉ sent_keys ud ->
  reminders_post env uw uid tk ct (PlanDict (Some ct) text :: ps) ud w
    (None, with_sent (uid, Reminder ct text, false) w)
    [(uid, Reminder ct text, false)] ∅.
Proof.
  intros Hsend Hkey. unfold reminders_post. simpl.
  split; [reflexivity|]. split.
  { constructor; [|constructor]. exists ct, text. rewrite Hsend. simpl. auto. }
  split; [apply NoDup_singleton|].
  split.
  { intros k. split; [set_solver|].
    intros (t & x & [Hin|[]] & _). discriminate. }
  split; [left; reflexivity|]. split; [left; split; reflexivity|].
  split; [|reflexivity]. intros Hres. congruence.
Qed.

Lemma reminders_post_sent env uw uid tk ct text ps ud w res R K id :
  bot_send env uid (Reminder ct text) = Some id ->
  sent_key tk ct text ∉ sent_keys ud ->
  reminders_post env uw uid tk ct ps
    (add_sent_key (sent_key tk ct text) ud)
    (with_users (uw (add_sent_key (sent_key tk ct text) ud))
                (with_sent (uid, Reminder ct text, true) w))
    res R K ->
  reminders_post env uw uid tk ct (PlanDict (Some ct) text :: ps) ud w res
    ((uid, Reminder ct text, true) :: R) ({[ sent_key tk ct text ]} ∪ K).
Proof.
  intros Hsend Hkey (H1 & H2 & H3 & H4 & H5 & H6 & H7 & H8).
  set (key := sent_key tk ct text) in *.
  assert (Hin_key : forall t x ok, In (uid, Reminder t x, ok) R ->
                      sent_key tk t x <> key).
  { intros t x ok Hin Heq. rewrite Forall_forall in H2.
    destruct (H2 _ (proj2 (list_elem_of_In _ _) Hin))
      as (t' & x' & [= -> -> _] & _ & _ & Hn).
    apply Hn. rewrite Heq. simpl. set_solver. }
  split.
  { rewrite H1. simpl. rewrite <- app_assoc. reflexivity. }
  split.
  { constructor.
    - exists ct, text. rewrite Hsend. simpl. auto.
    - eapply Forall_impl; [exact H2|]. simpl.
      intros e (t & x & He & Hct & Hin & Hk). exists t, x.
      split; [exact He|]. split; [exact Hct|]. split; [right; exact Hin|].
      simpl in Hk. set_solver. }
  split.
  { apply NoDup_cons_2; [|exact H3]. intros Hin. apply list_elem_of_In in Hin.
    apply (Hin_key _ _ _ Hin). reflexivity. }
  split.
  { intros k. split.
    - intros Hk. apply elem_of_union in Hk as [Hk|Hk].
      + apply elem_of_singleton in Hk. exists ct, text.
        split; [left; reflexivity|exact Hk].
      + apply H4 in Hk as (t & x & Hin & ->). exists t, x.
        split; [right; exact Hin|reflexivity].
    - intros (t & x & [Hin|Hin] & ->).
      + injection Hin as <- <-. set_solver.
      + apply elem_of_union. right. apply H4. eauto. }
  split.
  { destruct H5 as [H5|[H5 H5']]; [left; exact H5|right].
    split; [|constructor; [reflexivity|exact H5']].
    rewrite H5, with_keys_add. reflexivity. }
  split.
  { right. split; [set_solver|].
    destruct H6 as [[HK H6]|[HK H6]]; rewrite H6.
    - simpl. f_equal. subst K.
      rewrite <- with_keys_add, with_keys_empty. reflexivity.
    - f_equal. rewrite with_keys_add. reflexivity. }
  split; [|rewrite H8; reflexivity].
  intros Hres t x [Hp|Hin] Hct Hk.
  - injection Hp as <- <-. left. reflexivity.
  - destruct (decide (sent_key tk t x = key)) as [Heq|Hne].
    + left. subst t. apply sent_key_inj in Heq. subst x. reflexivity.
    + right. apply H7; auto. simpl. set_solver.
Qed.

(** The requests of the loop over the day's items, the keys it records and
    the state it leaves. *)
Lemma remind_items_spec env uw uid tk ct ps : forall ud w,
  exists R K,
    reminders_post env uw uid tk ct ps ud w
      (remind_items env uw uid tk ct ps ud w) R K.
Proof.
  induction ps as [|p ps IH]; intros ud w.
  { exists [], ∅. apply reminders_post_nil. }
  rewrite remind_items_cons, remind_item_run.
  assert (Hskip : (forall t x, p = PlanDict (Some t) x -> t = ct ->
                               sent_key tk t x ∉ sent_keys ud -> False) ->
    exists R K, reminders_post env uw uid tk ct (p :: ps) ud w
                  (remind_items env uw uid tk ct ps ud w) R K).
  { intros Hnot. destruct (IH ud w) as (R & K & H).
    exists R, K. apply reminders_post_skip; assumption. }
  destruct p as [s|[t|] text]; try (apply Hskip; intros ? ? [=]; fail).
  destruct (String.eqb t ct) eqn:Ht; simpl;
    [|apply Hskip; intros t' x' [= <- <-] Hct;
      apply String.eqb_neq in Ht; congruence].
  apply String.eqb_eq in Ht. subst t.
  destruct (bool_decide (sent_key tk ct text ∈ sent_keys ud)) eqn:Hkey; simpl;
    [apply Hskip; intros t' x' [= <- <-] _ Hn;
     apply bool_decide_eq_true in Hkey; auto|].
  apply bool_decide_eq_false in Hkey.
  destruct (bot_send env uid (Reminder ct text)) as [id|] eqn:Hsend.
  - destruct (IH (add_sent_key (sent_key tk ct text) ud)
                 (with_users (uw (add_sent_key (sent_key tk ct text) ud))
                    (with_sent (uid, Reminder ct text, true) w)))
      as (R & K & H).
    eexists _, _. eapply reminders_post_sent; eassumption.
  - eexists _, _. apply reminders_post_failed; assumption.
Qed.

Lemma record_after_refl p : record_after p ∅ p.
Proof. unfold record_after. do 5 (split; [reflexivity|]). set_solver. Qed.

Lemma record_after_with_keys p K : record_after p K (with_keys K p).
Proof. unfold record_after. do 5 (split; [reflexivity|]). reflexivity. Qed.

Lemma record_after_now env p K q :
  record_after p K q -> get_user_now env q = get_user_now env p.
Proof.
  intros (Htz & _). unfold get_user_now, get_user_timezone. rewrite Htz.
  reflexivity.
Qed.

(** *** The brief *)

Lemma brief_phase env uid p w :
  users_get uid (users_file (disk w)) = Some p ->
  let w1 := if brief_due env p
            then snd (send_daily_notification env uid w) else w in
  exists B p1,
    outbox w1 = outbox w ++ B
    /\ ((B = [] /\ (brief_due env p = false \/ user_plans p = None))
        \/ (brief_due env p = true /\ is_Some (user_plans p)
            /\ exists m ok, is_morning_brief m = true /\ B = [(uid, m, ok)]))
    /\ users_get uid (users_file (disk w1)) = Some p1
    /\ record_after p ∅ p1
    /\ last_summary_date p1 = last_summary_date p
    /\ ids (users_file (disk w1)) = ids (users_file (disk w))
    /\ (forall uid', uid' <> uid ->
          users_get uid' (users_file (disk w1))
          = users_get uid' (users_file (disk w))).
Proof.
  intros Hp. simpl.
  destruct (brief_due env p) eqn:Hdue.
  2:{ exists [], p. rewrite app_nil_r.
      split; [reflexivity|]. split; [left; auto|]. split; [exact Hp|].
      split; [apply record_after_refl|]. auto. }
  rewrite send_daily_notification_run. simpl. rewrite Hp.
  destruct (user_plans p) as [table|] eqn:Htable.
  2:{ exists [], p. rewrite app_nil_r.
      split; [reflexivity|]. split; [left; auto|]. split; [exact Hp|].
      split; [apply record_after_refl|]. auto. }
  destruct (bot_send env uid (brief_for env uid w p table)) as [id|].
  - exists [(uid, brief_for env uid w p table, true)],
           (set_last_message_id (Some id) p). simpl.
    split; [reflexivity|].
    split; [right; split; [reflexivity|]; split; [eexists; reflexivity|];
            eexists _, _; split; [|reflexivity]; reflexivity|].
    split; [apply users_get_set_eq|].
    split; [unfold record_after; simpl; do 5 (split; [reflexivity|]); set_solver|].
    split; [reflexivity|].
    split; [apply users_set_keys; eauto|].
    intros uid' Hne. apply users_get_set_ne. auto.
  - exists [(uid, brief_for env uid w p table, false)], p. simpl.
    split; [reflexivity|].
    split; [right; split; [reflexivity|]; split; [eexists; reflexivity|];
            eexists _, _; split; [|reflexivity]; reflexivity|].
    split; [exact Hp|]. split; [apply record_after_refl|]. auto.
Qed.

(** *** The summary *)

Lemma summary_phase env uid r w :
  users_get uid (users_file (disk w)) = Some r ->
  let w3 := snd (send_daily_summary env uid w) in
  let today := date_key (get_user_now env r) in
  exists ok p3,
    outbox w3 = outbox w ++ [(uid, summary_for env r, ok)]
    /\ users_get uid (users_file (disk w3)) = Some p3
    /\ record_after r ∅ p3
    /\ (ok = true -> last_summary_date p3 = Some today)
    /\ (last_summary_date p3 = last_summary_date r
        \/ last_summary_date p3 = Some today)
    /\ ids (users_file (disk w3)) = ids (users_file (disk w))
    /\ (forall uid', uid' <> uid ->
          users_get uid' (users_file (disk w3))
          = users_get uid' (users_file (disk w))).
Proof.
  intros Hr. simpl. rewrite send_daily_summary_run. simpl. rewrite Hr.
  destruct (bot_send env uid (summary_for env r)) as [id|].
  - exists true, (set_last_summary_date
                    (Some (date_key (get_user_now env r))) r). simpl.
    split; [reflexivity|]. split; [apply users_get_set_eq|].
    split; [unfold record_after; simpl; do 5 (split; [reflexivity|]); set_solver|].
    split; [reflexivity|]. split; [right; reflexivity|].
    split; [apply users_set_keys; eauto|].
    intros uid' Hne. apply users_get_set_ne. auto.
  - exists false, r. simpl.
    split; [reflexivity|]. split; [exact Hr|].
    split; [apply record_after_refl|].
    split; [discriminate|]. auto.
Qed.

(** *** What a turn does to the others *)

Lemma brief_frame env uid (due : bool) w :
  let w1 := if due then snd (send_daily_notification env uid w) else w in
  exists B,
    outbox w1 = outbox w ++ B
    /\ Forall (fun e => fst (fst e) = uid
                        /\ is_morning_brief (snd (fst e)) = true
                        /\ due = true) B
    /\ ids (users_file (disk w1)) = ids (users_file (disk w))
    /\ (forall uid', uid' <> uid ->
          users_get uid' (users_file (disk w1))
          = users_get uid' (users_file (disk w))).
Proof.
  simpl. destruct due.
  2:{ exists []. rewrite app_nil_r. auto. }
  rewrite send_daily_notification_run. simpl.
  destruct (users_get uid (users_file (disk w))) as [p|] eqn:Hp.
  2:{ exists []. rewrite app_nil_r. auto. }
  destruct (user_plans p) as [table|].
  2:{ exists []. rewrite app_nil_r. auto. }
  destruct (bot_send env uid (brief_for env uid w p table)) as [id|].
  - eexists. simpl. split; [reflexivity|].
    split; [constructor; [auto|constructor]|].
    split; [apply users_set_keys; eauto|].
    intros uid' Hne. apply users_get_set_ne. auto.
  - eexists. simpl. split; [reflexivity|].
    split; [constructor; [auto|constructor]|]. auto.
Qed.

Lemma summary_frame env uid w :
  let w3 := snd (send_daily_summary env uid w) in
  exists S,
    outbox w3 = outbox w ++ S
    /\ Forall (fun e => fst (fst e) = uid
                        /\ is_evening_summary (snd (fst e)) = true) S
    /\ ids (users_file (disk w3)) = ids (users_file (disk w))
    /\ (forall uid', uid' <> uid ->
          users_get uid' (users_file (disk w3))
          = users_get uid' (users_file (disk w))).
Proof.
  simpl. rewrite send_daily_summary_run. simpl.
  destruct (users_get uid (users_file (disk w))) as [r|] eqn:Hr.
  2:{ exists []. rewrite app_nil_r. auto. }
  destruct (bot_send env uid (summary_for env r)) as [id|].
  - eexists. simpl. split; [reflexivity|].
    split; [constructor; [auto|constructor]|].
    split; [apply users_set_keys; eauto|].
    intros uid' Hne. apply users_get_set_ne. auto.
  - eexists. simpl. split; [reflexivity|].
    split; [constructor; [auto|constructor]|]. auto.
Qed.

(** A turn sends to its own user only: briefs when the brief is due,
    reminders for items of today's plan at the current minute whose key
    the record in memory lacks, a summary when the summary is due.  It
    keeps the ids of the file, and leaves of another user either the
    record the file had or the one the users dict in memory has. *)
Lemma turn_frame env uw uid ud w :
  (forall q, ids (uw q) = ids (users_file (disk w))) ->
  let res := scheduler_user env uw uid ud w in
  let now := get_user_now env ud in
  exists B R S,
    outbox (snd res) = outbox w ++ B ++ R ++ S
    /\ Forall (fun e => fst (fst e) = uid
                        /\ is_morning_brief (snd (fst e)) = true
                        /\ brief_due env ud = true) B
    /\ Forall (fun e => exists t x,
                 e = (uid, Reminder t x,
                      bool_decide (is_Some (bot_send env uid (Reminder t x))))
                 /\ t = current_time_of now
                 /\ In (PlanDict (Some t) x) (day_plans ud (today_weekday now))
                 /\ sent_key (date_key now) t x ∉ sent_keys ud) R
    /\ NoDup R
    /\ Forall (fun e => fst (fst e) = uid
                        /\ is_evening_summary (snd (fst e)) = true
                        /\ summary_due now ud = true) S
    /\ ids (users_file (disk (snd res))) = ids (users_file (disk w))
    /\ (forall uid', uid' <> uid ->
          users_get uid' (users_file (disk (snd res)))
          = users_get uid' (users_file (disk w))
          \/ exists q, users_get uid' (users_file (disk (snd res)))
                       = users_get uid' (uw q)).
Proof.
  intros Hids. simpl. rewrite scheduler_user_run. simpl.
  destruct (brief_frame env uid (brief_due env ud) w)
    as (B & HB1 & HB2 & HB3 & HB4). simpl in *.
  set (w1 := if brief_due env ud
             then snd (send_daily_notification env uid w) else w) in *.
  set (now := get_user_now env ud) in *.
  destruct (remind_items_spec env uw uid (date_key now) (current_time_of now)
              (day_plans ud (today_weekday now)) ud w1)
    as (R & K & Hpost).
  destruct Hpost as (H1 & H2 & H3 & _ & H5 & H6 & _).
  destruct (remind_items _ _ _ _ _ _ _ _) as [[ud1|] w2]; simpl in *.
  - assert (Hids2 : ids (users_file (disk w2)) = ids (users_file (disk w))).
    { destruct H6 as [[_ ->]|[_ ->]]; auto. }
    assert (Hget2 : forall uid', uid' <> uid ->
              users_get uid' (users_file (disk w2))
              = users_get uid' (users_file (disk w))
              \/ exists q, users_get uid' (users_file (disk w2))
                           = users_get uid' (uw q)).
    { intros uid' Hne. destruct H6 as [[_ ->]|[_ ->]]; eauto. }
    destruct H5 as [H5|[H5 _]]; [discriminate|]. injection H5 as ->.
    change (summary_due now (with_keys K ud)) with (summary_due now ud).
    destruct (summary_due now ud) eqn:Hsum; simpl.
    + destruct (summary_frame env uid w2) as (S & HS1 & HS2 & HS3 & HS4).
      simpl in *. exists B, R, S.
      split; [rewrite HS1, H1, HB1, <- !app_assoc; reflexivity|].
      split; [exact HB2|]. split; [exact H2|]. split; [exact H3|].
      split; [eapply Forall_impl; [exact HS2|]; simpl; intros e [? ?]; auto|].
      split; [congruence|].
      intros uid' Hne. rewrite HS4 by exact Hne. auto.
    + exists B, R, []. rewrite app_nil_r.
      split; [rewrite H1, HB1, <- !app_assoc; reflexivity|].
      split; [exact HB2|]. split; [exact H2|]. split; [exact H3|].
      split; [constructor|]. auto.
  - exists B, R, []. rewrite app_nil_r.
    split; [rewrite H1, HB1, <- !app_assoc; reflexivity|].
    split; [exact HB2|]. split; [exact H2|]. split; [exact H3|].
    split; [constructor|].
    split; [destruct H6 as [[_ ->]|[_ ->]]; auto|].
    intros uid' Hne. destruct H6 as [[_ ->]|[_ ->]]; eauto.
Qed.

(** *** What a turn does for its own user *)

Lemma record_after_trans p K q q' :
  record_after p K q -> record_after q ∅ q' -> record_after p K q'.
Proof.
  intros (H1 & H2 & H3 & H4 & H5 & H6) (G1 & G2 & G3 & G4 & G5 & G6).
  unfold record_after.
  split; [congruence|]. split; [congruence|]. split; [congruence|].
  split; [congruence|]. split; [congruence|].
  rewrite G6, H6. set_solver.
Qed.

Lemma scheduler_user_spec env uw uid p w :
  users_get uid (users_file (disk w)) = Some p ->
  (forall q, users_get uid (uw q) = Some q) ->
  exists B R S K p_d,
    turn_post env uid p w (scheduler_user env uw uid p w) B R S K p_d.
Proof.
  intros Hp Huw. rewrite scheduler_user_run. simpl.
  destruct (brief_phase env uid p w Hp)
    as (B & p1 & HB1 & HB2 & HB3 & HB4 & HB5 & _). simpl in *.
  set (w1 := if brief_due env p
             then snd (send_daily_notification env uid w) else w) in *.
  set (now := get_user_now env p) in *.
  destruct (remind_items_spec env uw uid (date_key now) (current_time_of now)
              (day_plans p (today_weekday now)) p w1) as (R & K & Hpost).
  destruct Hpost as (H1 & H2 & H3 & H4 & H5 & H6 & H7 & _).
  assert (Hp2 : exists p2,
            users_get uid
              (users_file (disk (snd (remind_items env uw uid (date_key now)
                 (current_time_of now) (day_plans p (today_weekday now)) p w1))))
            = Some p2
            /\ record_after p K p2
            /\ last_summary_date p2 = last_summary_date p).
  { destruct H6 as [[-> ->]|[_ ->]].
    - exists p1. auto.
    - exists (with_keys K p). rewrite Huw.
      split; [reflexivity|]. split; [apply record_after_with_keys|reflexivity]. }
  destruct Hp2 as (p2 & Hp2 & Hafter2 & Hlsd2).
  destruct (remind_items _ _ _ _ _ _ _ _) as [[ud1|] w2]; simpl in *.
  - destruct H5 as [H5|[H5 H5']]; [discriminate|]. injection H5 as ->.
    assert (Hdue : summary_due now (with_keys K p) = summary_due now p)
      by reflexivity.
    rewrite Hdue.
    destruct (summary_due now p) eqn:Hsum.
    + destruct (summary_phase env uid p2 w2 Hp2)
        as (ok & p3 & HS1 & HS2 & HS3 & HS4 & HS5 & _). simpl in *.
      rewrite (record_after_now env _ _ _ Hafter2) in *. fold now in HS4, HS5.
      exists B, R, [(uid, summary_for env p2, ok)], K, p3.
      unfold turn_post. fold now. simpl. rewrite Hsum.
      split; [rewrite HS1, H1, HB1, <- !app_assoc; reflexivity|].
      split; [exact HB2|]. split; [exact H2|]. split; [exact H3|].
      split; [exact H4|].
      split; [intros _; apply H7; discriminate|].
      split.
      { right. split; [eexists; reflexivity|]. split; [reflexivity|].
        exists (summary_for env p2), ok. auto. }
      split; [exact HS2|].
      split; [eapply record_after_trans; eassumption|].
      split; [destruct HS5 as [HS5|HS5]; [left; congruence|right; exact HS5]|].
      intros p_m [= <-]. split; [apply record_after_with_keys|reflexivity].
    + exists B, R, [], K, p2.
      unfold turn_post. fold now. simpl. rewrite Hsum.
      split; [rewrite H1, HB1, <- !app_assoc, app_nil_r; reflexivity|].
      split; [exact HB2|]. split; [exact H2|]. split; [exact H3|].
      split; [exact H4|].
      split; [intros _; apply H7; discriminate|].
      split; [left; auto|].
      split; [exact Hp2|]. split; [exact Hafter2|]. split; [left; exact Hlsd2|].
      intros p_m [= <-]. split; [apply record_after_with_keys|reflexivity].
  - exists B, R, [], K, p2.
    unfold turn_post. fold now. simpl.
    split; [rewrite H1, HB1, <- !app_assoc, app_nil_r; reflexivity|].
    split; [exact HB2|]. split; [exact H2|]. split; [exact H3|].
    split; [exact H4|].
    split; [intros [x Hx]; discriminate|].
    split; [left; auto|].
    split; [exact Hp2|]. split; [exact Hafter2|]. split; [left; exact Hlsd2|].
    intros p_m [=].
Qed.

(* ===================================================================== *)
(** ** The scheduler: the loop over the users *)
(* ===================================================================== *)

Lemma scheduler_loop_cons env visited uid ud rest w :
  scheduler_loop env visited ((uid, ud) :: rest) w =
  match scheduler_user env (fun q => visited ++ (uid, q) :: rest) uid ud w with
  | (Some ud', w1) => scheduler_loop env (visited ++ [(uid, ud')]) rest w1
  | (None, w1) => (None, w1)
  end.
Proof. reflexivity. Qed.

Lemma scheduler_tick_run env w :
  scheduler_tick env w =
  (Some (bool_decide
           (is_Some (fst (scheduler_loop env [] (users_file (disk w)) w)))),
   snd (scheduler_loop env [] (users_file (disk w)) w)).
Proof.
  unfold scheduler_tick. run.
  destruct (scheduler_loop env [] (users_file (disk w)) w) as [r w'].
  reflexivity.
Qed.

Lemma users_get_app uid a b :
  users_get uid (a ++ b)
  = match users_get uid a with
    | Some p => Some p
    | None => users_get uid b
    end.
Proof.
  induction a as [|[k q] a IH]; simpl; [reflexivity|].
  destruct (decide (k = uid)); auto.
Qed.

Lemma users_get_not_in uid us : ~ In uid (ids us) -> users_get uid us = None.
Proof.
  induction us as [|[k q] us IH]; simpl; intros Hn; [reflexivity|].
  destruct (decide (k = uid)) as [->|Hne]; [tauto|]. apply IH. tauto.
Qed.

Lemma users_get_in uid p us :
  users_get uid us = Some p ->
  exists pre post, us = pre ++ (uid, p) :: post /\ ~ In uid (ids pre).
Proof.
  induction us as [|[k q] us IH]; simpl; [discriminate|].
  destruct (decide (k = uid)) as [->|Hne].
  - intros [= ->]. exists [], us. auto.
  - intros H. destruct (IH H) as (pre & post & -> & Hn).
    exists ((k, q) :: pre), post. split; [reflexivity|].
    simpl. intros [Hk|Hin]; auto.
Qed.

Lemma users_get_middle uid visited q rest :
  ~ In uid (ids visited) ->
  users_get uid (visited ++ (uid, q) :: rest) = Some q.
Proof.
  intros Hn. rewrite users_get_app, users_get_not_in by exact Hn.
  simpl. rewrite decide_True; reflexivity.
Qed.

Lemma users_get_middle_other uid uid' visited q q' rest :
  uid' <> uid ->
  users_get uid (visited ++ (uid', q) :: rest)
  = users_get uid (visited ++ (uid', q') :: rest).
Proof.
  intros Hne. rewrite !users_get_app. simpl.
  rewrite !decide_False by exact Hne. reflexivity.
Qed.

Lemma ids_middle visited uid q q' rest :
  ids (visited ++ (uid, q) :: rest) = ids (visited ++ (uid, q') :: rest).
Proof. unfold ids. rewrite !map_app. reflexivity. Qed.

Lemma app_cons_assoc {A} (l : list A) x r : (l ++ [x]) ++ r = l ++ x :: r.
Proof. rewrite <- app_assoc. reflexivity. Qed.

Lemma sent_to_app uid a b : sent_to uid (a ++ b) = sent_to uid a ++ sent_to uid b.
Proof. unfold sent_to. apply List.filter_app. Qed.

Lemma sent_to_all uid d :
  Forall (fun e => fst (fst e) = uid) d -> sent_to uid d = d.
Proof.
  induction 1 as [|e d He _ IH]; [reflexivity|].
  unfold sent_to in *. simpl. rewrite He, String.eqb_refl, IH. reflexivity.
Qed.

Lemma sent_to_none uid uid' d :
  uid' <> uid ->
  Forall (fun e => fst (fst e) = uid') d -> sent_to uid d = [].
Proof.
  intros Hne. induction 1 as [|e d He _ IH]; [reflexivity|].
  unfold sent_to in *. simpl. rewrite He.
  rewrite (proj2 (String.eqb_neq uid' uid)) by exact Hne. exact IH.
Qed.

Lemma sent_to_in uid e d : In e (sent_to uid d) <-> In e d /\ fst (fst e) = uid.
Proof.
  unfold sent_to. rewrite filter_In, String.eqb_eq. reflexivity.
Qed.

(** Every request of the loop is a request of the turn of one of the
    users it goes through. *)
Lemma scheduler_loop_source env : forall todo visited w,
  ids (users_file (disk w)) = ids (visited ++ todo) ->
  let res := scheduler_loop env visited todo w in
  exists d,
    outbox (snd res) = outbox w ++ d
    /\ ids (users_file (disk (snd res))) = ids (users_file (disk w))
    /\ forall e, In e d ->
         exists uid ud uw w0,
           In (uid, ud) todo
           /\ (forall q, ids (uw q) = ids (users_file (disk w0)))
           /\ In e (sent_since w0 (snd (scheduler_user env uw uid ud w0))).
Proof.
  induction todo as [|[uid ud] rest IH]; intros visited w Hids.
  { simpl. exists []. rewrite app_nil_r. split; [reflexivity|].
    split; [reflexivity|]. intros e []. }
  cbv zeta. rewrite scheduler_loop_cons.
  set (uw := fun q => visited ++ (uid, q) :: rest).
  assert (Huw : forall q, ids (uw q) = ids (users_file (disk w))).
  { intros q. rewrite Hids. apply ids_middle. }
  destruct (turn_frame env uw uid ud w Huw)
    as (B & R & S & H1 & _ & _ & _ & _ & H6 & _). simpl in *.
  assert (Hturn : forall e, In e (B ++ R ++ S) ->
            In e (sent_since w (snd (scheduler_user env uw uid ud w)))).
  { intros e He. unfold sent_since. rewrite H1, drop_app_length. exact He. }
  destruct (scheduler_user env uw uid ud w) as [[ud'|] w1] eqn:Hrun;
    simpl in *.
  - destruct (IH (visited ++ [(uid, ud')]) w1) as (d & G1 & G2 & G3).
    { rewrite H6, Hids, app_cons_assoc. apply ids_middle. }
    simpl in *. exists ((B ++ R ++ S) ++ d).
    split; [rewrite G1, H1, <- !app_assoc; reflexivity|].
    split; [congruence|].
    intros e He. apply in_app_or in He as [He|He].
    + exists uid, ud, uw, w. split; [left; reflexivity|]. split; [exact Huw|].
      rewrite Hrun. apply Hturn. exact He.
    + destruct (G3 e He) as (uid' & ud0 & uw' & w0 & Hin & Hq & Hs).
      exists uid', ud0, uw', w0. split; [right; exact Hin|]. auto.
  - exists (B ++ R ++ S). split; [exact H1|]. split; [exact H6|].
    intros e He. exists uid, ud, uw, w.
    split; [left; reflexivity|]. split; [exact Huw|].
    rewrite Hrun. apply Hturn. exact He.
Qed.

Lemma turn_sends_to_own env uw uid ud w :
  (forall q, ids (uw q) = ids (users_file (disk w))) ->
  exists d,
    outbox (snd (scheduler_user env uw uid ud w)) = outbox w ++ d
    /\ Forall (fun e => fst (fst e) = uid) d.
Proof.
  intros Huw.
  destruct (turn_frame env uw uid ud w Huw)
    as (B & R & S & H1 & H2 & H3 & _ & H5 & _). simpl in *.
  exists (B ++ R ++ S). split; [exact H1|].
  rewrite !Forall_app. split; [|split].
  - eapply Forall_impl; [exact H2|]. simpl. tauto.
  - eapply Forall_impl; [exact H3|]. simpl. intros e (t & x & -> & _).
    reflexivity.
  - eapply Forall_impl; [exact H5|]. simpl. tauto.
Qed.

(** Once a user's turn is over, or when the file does not list the user,
    the rest of the loop sends the user nothing and leaves of the user's
    record what the file has or what the users dict in memory has. *)
Lemma scheduler_loop_after env uid : forall todo visited w,
  ~ In uid (ids todo) ->
  ids (users_file (disk w)) = ids (visited ++ todo) ->
  let res := scheduler_loop env visited todo w in
  exists d,
    outbox (snd res) = outbox w ++ d
    /\ sent_to uid d = []
    /\ (users_get uid (users_file (disk (snd res)))
        = users_get uid (users_file (disk w))
        \/ users_get uid (users_file (disk (snd res)))
           = users_get uid (visited ++ todo)).
Proof.
  induction todo as [|[uid' ud] rest IH]; intros visited w Hnot Hids.
  { simpl. exists []. rewrite app_nil_r. auto. }
  cbv zeta. rewrite scheduler_loop_cons.
  assert (Hne : uid' <> uid) by (intros ->; apply Hnot; left; reflexivity).
  assert (Hnot' : ~ In uid (ids rest)) by (intros H; apply Hnot; right; exact H).
  set (uw := fun q => visited ++ (uid', q) :: rest).
  assert (Huw : forall q, ids (uw q) = ids (users_file (disk w))).
  { intros q. rewrite Hids. apply ids_middle. }
  destruct (turn_sends_to_own env uw uid' ud w Huw) as (d1 & H1 & Hto).
  destruct (turn_frame env uw uid' ud w Huw)
    as (_ & _ & _ & _ & _ & _ & _ & _ & H6 & H7). simpl in *.
  assert (Hrec : users_get uid (users_file (disk (snd (scheduler_user env uw uid' ud w))))
                 = users_get uid (users_file (disk w))
                 \/ users_get uid (users_file (disk (snd (scheduler_user env uw uid' ud w))))
                    = users_get uid (visited ++ (uid', ud) :: rest)).
  { destruct (H7 uid (not_eq_sym Hne)) as [H|[q H]]; [left; exact H|right].
    rewrite H. apply users_get_middle_other. exact Hne. }
  destruct (scheduler_user env uw uid' ud w) as [[ud'|] w1]; simpl in *.
  - destruct (IH (visited ++ [(uid', ud')]) w1 Hnot') as (d2 & G1 & G2 & G3).
    { rewrite H6, Hids, app_cons_assoc. apply ids_middle. }
    simpl in *. exists (d1 ++ d2).
    split; [rewrite G1, H1, <- app_assoc; reflexivity|].
    split.
    { rewrite sent_to_app, G2, (sent_to_none uid uid' d1 Hne Hto). reflexivity. }
    rewrite app_cons_assoc in G3.
    rewrite (users_get_middle_other uid uid' visited ud' ud rest Hne) in G3.
    destruct G3 as [G3|G3]; rewrite G3; auto.
  - exists d1. split; [exact H1|].
    split; [apply (sent_to_none uid uid' d1 Hne Hto)|exact Hrec].
Qed.

Lemma turn_post_to_own env uid p w res B R S K p_d :
  turn_post env uid p w res B R S K p_d ->
  Forall (fun e => fst (fst e) = uid) (B ++ R ++ S).
Proof.
  intros (_ & HB & HR & _ & _ & _ & HS & _).
  rewrite !Forall_app. split; [|split].
  - destruct HB as [[-> _]|(_ & _ & m & ok & _ & ->)]; repeat constructor.
  - eapply Forall_impl; [exact HR|]. simpl. intros e (t & x & -> & _).
    reflexivity.
  - destruct HS as [[-> _]|(_ & _ & m & ok & _ & -> & _)]; repeat constructor.
Qed.

(** The loop and one user whose record [p] is in the file and still to
    come: either the loop stops before the user's turn, having sent the
    user nothing and left the record alone, or the user's turn takes
    place on the record [p], what the user is sent is what that turn
    sends, and the record the file ends with is the one the turn left in
    the file or the one it left in memory. *)
Lemma scheduler_loop_before env uid p : forall pre visited post w,
  ~ In uid (ids visited) -> ~ In uid (ids pre) -> ~ In uid (ids post) ->
  users_get uid (users_file (disk w)) = Some p ->
  ids (users_file (disk w)) = ids (visited ++ pre ++ (uid, p) :: post) ->
  let res := scheduler_loop env visited (pre ++ (uid, p) :: post) w in
  exists d,
    outbox (snd res) = outbox w ++ d
    /\ ((fst res = None /\ sent_to uid d = []
         /\ users_get uid (users_file (disk (snd res))) = Some p)
        \/ exists uw w1 B R S K p_d,
             turn_post env uid p w1 (scheduler_user env uw uid p w1) B R S K p_d
             /\ sent_to uid d = B ++ R ++ S
             /\ ((fst (scheduler_user env uw uid p w1) = None /\ fst res = None
                  /\ users_get uid (users_file (disk (snd res))) = Some p_d)
                 \/ exists p_m,
                      fst (scheduler_user env uw uid p w1) = Some p_m
                      /\ (users_get uid (users_file (disk (snd res))) = Some p_d
                          \/ users_get uid (users_file (disk (snd res)))
                             = Some p_m))).
Proof.
  induction pre as [|[uid' ud] pre IH]; intros visited post w Hv Hpre Hpost Hp Hids.
  - cbv zeta. simpl app. rewrite scheduler_loop_cons.
    set (uw := fun q => visited ++ (uid, q) :: post).
    assert (Huw : forall q, users_get uid (uw q) = Some q).
    { intros q. apply users_get_middle. exact Hv. }
    assert (Huw' : forall q, ids (uw q) = ids (users_file (disk w))).
    { intros q. rewrite Hids. apply ids_middle. }
    destruct (scheduler_user_spec env uw uid p w Hp Huw)
      as (B & R & S & K & p_d & Hpost_turn).
    pose proof (turn_post_to_own _ _ _ _ _ _ _ _ _ _ Hpost_turn) as Hto.
    destruct (turn_frame env uw uid p w Huw')
      as (_ & _ & _ & _ & _ & _ & _ & _ & H6 & _). simpl in H6.
    pose proof Hpost_turn as (H1 & _ & _ & _ & _ & _ & _ & Hpd & _).
    destruct (scheduler_user env uw uid p w) as [[p_m|] w2] eqn:Hrun;
      simpl in *.
    + destruct (scheduler_loop_after env uid post (visited ++ [(uid, p_m)]) w2
                  Hpost) as (d2 & G1 & G2 & G3).
      { rewrite H6, Hids, app_cons_assoc. apply ids_middle. }
      simpl in *. exists ((B ++ R ++ S) ++ d2).
      split; [rewrite G1, H1, <- !app_assoc; reflexivity|].
      right. exists uw, w, B, R, S, K, p_d. rewrite Hrun. simpl.
      split; [exact Hpost_turn|].
      split.
      { rewrite sent_to_app, G2, app_nil_r. apply sent_to_all. exact Hto. }
      right. exists p_m. split; [reflexivity|].
      rewrite app_cons_assoc, users_get_middle in G3 by exact Hv.
      destruct G3 as [G3|G3]; rewrite G3; auto.
    + exists (B ++ R ++ S). split; [exact H1|].
      right. exists uw, w, B, R, S, K, p_d. rewrite Hrun. simpl.
      split; [exact Hpost_turn|].
      split; [apply sent_to_all; exact Hto|].
      left. auto.
  - cbv zeta. simpl app. rewrite scheduler_loop_cons.
    assert (Hne : uid' <> uid) by (intros ->; apply Hpre; left; reflexivity).
    assert (Hpre' : ~ In uid (ids pre))
      by (intros H; apply Hpre; right; exact H).
    set (uw := fun q => visited ++ (uid', q) :: pre ++ (uid, p) :: post).
    assert (Huw : forall q, ids (uw q) = ids (users_file (disk w))).
    { intros q. rewrite Hids. apply ids_middle. }
    destruct (turn_sends_to_own env uw uid' ud w Huw) as (d1 & H1 & Hto).
    destruct (turn_frame env uw uid' ud w Huw)
      as (_ & _ & _ & _ & _ & _ & _ & _ & H6 & H7). simpl in *.
    assert (Hrec : users_get uid
                     (users_file (disk (snd (scheduler_user env uw uid' ud w))))
                   = Some p).
    { destruct (H7 uid (not_eq_sym Hne)) as [H|[q H]]; rewrite H; [exact Hp|].
      unfold uw. rewrite users_get_app, users_get_not_in by exact Hv.
      simpl. rewrite decide_False by exact Hne.
      apply users_get_middle. exact Hpre'. }
    destruct (scheduler_user env uw uid' ud w) as [[ud'|] w1]; simpl in *.
    + destruct (IH (visited ++ [(uid', ud')]) post w1) as (d2 & G1 & G2);
        auto.
      { unfold ids. rewrite map_app. simpl. intros Hin.
        apply in_app_or in Hin as [Hin|[Hin|[]]]; [apply Hv; exact Hin|].
        apply Hne. exact Hin. }
      { rewrite H6, Hids, app_cons_assoc. apply ids_middle. }
      simpl in *. exists (d1 ++ d2).
      split; [rewrite G1, H1, <- app_assoc; reflexivity|].
      rewrite sent_to_app, (sent_to_none uid uid' d1 Hne Hto). simpl.
      exact G2.
    + exists d1. split; [exact H1|]. left.
      split; [reflexivity|].
      split; [apply (sent_to_none uid uid' d1 Hne Hto)|exact Hrec].
Qed.

(* ===================================================================== *)
(** ** The scheduler: one tick, seen from one user *)
(* ===================================================================== *)

Lemma scheduler_tick_ids env w :
  ids (users_file (disk (snd (scheduler_tick env w))))
  = ids (users_file (disk w)).
Proof.
  rewrite scheduler_tick_run. simpl.
  destruct (scheduler_loop_source env (users_file (disk w)) [] w eq_refl)
    as (d & _ & H & _). exact H.
Qed.

Lemma distinct_ids_split uid p us :
  distinct_ids us -> users_get uid us = Some p ->
  exists pre post,
    us = pre ++ (uid, p) :: post
    /\ ~ In uid (ids pre) /\ ~ In uid (ids post).
Proof.
  intros Hnd Hget. destruct (users_get_in uid p us Hget) as (pre & post & -> & Hpre).
  exists pre, post. split; [reflexivity|]. split; [exact Hpre|].
  unfold distinct_ids in Hnd. rewrite map_app in Hnd. simpl in Hnd.
  apply NoDup_app in Hnd as (_ & _ & Hnd).
  apply NoDup_cons in Hnd as [Hnd _].
  intros Hin. apply Hnd. apply list_elem_of_In. exact Hin.
Qed.

Lemma tick_post_holds env uid p w :
  distinct_ids (users_file (disk w)) ->
  users_get uid (users_file (disk w)) = Some p ->
  exists B R S K q,
    tick_post env uid p w (scheduler_tick env w) B R S K q.
Proof.
  intros Hnd Hp.
  destruct (distinct_ids_split uid p _ Hnd Hp) as (pre & post & Hus & Hpre & Hpost).
  pose proof (scheduler_tick_ids env w) as Hids.
  rewrite scheduler_tick_run in *. simpl in Hids.
  destruct (scheduler_loop_before env uid p pre [] post w) as (d & H1 & H2);
    auto.
  { simpl. rewrite Hus. reflexivity. }
  rewrite <- Hus in *. simpl in *.
  destruct H2 as [(Hres & Hd & Hq)
                 |(uw & w1 & B & R & S & K & p_d & Hturn & Hd & Hq)].
  - exists [], [], [], ∅, p. unfold tick_post. simpl. rewrite Hres. simpl.
    split; [exists d; auto|]. split; [left; reflexivity|].
    split; [constructor|]. split; [apply NoDup_nil_2|].
    split.
    { intros k. split; [set_solver|]. intros (t & x & [] & _). }
    split; [left; reflexivity|]. split; [exact Hq|].
    split; [apply record_after_refl|]. split; [left; reflexivity|].
    split; [|exact Hids].
    intros Hc. exfalso. injection Hc as Hc. discriminate Hc.
  - destruct Hturn as (T1 & T2 & T3 & T4 & T5 & T6 & T7 & T8 & T9 & T10 & T11).
    assert (HB : B = []
                 \/ (brief_due env p = true
                     /\ exists m ok, is_morning_brief m = true
                                     /\ B = [(uid, m, ok)])).
    { destruct T2 as [[-> _]|(Hb & _ & Hm)]; auto. }
    assert (Hcomplete : forall p_m,
              fst (scheduler_user env uw uid p w1) = Some p_m ->
              (brief_due env p = true -> is_Some (user_plans p) -> B <> [])
              /\ (forall t x,
                    In (PlanDict (Some t) x)
                       (day_plans p (today_weekday (get_user_now env p))) ->
                    t = current_time_of (get_user_now env p) ->
                    sent_key (date_key (get_user_now env p)) t x ∉ sent_keys p ->
                    In (uid, Reminder t x, true) R)
              /\ (summary_due (get_user_now env p) p = true -> S <> [])).
    { intros p_m Hpm. split; [|split].
      - intros Hb [table Ht].
        destruct T2 as [[-> [Hf|Hn]]|(_ & _ & m & ok & _ & ->)];
          [congruence|congruence|discriminate].
      - apply T6. rewrite Hpm. eexists; reflexivity.
      - intros Hs.
        destruct T7 as [[-> [Hf|Hn]]|(_ & _ & m & ok & _ & -> & _)];
          [congruence|congruence|discriminate]. }
    destruct Hq as [(Hnone & Hres & Hq)|(p_m & Hsome & Hq)].
    + exists B, R, S, K, p_d. unfold tick_post. simpl. rewrite Hres. simpl.
      split; [exists d; auto|]. split; [exact HB|].
      split; [exact T3|]. split; [exact T4|]. split; [exact T5|].
      split.
      { destruct T7 as [[-> _]|(_ & Hs & m & ok & Hm & -> & Hok)];
          [left; reflexivity|right; eauto 10]. }
      split; [exact Hq|]. split; [exact T9|]. split; [exact T10|].
      split; [|exact Hids].
      intros Hc. exfalso. injection Hc as Hc. discriminate Hc.
    + destruct (T11 p_m Hsome) as [Ha Hl].
      destruct Hq as [Hq|Hq].
      * exists B, R, S, K, p_d. unfold tick_post. simpl.
        split; [exists d; auto|]. split; [exact HB|].
        split; [exact T3|]. split; [exact T4|]. split; [exact T5|].
        split.
        { destruct T7 as [[-> _]|(_ & Hs & m & ok & Hm & -> & Hok)];
            [left; reflexivity|right; eauto 10]. }
        split; [exact Hq|]. split; [exact T9|]. split; [exact T10|].
        split; [|exact Hids]. intros _. apply (Hcomplete p_m Hsome).
      * exists B, R, S, K, p_m. unfold tick_post. simpl.
        split; [exists d; auto|]. split; [exact HB|].
        split; [exact T3|]. split; [exact T4|]. split; [exact T5|].
        split.
        { destruct T7 as [[-> _]|(_ & Hs & m & ok & Hm & -> & Hok)];
            [left; reflexivity|right].
          split; [exact Hs|]. exists m, ok. split; [exact Hm|].
          split; [reflexivity|]. intros _. rewrite Hl, Hs. reflexivity. }
        split; [exact Hq|]. split; [exact Ha|].
        split.
        { rewrite Hl. destruct (summary_due _ p); auto. }
        split; [|exact Hids]. intros _. apply (Hcomplete p_m Hsome).
Qed.

(** Every request of a tick goes to a user of the file as the tick found
    it, and is a brief that was due for that record, a reminder of an item
    of its plan for today at its current minute whose key it lacks, or a
    summary that was due for it. *)
Lemma tick_request_source env w e :
  In e (sent_since w (snd (scheduler_tick env w))) ->
  exists ud,
    In (fst (fst e), ud) (users_file (disk w))
    /\ ((is_morning_brief (snd (fst e)) = true /\ brief_due env ud = true)
        \/ (exists t x,
              snd (fst e) = Reminder t x
              /\ t = current_time_of (get_user_now env ud)
              /\ In (PlanDict (Some t) x)
                    (day_plans ud (today_weekday (get_user_now env ud)))
              /\ sent_key (date_key (get_user_now env ud)) t x ∉ sent_keys ud)
        \/ (is_evening_summary (snd (fst e)) = true
            /\ summary_due (get_user_now env ud) ud = true)).
Proof.
  rewrite scheduler_tick_run. simpl.
  destruct (scheduler_loop_source env (users_file (disk w)) [] w eq_refl)
    as (d & H1 & _ & H3).
  unfold sent_since at 1. rewrite H1, drop_app_length. intros He.
  destruct (H3 e He) as (uid & ud & uw & w0 & Hin & Huw & Hs).
  destruct (turn_frame env uw uid ud w0 Huw)
    as (B & R & S & G1 & G2 & G3 & _ & G5 & _). simpl in *.
  unfold sent_since in Hs. rewrite G1, drop_app_length in Hs.
  rewrite Forall_forall in G2, G3, G5.
  apply in_app_or in Hs as [Hs|Hs]; [|apply in_app_or in Hs as [Hs|Hs]];
    apply list_elem_of_In in Hs.
  - destruct (G2 e Hs) as (Hu & Hm & Hb). exists ud. rewrite Hu. auto.
  - destruct (G3 e Hs) as (t & x & -> & Ht & Hp & Hk). exists ud. simpl.
    split; [exact Hin|]. right. left. exists t, x. auto.
  - destruct (G5 e Hs) as (Hu & Hm & Hb). exists ud. rewrite Hu. auto.
Qed.

Lemma brief_due_iff env p :
  brief_due env p = true <->
  setup_complete p = true
  /\ current_time_of (get_user_now env p) = effective_notification_time p.
Proof.
  unfold brief_due. rewrite andb_true_iff, String.eqb_eq. tauto.
Qed.

Lemma summary_due_iff now p :
  summary_due now p = true <->
  setup_complete p = true
  /\ current_time_of now = SUMMARY_TIME
  /\ last_summary_date p <> Some (date_key now).
Proof.
  unfold summary_due.
  rewrite !andb_true_iff, String.eqb_eq, negb_true_iff, bool_decide_eq_false.
  tauto.
Qed.

Lemma tick_outbox env w :
  exists d, outbox (snd (scheduler_tick env w)) = outbox w ++ d.
Proof.
  rewrite scheduler_tick_run. simpl.
  destruct (scheduler_loop_source env (users_file (disk w)) [] w eq_refl)
    as (d & H1 & _). eauto.
Qed.

(* ===================================================================== *)
(** ** The morning brief *)
(* ===================================================================== *)

(** C1, as the code has it.  A brief goes out only to a user whose setup
    is complete and whose current local minute is the notification time,
    09:00 standing in for a notification time that is absent or empty; on
    a tick that runs to its end it does go out to every such user of the
    file whose record has a plans table.  So with the notification time
    absent the brief is sent at 09:00. *)
Theorem morning_brief_at_effective_time env :
  (forall w uid m ok,
     In (uid, m, ok) (sent_since w (snd (scheduler_tick env w))) ->
     is_morning_brief m = true ->
     exists p, In (uid, p) (users_file (disk w))
               /\ setup_complete p = true
               /\ current_time_of (get_user_now env p)
                  = effective_notification_time p)
  /\ (forall w uid p,
        distinct_ids (users_file (disk w)) ->
        users_get uid (users_file (disk w)) = Some p ->
        is_Some (user_plans p) ->
        fst (scheduler_tick env w) = Some true ->
        setup_complete p = true ->
        current_time_of (get_user_now env p) = effective_notification_time p ->
        exists m ok, is_morning_brief m = true
                     /\ In (uid, m, ok) (sent_since w (snd (scheduler_tick env w))))
  /\ (forall p, notification_time p = None ->
                effective_notification_time p = "09:00").
Proof.
  split; [|split].
  - intros w uid m ok Hin Hm.
    destruct (tick_request_source env w _ Hin) as (ud & Hud & Hkind).
    simpl in *. exists ud. split; [exact Hud|]. apply brief_due_iff.
    destruct Hkind as [[_ H]|[(t & x & -> & _)|[Hs _]]];
      [exact H|discriminate|destruct m; discriminate].
  - intros w uid p Hnd Hp Hplans Hdone Hsetup Htime.
    destruct (tick_post_holds env uid p w Hnd Hp)
      as (B & R & S & K & q & (d & H1 & H2) & HB & _ & _ & _ & _ & _ & _ & _ & Hc & _).
    destruct (Hc Hdone) as (HcB & _).
    assert (Hdue : brief_due env p = true) by (apply brief_due_iff; auto).
    destruct HB as [->|(_ & m & ok & Hm & ->)];
      [exfalso; apply (HcB Hdue Hplans); reflexivity|].
    exists m, ok. split; [exact Hm|].
    unfold sent_since. rewrite H1, drop_app_length.
    apply (proj1 (sent_to_in uid _ d)). rewrite H2. left. reflexivity.
  - intros p Hn. unfold effective_notification_time. rewrite Hn. reflexivity.
Qed.

Lemma distinct_ids_one uid p : distinct_ids [(uid, p)].
Proof. unfold distinct_ids. simpl. apply NoDup_singleton. Qed.

Lemma distinct_ids_two_users : distinct_ids SchedulerExample.two_users.
Proof.
  unfold distinct_ids. simpl. apply NoDup_cons_2; [|apply NoDup_singleton].
  rewrite list_elem_of_In. simpl. intros [H|[]]. discriminate H.
Qed.

Lemma morning_brief_at_effective_time_witness :
  exists m ok,
    is_morning_brief m = true
    /\ In ("1", m, ok)
          (sent_since (start_world [("1", SchedulerExample.sleeper)] ∅)
             (snd (scheduler_tick (SchedulerExample.env_at 9 0)
                     (start_world [("1", SchedulerExample.sleeper)] ∅)))).
Proof.
  destruct (morning_brief_at_effective_time (SchedulerExample.env_at 9 0))
    as (_ & H & _).
  apply (H (start_world [("1", SchedulerExample.sleeper)] ∅) "1"
           SchedulerExample.sleeper).
  - apply distinct_ids_one.
  - reflexivity.
  - eexists. reflexivity.
  - vm_compute. reflexivity.
  - reflexivity.
  - vm_compute. reflexivity.
Defined.

(** C1, as the claim has it, fails: the user has completed the setup and
    given no notification time, and the tick at 09:00 local time sends the
    brief. *)
Lemma morning_brief_sent_without_notification_time :
  notification_time SchedulerExample.sleeper = None
  /\ sent_since (start_world [("1", SchedulerExample.sleeper)] ∅)
       (snd (scheduler_tick (SchedulerExample.env_at 9 0)
               (start_world [("1", SchedulerExample.sleeper)] ∅)))
     = [("1", MorningBrief Monday [] [], true)].
Proof. split; [reflexivity|]. vm_compute. reflexivity. Qed.

(* ===================================================================== *)
(** ** Delivery failures *)
(* ===================================================================== *)

(** C3 at the failing input.  User 1 has an item due at 08:00 and cannot
    be reached; user 2 has the brief due at 08:00.  The reminder to user 1
    is requested and fails, the tick ends with an exception and user 2 is
    sent nothing.  When it is the brief to user 1 that fails, the failure
    stays inside [send_daily_notification] and user 2's brief goes out. *)
Lemma reminder_failure_aborts_tick :
  let failing := SchedulerExample.env_unreachable 8 0 in
  let tick := scheduler_tick failing (start_world SchedulerExample.two_users ∅) in
  let tick' := scheduler_tick failing (start_world SchedulerExample.two_readers ∅) in
  brief_due failing SchedulerExample.reader = true
  /\ fst tick = Some false
  /\ outbox (snd tick) = [("1", Reminder "08:00" "run", false)]
  /\ fst tick' = Some true
  /\ outbox (snd tick')
     = [("1", MorningBrief Monday [] [], false);
        ("2", MorningBrief Monday [] [], true)].
Proof. vm_compute. repeat split; reflexivity. Qed.

(** C2 at the failing input.  Users 1 and 2 have the item "run" due at
    08:00, neither record holds its key, and user 1 cannot be reached.
    The reminder to user 1 is requested and fails; the tick ends there, so
    user 2, whose reminder the transport would deliver, is sent none and
    the files stay as they were.  With user 1 reachable both reminders go
    out. *)
Lemma due_reminder_skipped_after_failed_send :
  let failing := SchedulerExample.env_unreachable 8 0 in
  let w := start_world FailureExample.two_joggers ∅ in
  let tick := scheduler_tick failing w in
  day_plans FailureExample.jogger Monday = [SchedulerExample.run_item]
  /\ current_time_of (get_user_now failing FailureExample.jogger) = "08:00"
  /\ sent_keys FailureExample.jogger = ∅
  /\ bot_send failing "2" (Reminder "08:00" "run") = Some 500
  /\ fst tick = Some false
  /\ outbox (snd tick) = [("1", Reminder "08:00" "run", false)]
  /\ disk (snd tick) = disk w
  /\ outbox (snd (scheduler_tick (SchedulerExample.env_at 8 0) w))
     = [("1", Reminder "08:00" "run", true);
        ("2", Reminder "08:00" "run", true)].
Proof. vm_compute. repeat split; reflexivity. Qed.

(* ===================================================================== *)
(** ** Runs of ticks: what is delivered at most once a day *)
(* ===================================================================== *)

Lemma run_ticks_outbox envs : forall w,
  exists d, outbox (run_ticks envs w) = outbox w ++ d.
Proof.
  induction envs as [|env envs IH]; intros w; simpl.
  - exists []. rewrite app_nil_r. reflexivity.
  - destruct (tick_outbox env w) as (d1 & H1).
    destruct (IH (snd (scheduler_tick env w))) as (d2 & H2).
    exists (d1 ++ d2). rewrite H2, H1, <- app_assoc. reflexivity.
Qed.

Lemma sent_since_cons env envs w :
  sent_since w (run_ticks (env :: envs) w)
  = sent_since w (snd (scheduler_tick env w))
    ++ sent_since (snd (scheduler_tick env w))
         (run_ticks envs (snd (scheduler_tick env w))).
Proof.
  simpl. destruct (tick_outbox env w) as (d1 & H1).
  destruct (run_ticks_outbox envs (snd (scheduler_tick env w))) as (d2 & H2).
  unfold sent_since. rewrite H2, H1.
  rewrite (drop_app_length (outbox w ++ d1) d2), (drop_app_length (outbox w) d1).
  rewrite <- app_assoc, drop_app_length. reflexivity.
Qed.

Lemma get_user_now_same_timezone env p q :
  timezone q = timezone p -> get_user_now env q = get_user_now env p.
Proof.
  intros H. unfold get_user_now, get_user_timezone. rewrite H. reflexivity.
Qed.

(** A count of requests that a tick raises by one at most, and not at all
    once the user's record is marked, the mark being set by the tick that
    raises the count and kept by every tick of the same local date: over
    a run of ticks of that date the count is one at most. *)
Lemma run_ticks_at_most_once (uid d : string)
    (cnt : list (string * Message * bool) -> nat) (marked : Profile -> Prop) :
  (forall a b, cnt (a ++ b) = cnt a + cnt b) ->
  (forall env w p,
     date_key (get_user_now env p) = d ->
     distinct_ids (users_file (disk w)) ->
     users_get uid (users_file (disk w)) = Some p ->
     exists q,
       users_get uid (users_file (disk (snd (scheduler_tick env w)))) = Some q
       /\ timezone q = timezone p
       /\ cnt (sent_since w (snd (scheduler_tick env w))) <= 1
       /\ (marked p ->
           cnt (sent_since w (snd (scheduler_tick env w))) = 0 /\ marked q)
       /\ (cnt (sent_since w (snd (scheduler_tick env w))) <> 0 -> marked q)) ->
  forall envs w p,
    distinct_ids (users_file (disk w)) ->
    users_get uid (users_file (disk w)) = Some p ->
    (forall env, In env envs -> date_key (get_user_now env p) = d) ->
    cnt (sent_since w (run_ticks envs w)) <= 1
    /\ (marked p -> cnt (sent_since w (run_ticks envs w)) = 0).
Proof.
  intros Happ Hstep. assert (Hnil : cnt [] = 0).
  { pose proof (Happ [] []) as H. simpl in H. lia. }
  induction envs as [|env envs IH]; intros w p Hnd Hp Hday.
  - simpl. unfold sent_since. rewrite drop_all. rewrite Hnil. lia.
  - rewrite sent_since_cons, Happ.
    destruct (Hstep env w p (Hday env (or_introl eq_refl)) Hnd Hp)
      as (q & Hq & Htz & Hle & Hmarked & Hmark).
    assert (Hnd' : distinct_ids (users_file (disk (snd (scheduler_tick env w))))).
    { unfold distinct_ids. fold (ids (users_file (disk (snd (scheduler_tick env w))))).
      rewrite scheduler_tick_ids. exact Hnd. }
    assert (Hday' : forall env', In env' envs ->
                      date_key (get_user_now env' q) = d).
    { intros env' Hin. rewrite (get_user_now_same_timezone env' p q Htz).
      apply Hday. right. exact Hin. }
    destruct (IH (snd (scheduler_tick env w)) q Hnd' Hq Hday') as [IH1 IH2].
    split.
    + destruct (Nat.eq_dec (cnt (sent_since w (snd (scheduler_tick env w)))) 0)
        as [Hz|Hnz]; [lia|].
      rewrite (IH2 (Hmark Hnz)). lia.
    + intros Hm. destruct (Hmarked Hm) as [Hz Hmq].
      rewrite Hz, (IH2 Hmq). reflexivity.
Qed.

Lemma filter_at_most_one {A} (f : A -> bool) (a : A) (l : list A) :
  NoDup l -> (forall e, In e l -> f e = true -> e = a) ->
  length (List.filter f l) <= 1.
Proof.
  induction l as [|e l IH]; intros Hnd Hall; simpl; [lia|].
  apply NoDup_cons in Hnd as [Hnotin Hnd].
  assert (IH' : length (List.filter f l) <= 1)
    by (apply IH; [exact Hnd|intros e' He'; apply Hall; right; exact He']).
  destruct (f e) eqn:Hfe; [|exact IH'].
  assert (He : e = a) by (apply Hall; [left; reflexivity|exact Hfe]).
  destruct (List.filter f l) as [|e' l'] eqn:Hfl; [simpl; lia|].
  exfalso. assert (Hin : In e' (List.filter f l)) by (rewrite Hfl; left; reflexivity).
  apply filter_In in Hin as [Hin Hfe'].
  assert (e' = a) by (apply Hall; [right; exact Hin|exact Hfe']).
  subst. apply Hnotin. apply list_elem_of_In. exact Hin.
Qed.

Lemma filter_none {A} (f : A -> bool) (l : list A) :
  (forall e, In e l -> f e = false) -> List.filter f l = [].
Proof.
  induction l as [|e l IH]; intros H; simpl; [reflexivity|].
  rewrite (H e) by (left; reflexivity). apply IH.
  intros e' He'. apply H. right. exact He'.
Qed.

Lemma filter_via_sent_to (f : string * Message * bool -> bool) uid d :
  List.filter (fun e => String.eqb (fst (fst e)) uid && f e) d
  = List.filter (fun e => String.eqb (fst (fst e)) uid && f e) (sent_to uid d).
Proof.
  unfold sent_to. induction d as [|e d IH]; simpl; [reflexivity|].
  destruct (String.eqb (fst (fst e)) uid) eqn:He; simpl.
  - rewrite He. simpl. rewrite IH. reflexivity.
  - exact IH.
Qed.

Lemma briefs_no_summary_no_reminder uid B (f : Message -> bool) :
  (forall m, is_morning_brief m = true -> f m = false) ->
  (B = [] \/ exists m ok, is_morning_brief m = true /\ B = [(uid, m, ok)]) ->
  forall g : string * Message * bool -> bool,
    List.filter (fun e => String.eqb (fst (fst e)) uid
                          && (f (snd (fst e)) && g e)) B = [].
Proof.
  intros Hf [->|(m & ok & Hm & ->)] g; [reflexivity|].
  simpl. rewrite (Hf m Hm), andb_false_r. reflexivity.
Qed.

(** One tick and the summaries delivered to a user whose local date is
    [d]. *)
Lemma tick_summaries_step env uid d w p :
  date_key (get_user_now env p) = d ->
  distinct_ids (users_file (disk w)) ->
  users_get uid (users_file (disk w)) = Some p ->
  exists q,
    users_get uid (users_file (disk (snd (scheduler_tick env w)))) = Some q
    /\ timezone q = timezone p
    /\ length (summaries_delivered uid
                 (sent_since w (snd (scheduler_tick env w)))) <= 1
    /\ (last_summary_date p = Some d ->
        length (summaries_delivered uid
                  (sent_since w (snd (scheduler_tick env w)))) = 0
        /\ last_summary_date q = Some d)
    /\ (length (summaries_delivered uid
                  (sent_since w (snd (scheduler_tick env w)))) <> 0 ->
        last_summary_date q = Some d).
Proof.
  intros Hd Hnd Hp.
  destruct (tick_post_holds env uid p w Hnd Hp)
    as (B & R & S & K & q & (d0 & H1 & H2) & HB & HR & _ & _ & HS & Hq & Ha & Hl & _).
  rewrite Hd in *.
  assert (Hsent : summaries_delivered uid (sent_since w (snd (scheduler_tick env w)))
                  = summaries_delivered uid S).
  { unfold sent_since. rewrite H1, drop_app_length.
    unfold summaries_delivered.
    rewrite (filter_via_sent_to
               (fun e => is_evening_summary (snd (fst e)) && snd e) uid d0), H2.
    rewrite !List.filter_app.
    rewrite (briefs_no_summary_no_reminder uid B is_evening_summary).
    - rewrite (filter_none _ R); [reflexivity|].
      intros e He. rewrite Forall_forall in HR.
      destruct (HR e (proj2 (list_elem_of_In _ _) He)) as (t & x & -> & _).
      simpl. apply andb_false_r.
    - intros m Hm. destruct m; try discriminate; reflexivity.
    - destruct HB as [->|(_ & m & ok & Hm & ->)]; eauto. }
  rewrite Hsent. exists q. split; [exact Hq|].
  split; [apply Ha|].
  destruct HS as [->|(Hdue & m & ok & Hm & -> & Hok)].
  - simpl. split; [lia|]. split; [|lia].
    intros Hm. split; [reflexivity|]. destruct Hl as [Hl|Hl]; congruence.
  - apply summary_due_iff in Hdue as (_ & _ & Hne).
    unfold summaries_delivered. simpl. rewrite String.eqb_refl, Hm. simpl.
    destruct ok; simpl.
    + split; [lia|]. split; [intros Hm'; congruence|]. intros _. auto.
    + split; [lia|]. split; [intros Hm'; congruence|]. lia.
Qed.

(* ===================================================================== *)
(** ** The evening summary *)
(* ===================================================================== *)

(** C7 at the failing input.  It is 23:59 for both users; user 1 has an
    item due at that minute and cannot be reached, user 2 has completed
    the setup and has had no summary today, so the three conditions of
    the summary hold for user 2, whose chat the transport would reach.
    The reminder to user 1 fails and ends the tick: user 2 is sent no
    summary and the last summary date stays unset.  With user 1 reachable
    both users get the summary. *)
Lemma due_summary_skipped_after_failed_reminder :
  let failing := SchedulerExample.env_unreachable 23 59 in
  let w := start_world FailureExample.owl_and_sleeper ∅ in
  let tick := scheduler_tick failing w in
  setup_complete SchedulerExample.sleeper = true
  /\ current_time_of (get_user_now failing SchedulerExample.sleeper)
     = SUMMARY_TIME
  /\ last_summary_date SchedulerExample.sleeper = None
  /\ bot_send failing "2" (summary_for failing SchedulerExample.sleeper)
     = Some 500
  /\ fst tick = Some false
  /\ outbox (snd tick) = [("1", Reminder "23:59" "sleep", false)]
  /\ disk (snd tick) = disk w
  /\ outbox (snd (scheduler_tick (SchedulerExample.env_at 23 59) w))
     = [("1", Reminder "23:59" "sleep", true);
        ("1", EveningSummary "06.01.2025" Monday [FailureExample.night_item],
         true);
        ("2", EveningSummary "06.01.2025" Monday [], true)].
Proof. vm_compute. repeat split; reflexivity. Qed.

(** X25. The evening summary, once a day.  A summary goes out only to a
    user whose setup is complete, whose current local minute is the
    summary time and whose last summary date is not the local date; on a
    tick that runs to its end it does go out to every such user of the
    file.  A summary delivered, the user's record in the file has the
    local date as its last summary date, and over any run of ticks within
    one local date of the user at most one summary is delivered to the
    user. *)
Theorem evening_summary_once_a_day env uid :
  (forall w m ok,
     In (uid, m, ok) (sent_since w (snd (scheduler_tick env w))) ->
     is_evening_summary m = true ->
     exists p, In (uid, p) (users_file (disk w))
               /\ setup_complete p = true
               /\ current_time_of (get_user_now env p) = SUMMARY_TIME
               /\ last_summary_date p <> Some (date_key (get_user_now env p)))
  /\ (forall w p,
        distinct_ids (users_file (disk w)) ->
        users_get uid (users_file (disk w)) = Some p ->
        fst (scheduler_tick env w) = Some true ->
        setup_complete p = true ->
        current_time_of (get_user_now env p) = SUMMARY_TIME ->
        last_summary_date p <> Some (date_key (get_user_now env p)) ->
        exists m ok,
          is_evening_summary m = true
          /\ In (uid, m, ok) (sent_since w (snd (scheduler_tick env w))))
  /\ (forall w p m,
        distinct_ids (users_file (disk w)) ->
        users_get uid (users_file (disk w)) = Some p ->
        In (uid, m, true) (sent_since w (snd (scheduler_tick env w))) ->
        is_evening_summary m = true ->
        exists q,
          users_get uid (users_file (disk (snd (scheduler_tick env w)))) = Some q
          /\ last_summary_date q = Some (date_key (get_user_now env p)))
  /\ (forall envs w p d,
        distinct_ids (users_file (disk w)) ->
        users_get uid (users_file (disk w)) = Some p ->
        (forall env', In env' envs -> date_key (get_user_now env' p) = d) ->
        length (summaries_delivered uid (sent_since w (run_ticks envs w))) <= 1).
Proof.
  split; [|split; [|split]].
  - intros w m ok Hin Hm.
    destruct (tick_request_source env w _ Hin) as (ud & Hud & Hkind).
    simpl in *. exists ud. split; [exact Hud|]. apply summary_due_iff.
    destruct Hkind as [[Hb _]|[(t & x & -> & _)|[_ H]]];
      [destruct m; discriminate|discriminate|exact H].
  - intros w p Hnd Hp Hdone Hsetup Htime Hlast.
    destruct (tick_post_holds env uid p w Hnd Hp)
      as (B & R & S & K & q & (d & H1 & H2) & _ & _ & _ & _ & HS & _ & _ & _ & Hc & _).
    destruct (Hc Hdone) as (_ & _ & HcS).
    assert (Hdue : summary_due (get_user_now env p) p = true)
      by (apply summary_due_iff; auto).
    destruct HS as [->|(_ & m & ok & Hm & -> & _)];
      [exfalso; apply (HcS Hdue); reflexivity|].
    exists m, ok. split; [exact Hm|].
    unfold sent_since. rewrite H1, drop_app_length.
    apply (proj1 (sent_to_in uid _ d)). rewrite H2.
    apply in_or_app. right. apply in_or_app. right. left. reflexivity.
  - intros w p m Hnd Hp Hin Hm.
    destruct (tick_post_holds env uid p w Hnd Hp)
      as (B & R & S & K & q & (d & H1 & H2) & HB & HR & _ & _ & HS & Hq & _).
    exists q. split; [exact Hq|].
    unfold sent_since in Hin. rewrite H1, drop_app_length in Hin.
    assert (Hin' : In (uid, m, true) (B ++ R ++ S))
      by (rewrite <- H2; apply sent_to_in; auto).
    apply in_app_or in Hin' as [Hin'|Hin'];
      [|apply in_app_or in Hin' as [Hin'|Hin']].
    + destruct HB as [->|(_ & m' & ok & Hm' & ->)]; [destruct Hin'|].
      destruct Hin' as [[= <- _]|[]]. destruct m'; discriminate.
    + rewrite Forall_forall in HR.
      destruct (HR _ (proj2 (list_elem_of_In _ _) Hin'))
        as (t & x & [= -> _] & _). discriminate.
    + destruct HS as [->|(_ & m' & ok & _ & -> & Hok)]; [destruct Hin'|].
      destruct Hin' as [[= _ ->]|[]]. apply Hok. reflexivity.
  - intros envs w p d Hnd Hp Hday.
    assert (Happ : forall a b : list (string * Message * bool),
              length (summaries_delivered uid (a ++ b))
              = length (summaries_delivered uid a)
                + length (summaries_delivered uid b)).
    { intros a b. unfold summaries_delivered.
      rewrite List.filter_app, length_app. reflexivity. }
    apply (proj1 (run_ticks_at_most_once uid d
             (fun l => length (summaries_delivered uid l))
             (fun p => last_summary_date p = Some d) Happ
             (fun env0 w0 p0 Hd0 Hnd0 Hp0 =>
                tick_summaries_step env0 uid d w0 p0 Hd0 Hnd0 Hp0)
             envs w p Hnd Hp Hday)).
Qed.

Lemma evening_summary_once_a_day_witness :
  let env := SchedulerExample.env_at 23 59 in
  let w := start_world [("1", SchedulerExample.sleeper)] ∅ in
  (exists m ok,
     is_evening_summary m = true
     /\ In ("1", m, ok) (sent_since w (snd (scheduler_tick env w))))
  /\ length (summaries_delivered "1" (sent_since w (run_ticks [env; env] w)))
     <= 1.
Proof.
  destruct (evening_summary_once_a_day (SchedulerExample.env_at 23 59) "1")
    as (_ & HB & _ & HD).
  split.
  - apply (HB (start_world [("1", SchedulerExample.sleeper)] ∅)
              SchedulerExample.sleeper).
    + apply distinct_ids_one.
    + reflexivity.
    + vm_compute. reflexivity.
    + reflexivity.
    + vm_compute. reflexivity.
    + vm_compute. discriminate.
  - apply (HD [SchedulerExample.env_at 23 59; SchedulerExample.env_at 23 59]
              (start_world [("1", SchedulerExample.sleeper)] ∅)
              SchedulerExample.sleeper "2025-01-06").
    + apply distinct_ids_one.
    + reflexivity.
    + intros env' [<-|[<-|[]]]; reflexivity.
Defined.

(* ===================================================================== *)
(** ** Per-item reminders: the key, and items with the same time and text *)
(* ===================================================================== *)

(** One tick and the reminders of an item delivered to a user whose local
    date is [d]. *)
Lemma tick_reminders_step env uid t x d w p :
  date_key (get_user_now env p) = d ->
  distinct_ids (users_file (disk w)) ->
  users_get uid (users_file (disk w)) = Some p ->
  exists q,
    users_get uid (users_file (disk (snd (scheduler_tick env w)))) = Some q
    /\ timezone q = timezone p
    /\ length (reminders_delivered uid t x
                 (sent_since w (snd (scheduler_tick env w)))) <= 1
    /\ (sent_key d t x ∈ sent_keys p ->
        length (reminders_delivered uid t x
                  (sent_since w (snd (scheduler_tick env w)))) = 0
        /\ sent_key d t x ∈ sent_keys q)
    /\ (length (reminders_delivered uid t x
                  (sent_since w (snd (scheduler_tick env w)))) <> 0 ->
        sent_key d t x ∈ sent_keys q).
Proof.
  intros Hd Hnd Hp.
  destruct (tick_post_holds env uid p w Hnd Hp)
    as (B & R & S & K & q & (d0 & H1 & H2) & HB & HR & Hnodup & HK & HS & Hq & Ha & _).
  rewrite Hd in *.
  assert (Hkeys : sent_keys q = K ∪ sent_keys p) by apply Ha.
  assert (Hsent : reminders_delivered uid t x
                    (sent_since w (snd (scheduler_tick env w)))
                  = reminders_delivered uid t x R).
  { unfold sent_since. rewrite H1, drop_app_length.
    unfold reminders_delivered.
    rewrite (filter_via_sent_to
               (fun e => bool_decide (snd (fst e) = Reminder t x) && snd e)
               uid d0), H2.
    rewrite !List.filter_app.
    assert (HBf : List.filter
                    (fun e => String.eqb (fst (fst e)) uid
                              && (bool_decide (snd (fst e) = Reminder t x)
                                  && snd e)) B = []).
    { destruct HB as [->|(_ & m & ok & Hm & ->)]; [reflexivity|]. simpl.
      rewrite bool_decide_false by (intros ->; discriminate).
      rewrite andb_false_r. reflexivity. }
    rewrite HBf. simpl. rewrite (filter_none _ S), app_nil_r; [reflexivity|].
    intros e He.
    destruct HS as [->|(_ & m & ok & Hm & -> & _)]; [destruct He|].
    destruct He as [<-|[]]. simpl.
    rewrite bool_decide_false by (intros ->; discriminate).
    apply andb_false_r. }
  rewrite Hsent. exists q. split; [exact Hq|]. split; [apply Ha|].
  assert (Hmatch : forall e, In e R ->
            String.eqb (fst (fst e)) uid
            && (bool_decide (snd (fst e) = Reminder t x) && snd e) = true ->
            e = (uid, Reminder t x, true)).
  { intros [[u m] ok] _ He. simpl in He.
    apply andb_true_iff in He as [Hu He].
    apply andb_true_iff in He as [Hm Hok].
    apply String.eqb_eq in Hu. apply bool_decide_eq_true in Hm.
    subst. reflexivity. }
  split; [apply (filter_at_most_one _ (uid, Reminder t x, true) R Hnodup Hmatch)|].
  split.
  - intros Hk. split; [|rewrite Hkeys; set_solver].
    unfold reminders_delivered. rewrite filter_none; [reflexivity|].
    intros e He.
    destruct (String.eqb (fst (fst e)) uid
              && (bool_decide (snd (fst e) = Reminder t x) && snd e)) eqn:Hf;
      [|reflexivity].
    exfalso. rewrite (Hmatch e He Hf) in He.
    rewrite Forall_forall in HR.
    destruct (HR _ (proj2 (list_elem_of_In _ _) He))
      as (t' & x' & [= <- <- _] & _ & _ & Hn). apply Hn. exact Hk.
  - intros Hne. rewrite Hkeys. apply elem_of_union. left. apply HK.
    exists t, x. split; [|reflexivity].
    destruct (reminders_delivered uid t x R) as [|e l] eqn:Hl;
      [simpl in Hne; lia|].
    assert (Hin : In e (reminders_delivered uid t x R))
      by (rewrite Hl; left; reflexivity).
    unfold reminders_delivered in Hin. apply filter_In in Hin as [Hin Hf].
    rewrite <- (Hmatch e Hin Hf). exact Hin.
Qed.

(** One tick requests the reminder of an item at most once for a user. *)
Lemma tick_reminder_requests env uid t x w p :
  distinct_ids (users_file (disk w)) ->
  users_get uid (users_file (disk w)) = Some p ->
  length (reminder_requests uid t x
            (sent_since w (snd (scheduler_tick env w)))) <= 1.
Proof.
  intros Hnd Hp.
  destruct (tick_post_holds env uid p w Hnd Hp)
    as (B & R & S & K & q & (d0 & H1 & H2) & HB & HR & Hnodup & _ & HS & _).
  unfold sent_since. rewrite H1, drop_app_length.
  unfold reminder_requests.
  assert (Hext : forall l : list (string * Message * bool),
            List.filter (fun e => String.eqb (fst (fst e)) uid
                                  && bool_decide (snd (fst e) = Reminder t x)) l
            = List.filter (fun e => String.eqb (fst (fst e)) uid
                                    && (bool_decide (snd (fst e) = Reminder t x)
                                        && true)) l).
  { intros l. apply List.filter_ext. intros e. rewrite andb_true_r. reflexivity. }
  rewrite Hext.
  rewrite (filter_via_sent_to
             (fun e => bool_decide (snd (fst e) = Reminder t x) && true) uid d0),
    H2.
  rewrite !List.filter_app.
  assert (HBf : List.filter
                  (fun e => String.eqb (fst (fst e)) uid
                            && (bool_decide (snd (fst e) = Reminder t x)
                                && true)) B = []).
  { destruct HB as [->|(_ & m & ok & Hm & ->)]; [reflexivity|]. simpl.
    rewrite bool_decide_false by (intros ->; discriminate).
    rewrite andb_false_r. reflexivity. }
  rewrite HBf.
  - simpl. rewrite (filter_none _ S), app_nil_r.
    + apply (filter_at_most_one _
               (uid, Reminder t x,
                bool_decide (is_Some (bot_send env uid (Reminder t x))))
               R Hnodup).
      intros e He Hf. rewrite Forall_forall in HR.
      destruct (HR _ (proj2 (list_elem_of_In _ _) He))
        as (t' & x' & -> & _). simpl in Hf.
      apply andb_true_iff in Hf as [_ Hf].
      apply andb_true_iff in Hf as [Hf _].
      apply bool_decide_eq_true in Hf. injection Hf as -> ->. reflexivity.
    + intros e He.
      destruct HS as [->|(_ & m & ok & Hm & -> & _)]; [destruct He|].
      destruct He as [<-|[]]. simpl.
      rewrite bool_decide_false by (intros ->; discriminate).
      apply andb_false_r.
Qed.

(** The reminders a tick requests for a user are the requests of the
    loop over the user's items. *)
Lemma tick_reminder_in_loop env uid p w B R S K q t x ok :
  tick_post env uid p w (scheduler_tick env w) B R S K q ->
  In (uid, Reminder t x, ok) (sent_since w (snd (scheduler_tick env w)))
  <-> In (uid, Reminder t x, ok) R.
Proof.
  intros ((d & H1 & H2) & HB & _ & _ & _ & HS & _).
  unfold sent_since. rewrite H1, drop_app_length.
  assert (Hd : In (uid, Reminder t x, ok) d
               <-> In (uid, Reminder t x, ok) (B ++ R ++ S)).
  { rewrite <- H2, sent_to_in. simpl. tauto. }
  rewrite Hd. split.
  - intros Hin. apply in_app_or in Hin as [Hin|Hin];
      [|apply in_app_or in Hin as [Hin|Hin]]; [|exact Hin|].
    + destruct HB as [->|(_ & m & ok' & Hm & ->)]; [destruct Hin|].
      destruct Hin as [[= -> _]|[]]. discriminate Hm.
    + destruct HS as [->|(_ & m & ok' & Hm & -> & _)]; [destruct Hin|].
      destruct Hin as [[= -> _]|[]]. discriminate Hm.
  - intros Hin. apply in_or_app. right. apply in_or_app. left. exact Hin.
Qed.

(** Once a record holds the key of an item for the local date [d], no
    tick of a run within that date requests the item's reminder. *)
Lemma run_ticks_marked_no_request uid t x d envs : forall w p,
  distinct_ids (users_file (disk w)) ->
  users_get uid (users_file (disk w)) = Some p ->
  (forall env, In env envs -> date_key (get_user_now env p) = d) ->
  sent_key d t x ∈ sent_keys p ->
  forall ok, ~ In (uid, Reminder t x, ok) (sent_since w (run_ticks envs w)).
Proof.
  induction envs as [|env envs IH]; intros w p Hnd Hp Hday Hk ok.
  - simpl. unfold sent_since. rewrite drop_all. intros [].
  - rewrite sent_since_cons. intros Hin.
    destruct (tick_post_holds env uid p w Hnd Hp) as (B & R & S & K & q & Hpost).
    apply in_app_or in Hin as [Hin|Hin].
    + apply (tick_reminder_in_loop env uid p w B R S K q t x ok Hpost) in Hin.
      destruct Hpost as (_ & _ & HR & _).
      rewrite Forall_forall in HR.
      destruct (HR _ (proj2 (list_elem_of_In _ _) Hin))
        as (t' & x' & [= <- <- _] & _ & _ & Hn).
      apply Hn. rewrite (Hday env (or_introl eq_refl)). exact Hk.
    + destruct Hpost as (_ & _ & _ & _ & _ & _ & Hq & Ha & _).
      assert (Hnd' : distinct_ids
                (users_file (disk (snd (scheduler_tick env w))))).
      { unfold distinct_ids.
        fold (ids (users_file (disk (snd (scheduler_tick env w))))).
        rewrite scheduler_tick_ids. exact Hnd. }
      destruct Ha as (Htz & _ & _ & _ & _ & Hkeys).
      refine (IH (snd (scheduler_tick env w)) q Hnd' Hq _ _ ok Hin).
      * intros env' Hin'. rewrite (get_user_now_same_timezone env' p q Htz).
        apply Hday. right. exact Hin'.
      * rewrite Hkeys. set_solver.
Qed.

(** X22. Reminders go by the key.  For a user of the file, an item of
    today's plan and the key of the item for the user's local date: a
    tick requests the item's reminder only if the item is due at the
    user's current minute and the record lacks the key; on a tick that
    runs to its end the reminder of every such item is delivered.  A key
    the record holds stays, a delivered reminder leaves the key in the
    user's record in the file and a failed one does not; and once the
    record holds the key, no tick of a run within the same local date
    requests the reminder again. *)
Theorem tick_reminder_by_key env w uid p t x :
  distinct_ids (users_file (disk w)) ->
  users_get uid (users_file (disk w)) = Some p ->
  let now := get_user_now env p in
  let key := sent_key (date_key now) t x in
  let due := In (PlanDict (Some t) x) (day_plans p (today_weekday now))
             /\ t = current_time_of now in
  let res := scheduler_tick env w in
  let d := sent_since w (snd res) in
  (forall ok, In (uid, Reminder t x, ok) d -> due /\ key ∉ sent_keys p)
  /\ (fst res = Some true -> due -> key ∉ sent_keys p ->
      In (uid, Reminder t x, true) d)
  /\ exists q,
       users_get uid (users_file (disk (snd res))) = Some q
       /\ (key ∈ sent_keys p -> key ∈ sent_keys q)
       /\ (In (uid, Reminder t x, true) d -> key ∈ sent_keys q)
       /\ (In (uid, Reminder t x, false) d -> key ∉ sent_keys q)
       /\ (key ∈ sent_keys q ->
           forall envs,
             (forall env', In env' envs ->
                date_key (get_user_now env' p) = date_key now) ->
             forall ok,
               ~ In (uid, Reminder t x, ok)
                    (sent_since (snd res) (run_ticks envs (snd res)))).
Proof.
  intros Hnd Hp. cbv zeta.
  destruct (tick_post_holds env uid p w Hnd Hp) as (B & R & S & K & q & Hpost).
  pose proof (tick_reminder_in_loop env uid p w B R S K q t x) as Hloop.
  specialize (fun ok => Hloop ok Hpost).
  destruct Hpost as (_ & _ & HR & _ & HK & _ & Hq & Ha & _ & Hc & _).
  rewrite Forall_forall in HR.
  destruct Ha as (Htz & _ & _ & _ & _ & Hkeys).
  split; [|split].
  - intros ok Hin. apply Hloop in Hin.
    destruct (HR _ (proj2 (list_elem_of_In _ _) Hin))
      as (t' & x' & [= <- <- _] & Ht & Hplan & Hn). auto.
  - intros Hdone [Hplan Ht] Hn. apply Hloop.
    destruct (Hc Hdone) as (_ & Hall & _). apply Hall; assumption.
  - exists q. split; [exact Hq|]. split; [|split; [|split]].
    + intros Hk. rewrite Hkeys. set_solver.
    + intros Hin. apply Hloop in Hin. rewrite Hkeys.
      apply elem_of_union. left. apply HK. eauto.
    + intros Hin Hk. apply Hloop in Hin.
      destruct (HR _ (proj2 (list_elem_of_In _ _) Hin))
        as (t' & x' & [= <- <- Hok] & Ht & _ & Hn).
      rewrite Hkeys in Hk. apply elem_of_union in Hk as [Hk|Hk]; [|auto].
      apply HK in Hk as (t' & x' & Hin' & Heq).
      destruct (HR _ (proj2 (list_elem_of_In _ _) Hin'))
        as (t'' & x'' & [= -> -> Hok'] & Ht' & _).
      rewrite <- Ht in Ht'. subst t''.
      apply sent_key_inj in Heq. subst x''. congruence.
    + intros Hk envs Hday ok.
      assert (Hnd' : distinct_ids
                (users_file (disk (snd (scheduler_tick env w))))).
      { unfold distinct_ids.
        fold (ids (users_file (disk (snd (scheduler_tick env w))))).
        rewrite scheduler_tick_ids. exact Hnd. }
      apply (run_ticks_marked_no_request uid t x
               (date_key (get_user_now env p)) envs _ q Hnd' Hq); [|exact Hk].
      intros env' Hin'. rewrite (get_user_now_same_timezone env' p q Htz).
      apply Hday. exact Hin'.
Qed.

Lemma tick_reminder_by_key_witness :
  let env := SchedulerExample.env_at 8 0 in
  let w := start_world SchedulerExample.two_users ∅ in
  let w1 := snd (scheduler_tick env w) in
  In ("1", Reminder "08:00" "run", true) (sent_since w w1)
  /\ forall ok,
       ~ In ("1", Reminder "08:00" "run", ok)
            (sent_since w1 (run_ticks [env] w1)).
Proof.
  destruct (tick_reminder_by_key (SchedulerExample.env_at 8 0)
              (start_world SchedulerExample.two_users ∅) "1"
              (SchedulerExample.runner ∅) "08:00" "run"
              distinct_ids_two_users eq_refl)
    as (_ & Hsent & q & _ & _ & Hkey & _ & Hlater).
  assert (Hin : In ("1", Reminder "08:00" "run", true)
                   (sent_since (start_world SchedulerExample.two_users ∅)
                      (snd (scheduler_tick (SchedulerExample.env_at 8 0)
                              (start_world SchedulerExample.two_users ∅))))).
  { apply Hsent.
    - vm_compute. reflexivity.
    - split; [left; reflexivity|vm_compute; reflexivity].
    - apply not_elem_of_empty. }
  split; [exact Hin|].
  apply (Hlater (Hkey Hin)).
  intros env' [<-|[]]. reflexivity.
Defined.

Lemma length_le_one_in {A} (a : A) (l : list A) :
  length l <= 1 -> In a l -> l = [a].
Proof.
  destruct l as [|b [|c l]]; simpl; intros Hle Hin;
    [destruct Hin| |lia].
  destruct Hin as [->|[]]. reflexivity.
Qed.

(** C10 at the failing input.  Users 1 and 2 have the item "run" twice in
    today's plan, due at 08:00, and user 1 cannot be reached.  The first
    reminder to user 1 fails and ends the tick; the next tick comes at
    08:01, when the item is no longer due.  For the pair of user 2, whose
    chat the transport would reach, no reminder is requested and no key
    is set.  With user 1 reachable the tick sends user 2 one reminder for
    the pair. *)
Lemma duplicate_pair_not_reminded_after_failed_send :
  let failing := SchedulerExample.env_unreachable 8 0 in
  let later := SchedulerExample.env_unreachable 8 1 in
  let w := start_world FailureExample.two_runners ∅ in
  day_plans (SchedulerExample.runner ∅) Monday
    = [SchedulerExample.run_item; SchedulerExample.run_item]
  /\ bot_send failing "2" (Reminder "08:00" "run") = Some 500
  /\ fst (scheduler_tick failing w) = Some false
  /\ outbox (run_ticks [failing; later] w)
     = [("1", Reminder "08:00" "run", false)]
  /\ disk (run_ticks [failing; later] w) = disk w
  /\ reminder_requests "2" "08:00" "run"
       (outbox (snd (scheduler_tick (SchedulerExample.env_at 8 0) w)))
     = [("2", Reminder "08:00" "run", true)].
Proof. vm_compute. repeat split; reflexivity. Qed.

(** X26. One reminder for an item, however often the plan holds it.  With
    today's plan of a user holding the same (time, text) once, twice or
    more, one tick requests the reminder of that pair at most once for
    the user; on a tick that runs to its end, the pair being due at the
    user's current minute and its key not in the record, it is requested
    exactly once and delivered.  Over any run of ticks within one local
    date of the user at most one reminder of the pair is delivered. *)
Theorem duplicate_items_one_reminder env w uid p t x :
  distinct_ids (users_file (disk w)) ->
  users_get uid (users_file (disk w)) = Some p ->
  let now := get_user_now env p in
  let res := scheduler_tick env w in
  length (reminder_requests uid t x (sent_since w (snd res))) <= 1
  /\ (fst res = Some true ->
      In (PlanDict (Some t) x) (day_plans p (today_weekday now)) ->
      t = current_time_of now ->
      sent_key (date_key now) t x ∉ sent_keys p ->
      reminder_requests uid t x (sent_since w (snd res))
      = [(uid, Reminder t x, true)])
  /\ (forall envs d,
        (forall env', In env' envs -> date_key (get_user_now env' p) = d) ->
        length (reminders_delivered uid t x
                  (sent_since w (run_ticks envs w))) <= 1).
Proof.
  intros Hnd Hp. cbv zeta.
  pose proof (tick_reminder_requests env uid t x w p Hnd Hp) as Hle.
  split; [exact Hle|]. split.
  - intros Hdone Hplan Ht Hn.
    apply length_le_one_in; [exact Hle|].
    unfold reminder_requests. apply filter_In. split.
    + destruct (tick_post_holds env uid p w Hnd Hp)
        as (B & R & S & K & q & Hpost).
      apply (tick_reminder_in_loop env uid p w B R S K q t x true Hpost).
      destruct Hpost as (_ & _ & _ & _ & _ & _ & _ & _ & _ & Hc & _).
      destruct (Hc Hdone) as (_ & Hall & _). apply Hall; assumption.
    + simpl. rewrite String.eqb_refl, bool_decide_true by reflexivity.
      reflexivity.
  - intros envs d Hday.
    assert (Happ : forall a b : list (string * Message * bool),
              length (reminders_delivered uid t x (a ++ b))
              = length (reminders_delivered uid t x a)
                + length (reminders_delivered uid t x b)).
    { intros a b. unfold reminders_delivered.
      rewrite List.filter_app, length_app. reflexivity. }
    apply (proj1 (run_ticks_at_most_once uid d
             (fun l => length (reminders_delivered uid t x l))
             (fun p => sent_key d t x ∈ sent_keys p) Happ
             (fun env0 w0 p0 Hd0 Hnd0 Hp0 =>
                tick_reminders_step env0 uid t x d w0 p0 Hd0 Hnd0 Hp0)
             envs w p Hnd Hp Hday)).
Qed.

Lemma duplicate_items_one_reminder_witness :
  let env := SchedulerExample.env_at 8 0 in
  let w := start_world SchedulerExample.two_users ∅ in
  day_plans (SchedulerExample.runner ∅) Monday
    = [SchedulerExample.run_item; SchedulerExample.run_item]
  /\ reminder_requests "1" "08:00" "run"
       (sent_since w (snd (scheduler_tick env w)))
     = [("1", Reminder "08:00" "run", true)]
  /\ length (reminders_delivered "1" "08:00" "run"
               (sent_since w (run_ticks [env; env] w))) <= 1.
Proof.
  destruct (duplicate_items_one_reminder (SchedulerExample.env_at 8 0)
              (start_world SchedulerExample.two_users ∅) "1"
              (SchedulerExample.runner ∅) "08:00" "run"
              distinct_ids_two_users eq_refl) as (_ & HB & HC).
  split; [reflexivity|]. split.
  - apply HB.
    + vm_compute. reflexivity.
    + left. reflexivity.
    + vm_compute. reflexivity.
    + apply not_elem_of_empty.
  - apply (HC [SchedulerExample.env_at 8 0; SchedulerExample.env_at 8 0]
              "2025-01-06").
    intros env' [<-|[<-|[]]]; reflexivity.
Defined.

(* ===================================================================== *)
(** ** Characters and two-digit numbers *)
(* ===================================================================== *)

Lemma is_decimal_cases c : PyStr.is_decimal c = true -> In c decimal_chars.
Proof.
  destruct c as [b0 b1 b2 b3 b4 b5 b6 b7].
  destruct b0, b1, b2, b3, b4, b5, b6, b7; vm_compute; intros H;
    try discriminate H; tauto.
Qed.

Ltac decimal_cases H :=
  apply is_decimal_cases in H; unfold decimal_chars in H; simpl in H;
  repeat (destruct H as [H|H]; [subst|]); [..|destruct H].

Lemma decimal_not_space c : PyStr.is_decimal c = true -> PyStr.isspace c = false.
Proof. intros H. decimal_cases H; reflexivity. Qed.

Lemma decimal_not_semicolon c :
  PyStr.is_decimal c = true -> Ascii.eqb c ";" = false.
Proof. intros H. decimal_cases H; reflexivity. Qed.

Lemma decimal_not_colon c : PyStr.is_decimal c = true -> Ascii.eqb c ":" = false.
Proof. intros H. decimal_cases H; reflexivity. Qed.

Lemma decimal_isdigit c :
  PyStr.is_decimal c = true -> PyStr.isdigit_char c = true.
Proof. intros H. unfold PyStr.isdigit_char. rewrite H. reflexivity. Qed.

(** Two decimal digits: what [int()] reads, and what [:02d] writes back. *)
Lemma two_digits a b :
  PyStr.is_decimal a = true -> PyStr.is_decimal b = true ->
  PyStr.py_int (String a (String b EmptyString))
    = Some (Z.of_nat (10 * digit_value a + digit_value b))
  /\ PyStr.format_02d (10 * digit_value a + digit_value b)
     = String a (String b EmptyString).
Proof.
  intros Ha Hb. decimal_cases Ha; decimal_cases Hb; vm_compute; auto.
Qed.

(* ===================================================================== *)
(** ** The notification time *)
(* ===================================================================== *)

Lemma is_valid_hhmm_inv s :
  is_valid_hhmm s = true ->
  exists a b d e,
    s = String a (String b (String ":" (String d (String e EmptyString))))
    /\ PyStr.is_decimal a = true /\ PyStr.is_decimal b = true
    /\ PyStr.is_decimal d = true /\ PyStr.is_decimal e = true
    /\ 10 * digit_value a + digit_value b <= 23
    /\ 10 * digit_value d + digit_value e <= 59.
Proof.
  destruct s as [|a [|b [|c [|d [|e [|f s]]]]]]; simpl; try discriminate.
  rewrite !andb_true_iff, !Nat.leb_le.
  intros ((((((Ha & Hb) & Hc) & Hd) & He) & Hh) & Hm).
  apply Ascii.eqb_eq in Hc. subst c. exists a, b, d, e. auto 10.
Qed.

(** A valid [HH:MM] is read as itself. *)
Lemma parse_time_input_valid s :
  is_valid_hhmm s = true -> parse_time_input s = Some s.
Proof.
  intros H. destruct (is_valid_hhmm_inv s H)
    as (a & b & d & e & -> & Ha & Hb & Hd & He & Hh & Hm).
  destruct (two_digits a b Ha Hb) as [Hab Fab].
  destruct (two_digits d e Hd He) as [Hde Fde].
  unfold parse_time_input. simpl PyStr.split_on.
  rewrite (decimal_not_colon a Ha), (decimal_not_colon b Hb).
  simpl. rewrite (decimal_not_colon d Hd), (decimal_not_colon e He).
  rewrite Hab, Hde.
  rewrite (proj2 (Z.leb_le 0 _)) by lia.
  rewrite (proj2 (Z.leb_le _ 23)) by lia.
  rewrite (proj2 (Z.leb_le 0 _)) by lia.
  rewrite (proj2 (Z.leb_le _ 59)) by lia.
  rewrite !Nat2Z.id, Fab, Fde. reflexivity.
Qed.

Lemma hhmm_valid_table :
  forallb (fun h => forallb (fun m => is_valid_hhmm (hhmm h m)) (seq 0 60))
          (seq 0 24) = true.
Proof. vm_compute. reflexivity. Qed.

Lemma hhmm_valid h m : h <= 23 -> m <= 59 -> is_valid_hhmm (hhmm h m) = true.
Proof.
  intros Hh Hm. pose proof hhmm_valid_table as H.
  rewrite forallb_forall in H.
  assert (Hin : In h (seq 0 24)) by (apply in_seq; lia).
  specialize (H h Hin). rewrite forallb_forall in H.
  apply H. apply in_seq. lia.
Qed.

(** What is read is a valid [HH:MM]. *)
Lemma parse_time_input_stored s t :
  parse_time_input s = Some t -> is_valid_hhmm t = true.
Proof.
  unfold parse_time_input.
  destruct (PyStr.split_on ":" s) as [|p0 [|p1 [|p2 l]]]; try discriminate.
  destruct (PyStr.py_int p0) as [hour|]; [|discriminate].
  destruct (PyStr.py_int p1) as [minute|]; [|discriminate].
  destruct ((0 <=? hour)%Z && (hour <=? 23)%Z && (0 <=? minute)%Z
            && (minute <=? 59)%Z) eqn:Hrange; [|discriminate].
  intros [= <-]. rewrite !andb_true_iff, !Z.leb_le in Hrange.
  apply hhmm_valid; lia.
Qed.

(** C6, as the code has it.  Asked for the notification time, the handler
    reads the stripped text as two [int()] fields around one colon.  Every
    valid [HH:MM] is accepted and stored as it is; whatever is accepted is
    stored as a valid zero-padded [HH:MM], the user is told so and the
    prompt is over; whatever is rejected is not a valid [HH:MM], the user
    gets the error report and the stored notification time stays as it
    was.  Either way the handler returns to the main menu once its message
    is delivered. *)
Theorem time_input_validation env uid text w user :
  profile_of uid w = Some user ->
  waiting_for_time (context w) = true ->
  let t := PyStr.strip text in
  let res := handle_time_input env uid text w in
  match parse_time_input t with
  | Some stored =>
      let ok := bool_decide (is_Some (bot_send env uid (TimeSaved stored))) in
      is_valid_hhmm stored = true
      /\ (is_valid_hhmm t = true -> stored = t)
      /\ sent_since w (snd res) = [(uid, TimeSaved stored, ok)]
      /\ notification_time <$> profile_of uid (snd res) = Some (Some stored)
      /\ waiting_for_time (context (snd res)) = false
      /\ fst res = (if ok then Some MAIN_MENU else None)
  | None =>
      let ok := bool_decide (is_Some (bot_send env uid TimeError)) in
      is_valid_hhmm t = false
      /\ sent_since w (snd res) = [(uid, TimeError, ok)]
      /\ notification_time <$> profile_of uid (snd res)
         = Some (notification_time user)
      /\ fst res = (if ok then Some MAIN_MENU else None)
  end.
Proof.
  intros Hu Hwait. cbv zeta. unfold handle_time_input. run. rewrite Hwait.
  destruct (parse_time_input (PyStr.strip text)) as [stored|] eqn:Hparse.
  - rewrite Hu. simpl.
    split; [eapply parse_time_input_stored; exact Hparse|].
    split.
    { intros Hv. rewrite (parse_time_input_valid _ Hv) in Hparse.
      congruence. }
    destruct (bot_send env uid (TimeSaved stored)); simpl;
      rewrite drop_app_length, ?users_get_set_eq; auto.
  - split.
    { destruct (is_valid_hhmm (PyStr.strip text)) eqn:Hv; [|reflexivity].
      rewrite (parse_time_input_valid _ Hv) in Hparse. discriminate. }
    destruct (bot_send env uid TimeError); simpl;
      rewrite drop_app_length, ?users_get_set_eq, ?Hu; simpl; rewrite ?Hu; auto.
Qed.

Lemma time_input_validation_witness :
  notification_time <$>
    profile_of "1" (snd (handle_time_input TimeExample.env "1" " 09:05 "
                           TimeExample.w_waiting))
  = Some (Some "09:05")
  /\ sent_since TimeExample.w_waiting
       (snd (handle_time_input TimeExample.env "1" "25:00"
               TimeExample.w_waiting))
     = [("1", TimeError, true)].
Proof.
  split.
  - pose proof (time_input_validation TimeExample.env "1" " 09:05 "
                  TimeExample.w_waiting SchedulerExample.sleeper
                  eq_refl eq_refl) as H.
    cbv zeta in H.
    change (parse_time_input (PyStr.strip " 09:05 ")) with (Some "09:05") in H.
    cbv beta iota zeta in H. apply H.
  - pose proof (time_input_validation TimeExample.env "1" "25:00"
                  TimeExample.w_waiting SchedulerExample.sleeper
                  eq_refl eq_refl) as H.
    cbv zeta in H.
    change (parse_time_input (PyStr.strip "25:00")) with (@None string) in H.
    cbv beta iota zeta in H. apply H.
Defined.

(** C6, as the claim has it, fails: ["9:5"] is not a valid [HH:MM], and the
    handler accepts it and stores ["09:05"]. *)
Lemma time_input_accepts_unpadded :
  is_valid_hhmm "9:5" = false
  /\ notification_time <$>
       profile_of "1" (snd (handle_time_input TimeExample.env "1" "9:5"
                              TimeExample.w_waiting))
     = Some (Some "09:05")
  /\ sent_since TimeExample.w_waiting
       (snd (handle_time_input TimeExample.env "1" "9:5"
               TimeExample.w_waiting))
     = [("1", TimeSaved "09:05", true)].
Proof. vm_compute. repeat split; reflexivity. Qed.

(* ===================================================================== *)
(** ** Plan entry *)
(* ===================================================================== *)

Lemma rstrip_app p (a b : string) :
  PyStr.rstrip_with p b <> EmptyString ->
  PyStr.rstrip_with p (a +:+ b) = a +:+ PyStr.rstrip_with p b.
Proof.
  intros Hb. induction a as [|c a IH]; simpl; [reflexivity|].
  rewrite IH.
  change (String c a +:+ PyStr.rstrip_with p b)
    with (String c (a +:+ PyStr.rstrip_with p b)).
  destruct (a +:+ PyStr.rstrip_with p b) as [|c' r] eqn:Hr; [|reflexivity].
  exfalso. destruct a; simpl in Hr; [exact (Hb Hr)|discriminate Hr].
Qed.

Lemma forall_chars_app p (a b : string) :
  PyStr.forall_chars p (a +:+ b)
  = PyStr.forall_chars p a && PyStr.forall_chars p b.
Proof.
  induction a as [|c a IH]; simpl; [reflexivity|].
  rewrite IH, andb_assoc. reflexivity.
Qed.

Lemma split_on_no_sep sep (a : string) :
  PyStr.forall_chars (fun c => negb (Ascii.eqb c sep)) a = true ->
  PyStr.split_on sep a = [a].
Proof.
  induction a as [|c a IH]; simpl; [reflexivity|].
  intros H. apply andb_true_iff in H as [Hc Ha].
  apply negb_true_iff in Hc. rewrite Hc, (IH Ha). reflexivity.
Qed.

Lemma split_on_app sep (a b : string) :
  PyStr.forall_chars (fun c => negb (Ascii.eqb c sep)) a = true ->
  PyStr.split_on sep (a +:+ String sep b) = a :: PyStr.split_on sep b.
Proof.
  induction a as [|c a IH]; simpl.
  - intros _. rewrite Ascii.eqb_refl. reflexivity.
  - intros H. apply andb_true_iff in H as [Hc Ha].
    apply negb_true_iff in Hc. rewrite Hc, (IH Ha). reflexivity.
Qed.

Lemma split_on_blank (s : string) :
  PyStr.split_on ";" (String " " s)
  = match PyStr.split_on ";" s with
    | [] => [String " " EmptyString]
    | f :: fs => String " " f :: fs
    end.
Proof. reflexivity. Qed.

Lemma clean_text_inv s :
  clean_text s = true ->
  s <> EmptyString
  /\ PyStr.lstrip_with PyStr.isspace s = s
  /\ PyStr.rstrip_with PyStr.isspace s = s
  /\ PyStr.forall_chars (fun c => negb (Ascii.eqb c ";")) s = true.
Proof.
  unfold clean_text. rewrite !andb_true_iff, negb_true_iff, !String.eqb_eq.
  intros (((Hn & Hl) & Hr) & Hs). apply String.eqb_neq in Hn. auto.
Qed.

Lemma clean_text_intro s :
  s <> EmptyString ->
  PyStr.lstrip_with PyStr.isspace s = s ->
  PyStr.rstrip_with PyStr.isspace s = s ->
  PyStr.forall_chars (fun c => negb (Ascii.eqb c ";")) s = true ->
  clean_text s = true.
Proof.
  intros Hn Hl Hr Hs. unfold clean_text.
  rewrite Hl, Hr, Hs, !String.eqb_refl.
  rewrite (proj2 (String.eqb_neq s "")) by exact Hn. reflexivity.
Qed.

Lemma clean_text_strip s : clean_text s = true -> PyStr.strip s = s.
Proof.
  intros H. destruct (clean_text_inv s H) as (_ & Hl & Hr & _).
  unfold PyStr.strip. rewrite Hl. exact Hr.
Qed.

Lemma clean_text_strip_blank s :
  clean_text s = true -> PyStr.strip (String " " s) = s.
Proof.
  intros H. unfold PyStr.strip. simpl. apply (clean_text_strip s H).
Qed.

(** A text that starts with a non-blank character and then goes on with
    a clean text is clean when the text before has no semicolon. *)
Lemma clean_text_prefixed c (a b : string) :
  PyStr.isspace c = false ->
  PyStr.forall_chars (fun c => negb (Ascii.eqb c ";")) (String c a) = true ->
  clean_text b = true ->
  clean_text (String c a +:+ b) = true.
Proof.
  intros Hc Ha Hb. destruct (clean_text_inv b Hb) as (Hn & _ & Hr & Hs).
  apply clean_text_intro.
  - discriminate.
  - simpl. rewrite Hc. reflexivity.
  - rewrite rstrip_app by (rewrite Hr; exact Hn). rewrite Hr. reflexivity.
  - rewrite forall_chars_app, Ha, Hs. reflexivity.
Qed.

Lemma entry_text_clean item :
  entry_ok item = true -> clean_text (entry_text item) = true.
Proof.
  destruct item as [s|[t|] text]; simpl; [discriminate| |].
  - intros H. apply andb_true_iff in H as [Ht Hx].
    destruct (is_valid_hhmm_inv t Ht)
      as (a & b & d & e & -> & Ha & Hb & Hd & He & _).
    change (String a (String b (String ":" (String d (String e EmptyString))))
            +:+ " " +:+ text)
      with (String a (String b (String ":" (String d (String e " "))))
            +:+ text).
    apply clean_text_prefixed; [apply decimal_not_space; exact Ha| |exact Hx].
    simpl. rewrite (decimal_not_semicolon a Ha), (decimal_not_semicolon b Hb),
      (decimal_not_semicolon d Hd), (decimal_not_semicolon e He). reflexivity.
  - intros H. apply andb_true_iff in H as [H _].
    apply andb_true_iff in H as [H _]. exact H.
Qed.

Lemma clean_first_char s :
  clean_text s = true ->
  exists c r, s = String c r /\ PyStr.isspace c = false.
Proof.
  intros H. destruct (clean_text_inv s H) as (Hn & Hl & _).
  destruct s as [|c r]; [congruence|]. exists c, r. split; [reflexivity|].
  destruct (PyStr.isspace c) eqn:Hc; [|reflexivity].
  exfalso. simpl in Hl. rewrite Hc in Hl.
  assert (Hlen : forall x, String.length (PyStr.lstrip_with PyStr.isspace x)
                           <= String.length x).
  { induction x as [|y x IH]; simpl; [lia|].
    destruct (PyStr.isspace y); simpl; lia. }
  specialize (Hlen r). rewrite Hl in Hlen. simpl in Hlen. lia.
Qed.

(** The string of a list of clean texts: stripping leaves it as it is,
    and splitting it at the semicolons gives the texts back, each but the
    first behind one blank. *)
Lemma join_clean rs :
  Forall (fun r => clean_text r = true) rs -> rs <> [] ->
  PyStr.join "; " rs <> EmptyString
  /\ PyStr.lstrip_with PyStr.isspace (PyStr.join "; " rs) = PyStr.join "; " rs
  /\ PyStr.rstrip_with PyStr.isspace (PyStr.join "; " rs) = PyStr.join "; " rs
  /\ exists r rest,
       rs = r :: rest
       /\ PyStr.split_on ";" (PyStr.join "; " rs) = r :: map (String " ") rest.
Proof.
  induction 1 as [|r rs Hr Hrs IH]; intros Hne; [congruence|].
  destruct (clean_text_inv r Hr) as (Hrn & Hrl & Hrr & Hrs').
  destruct rs as [|r' rs'].
  - simpl. split; [exact Hrn|]. split; [exact Hrl|]. split; [exact Hrr|].
    exists r, []. split; [reflexivity|]. apply split_on_no_sep. exact Hrs'.
  - destruct IH as (Hjn & Hjl & Hjr & r0 & rest0 & [= <- <-] & Hsplit);
      [discriminate|].
    change (PyStr.join "; " (r :: r' :: rs'))
      with (r +:+ String ";" (String " " (PyStr.join "; " (r' :: rs')))).
    assert (Htail : PyStr.rstrip_with PyStr.isspace
                      (String ";" (String " " (PyStr.join "; " (r' :: rs'))))
                    = String ";" (String " " (PyStr.join "; " (r' :: rs')))).
    { change (String ";" (String " " (PyStr.join "; " (r' :: rs'))))
        with ("; " +:+ PyStr.join "; " (r' :: rs')).
      rewrite rstrip_app by (rewrite Hjr; exact Hjn).
      rewrite Hjr. reflexivity. }
    destruct (clean_first_char r Hr) as (c & r1 & -> & Hc).
    split; [discriminate|].
    split; [simpl; rewrite Hc; reflexivity|].
    split.
    + rewrite rstrip_app by (rewrite Htail; discriminate).
      rewrite Htail. reflexivity.
    + exists (String c r1), (r' :: rs'). split; [reflexivity|].
      rewrite split_on_app by exact Hrs'.
      f_equal. rewrite split_on_blank, Hsplit. reflexivity.
Qed.

Lemma raw_fields rest :
  Forall (fun r => clean_text r = true) rest ->
  map PyStr.strip
      (List.filter (fun item => negb (String.eqb (PyStr.strip item) ""))
                   (map (String " ") rest)) = rest.
Proof.
  induction 1 as [|r rest Hr _ IH]; [reflexivity|].
  simpl map at 2. simpl List.filter.
  rewrite (clean_text_strip_blank r Hr).
  destruct (clean_text_inv r Hr) as (Hn & _).
  rewrite (proj2 (String.eqb_neq r "")) by exact Hn. simpl.
  rewrite (clean_text_strip_blank r Hr), IH. reflexivity.
Qed.

Lemma raw_items_join rs :
  Forall (fun r => clean_text r = true) rs ->
  raw_items (PyStr.strip (PyStr.join "; " rs)) = rs.
Proof.
  intros Hrs. destruct rs as [|r0 rest0]; [reflexivity|].
  destruct (join_clean (r0 :: rest0) Hrs) as (_ & Hl & Hr & r & rest & Heq & Hsplit);
    [discriminate|].
  injection Heq as <- <-.
  unfold PyStr.strip at 1. rewrite Hl, Hr. unfold raw_items. rewrite Hsplit.
  apply Forall_cons in Hrs as [Hr0 Hrest].
  simpl List.filter. rewrite (clean_text_strip r0 Hr0).
  destruct (clean_text_inv r0 Hr0) as (Hn & _).
  rewrite (proj2 (String.eqb_neq r0 "")) by exact Hn. simpl.
  rewrite (clean_text_strip r0 Hr0), (raw_fields rest0 Hrest). reflexivity.
Qed.

Lemma time_prefix_shape_inv tok :
  time_prefix_shape tok = true ->
  exists a b d e,
    tok = String a (String b (String ":" (String d (String e EmptyString))))
    /\ PyStr.isdigit_char a = true /\ PyStr.isdigit_char b = true
    /\ PyStr.isdigit_char d = true /\ PyStr.isdigit_char e = true.
Proof.
  unfold time_prefix_shape.
  destruct tok as [|a [|b [|c [|d [|e [|f s]]]]]]; simpl; try discriminate.
  rewrite !andb_true_iff, bool_decide_eq_true.
  intros ((Hc & Ha & Hb & _) & Hd & He & _).
  injection Hc as ->. exists a, b, d, e. auto 10.
Qed.

Lemma time_prefix_shape_valid t :
  is_valid_hhmm t = true -> time_prefix_shape t = true.
Proof.
  intros H. destruct (is_valid_hhmm_inv t H)
    as (a & b & d & e & -> & Ha & Hb & Hd & He & _).
  unfold time_prefix_shape. simpl.
  rewrite (decimal_isdigit a Ha), (decimal_isdigit b Hb),
    (decimal_isdigit d Hd), (decimal_isdigit e He). reflexivity.
Qed.

(** An item with a valid time in front is stored with that time. *)
Lemma parse_plan_item_timed t text :
  is_valid_hhmm t = true -> clean_text text = true ->
  parse_plan_item (t +:+ " " +:+ text) = Some (PlanDict (Some t) text).
Proof.
  intros Ht Hx. pose proof (time_prefix_shape_valid t Ht) as Hshape.
  destruct (is_valid_hhmm_inv t Ht)
    as (a & b & d & e & -> & Ha & Hb & Hd & He & Hh & Hm).
  destruct (clean_first_char text Hx) as (c & r & -> & Hc).
  destruct (two_digits a b Ha Hb) as [Hab _].
  destruct (two_digits d e Hd He) as [Hde _].
  unfold parse_plan_item.
  assert (Hsplit : PyStr.split_maxsplit1
            (String a (String b (String ":" (String d (String e EmptyString))))
             +:+ " " +:+ String c r)
          = [String a (String b (String ":" (String d (String e EmptyString))));
             String c r]).
  { pose proof (decimal_not_space a Ha) as Sa.
    pose proof (decimal_not_space b Hb) as Sb.
    pose proof (decimal_not_space d Hd) as Sd.
    pose proof (decimal_not_space e He) as Se.
    unfold PyStr.split_maxsplit1. simpl.
    repeat (progress (rewrite ?Sa, ?Sb, ?Sd, ?Se, ?Hc; simpl)).
    reflexivity. }
  rewrite Hsplit, Hshape. simpl PyStr.take. simpl PyStr.drop.
  rewrite Hab, Hde.
  rewrite (proj2 (Z.leb_le 0 _)) by lia.
  rewrite (proj2 (Z.leb_le _ 23)) by lia.
  rewrite (proj2 (Z.leb_le 0 _)) by lia.
  rewrite (proj2 (Z.leb_le _ 59)) by lia.
  reflexivity.
Qed.

(** An item whose first word is not a valid time is stored without one. *)
Lemma parse_plan_item_untimed text :
  clean_text text = true ->
  plain_digits (first_word text) = true ->
  is_valid_hhmm (first_word text) = false ->
  parse_plan_item text = Some (PlanDict None text).
Proof.
  intros Hx Hplain Hinvalid.
  destruct (clean_text_inv text Hx) as (Hn & Hl & _).
  unfold parse_plan_item, PyStr.split_maxsplit1. rewrite Hl.
  unfold first_word in Hplain, Hinvalid.
  destruct text as [|c r]; [congruence|]. cbv beta iota.
  destruct (PyStr.span (fun c0 => negb (PyStr.isspace c0)) (String c r))
    as [tok rest]. simpl fst in Hplain, Hinvalid.
  destruct (PyStr.lstrip_with PyStr.isspace rest) as [|c' rest'];
    [reflexivity|].
  destruct (time_prefix_shape tok) eqn:Hshape; [|reflexivity].
  destruct (time_prefix_shape_inv tok Hshape)
    as (a & b & d & e & -> & Ha & Hb & Hd & He).
  unfold plain_digits in Hplain. simpl in Hplain.
  rewrite Ha, Hb, Hd, He in Hplain. simpl in Hplain.
  rewrite !andb_true_iff in Hplain.
  destruct Hplain as (Ha' & Hb' & Hd' & He' & _).
  destruct (two_digits a b Ha' Hb') as [Hab _].
  destruct (two_digits d e Hd' He') as [Hde _].
  simpl PyStr.take. simpl PyStr.drop. rewrite Hab, Hde.
  destruct ((0 <=? Z.of_nat (10 * digit_value a + digit_value b))%Z
            && (Z.of_nat (10 * digit_value a + digit_value b) <=? 23)%Z
            && (0 <=? Z.of_nat (10 * digit_value d + digit_value e))%Z
            && (Z.of_nat (10 * digit_value d + digit_value e) <=? 59)%Z)
    eqn:Hrange; [|reflexivity].
  exfalso. rewrite !andb_true_iff, !Z.leb_le in Hrange.
  unfold is_valid_hhmm in Hinvalid.
  rewrite Ha', Hb', Hd', He' in Hinvalid. simpl in Hinvalid.
  rewrite (proj2 (Nat.leb_le _ 23)) in Hinvalid by lia.
  rewrite (proj2 (Nat.leb_le _ 59)) in Hinvalid by lia.
  discriminate Hinvalid.
Qed.

Lemma parse_plan_item_entry item :
  entry_ok item = true -> parse_plan_item (entry_text item) = Some item.
Proof.
  destruct item as [s|[t|] text]; simpl; [discriminate| |].
  - intros H. apply andb_true_iff in H as [Ht Hx].
    apply parse_plan_item_timed; assumption.
  - intros H. rewrite !andb_true_iff, negb_true_iff in H.
    destruct H as ((Hx & Hp) & Hv). apply parse_plan_item_untimed; assumption.
Qed.

Lemma parse_plan_items_entries items :
  forallb entry_ok items = true ->
  parse_plan_items (map entry_text items) = Some items.
Proof.
  induction items as [|item items IH]; simpl; [reflexivity|].
  intros H. apply andb_true_iff in H as [Hi His].
  rewrite (parse_plan_item_entry item Hi), (IH His). reflexivity.
Qed.

(** C5 at the failing input.  The entry is [08:00 Item A; 1²:00 x].  The
    first word of its second item is no valid [HH:MM], so the item is one
    to store without a time; but it has five characters with a colon in
    the middle and [isdigit()] holds of both halves, since it holds of
    the superscript two, which [int()] does not read.  [int()] raises,
    nothing in [enter_plans] catches that, and the handler ends with the
    exception: nothing is sent, the conversation's pending plans are not
    set, and the first item is lost with the second. *)
Lemma superscript_time_loses_entry :
  is_valid_hhmm (first_word FailureExample.superscript_item) = false
  /\ time_prefix_shape (first_word FailureExample.superscript_item) = true
  /\ PyStr.py_int (PyStr.take 2 (first_word FailureExample.superscript_item))
     = None
  /\ raw_items (PyStr.strip FailureExample.superscript_entry)
     = ["08:00 Item A"; FailureExample.superscript_item]
  /\ parse_plan_item "08:00 Item A" = Some (PlanDict (Some "08:00") "Item A")
  /\ parse_plan_item FailureExample.superscript_item = None
  /\ forall env uid w,
       enter_plans env uid FailureExample.superscript_entry w = (None, w).
Proof.
  repeat (split; [vm_compute; reflexivity|]).
  intros env uid w. unfold enter_plans.
  replace (parse_plan_items
             (raw_items (PyStr.strip FailureExample.superscript_entry)))
    with (@None (list plan)) by (vm_compute; reflexivity).
  reflexivity.
Qed.

(** X24. A plan entry written item by item is read back as written.  For
    every list of plan items of this model (texts of code points below
    256), each timed item made of a valid [HH:MM] and a text, each untimed
    one of a text whose first word is not a valid [HH:MM] and holds no
    superscript digit, the texts not empty, without a blank at either end
    and without a semicolon: the plan-entry string that writes the items
    one after the other, a timed item as its time, a blank and its text,
    with [; ] between the items, is parsed by [enter_plans] into exactly
    that list, in that order.  The pending plans of the conversation are
    the items, the day is not skipped, and the items are shown for
    review. *)
Theorem plan_entry_parsed env uid w items :
  forallb entry_ok items = true ->
  let res := enter_plans env uid (plan_entry_string items) w in
  let prompt := ReviewPrompt (current_day (context w)) items in
  let ok := bool_decide (is_Some (bot_send env uid prompt)) in
  current_plans (context (snd res)) = Some items
  /\ skip_day (context (snd res)) = false
  /\ sent_since w (snd res) = [(uid, prompt, ok)]
  /\ fst res = (if ok then Some REVIEW_PLANS else None).
Proof.
  intros Hok. cbv zeta. unfold enter_plans, plan_entry_string.
  assert (Hclean : Forall (fun r => clean_text r = true) (map entry_text items)).
  { apply Forall_forall. intros r Hr. apply list_elem_of_In in Hr.
    apply in_map_iff in Hr as (item & <- & Hin).
    apply entry_text_clean. rewrite forallb_forall in Hok. auto. }
  rewrite (raw_items_join _ Hclean), (parse_plan_items_entries items Hok).
  unfold review_plans. run.
  destruct (bot_send env uid (ReviewPrompt (current_day (context w)) items));
    simpl; rewrite drop_app_length; auto.
Qed.

Lemma plan_entry_parsed_witness :
  plan_entry_string PlanExample.items = "08:00 Item A; Item B; 23:59 Item C"
  /\ current_plans
       (context (snd (enter_plans TimeExample.env "1"
                        "08:00 Item A; Item B; 23:59 Item C" PlanExample.w)))
     = Some [PlanDict (Some "08:00") "Item A"; PlanDict None "Item B";
             PlanDict (Some "23:59") "Item C"].
Proof.
  split; [reflexivity|].
  apply (plan_entry_parsed TimeExample.env "1" PlanExample.w PlanExample.items).
  vm_compute. reflexivity.
Defined.

(* ===================================================================== *)
(** ** A whole itog session *)
(* ===================================================================== *)

Lemma answer_not_last env uid a w u s :
  always_delivers env ->
  profile_of uid w = Some u -> itog_state u = Some s ->
  current_index s + 1 < length (plans s) ->
  exists u' s',
    profile_of uid (snd (handle_itog_response env uid a w)) = Some u'
    /\ itog_state u' = Some s'
    /\ plans s' = plans s /\ day_name s' = day_name s
    /\ current_index s' = current_index s + 1
    /\ completed s' = match a with
                      | Da => {[ current_index s ]} ∪ completed s
                      | Net => completed s
                      end
    /\ user_plans u' = user_plans u.
Proof.
  intros Hsend Hu Hst Hlt.
  unfold handle_itog_response. run. rewrite Hu. simpl. rewrite Hst. simpl.
  destruct (plans s) as [|p0 ps] eqn:Hp; simpl in Hlt; [lia|].
  simpl. rewrite (proj2 (Nat.leb_gt _ _)) by lia.
  rewrite (proj2 (Nat.leb_gt _ _)) by lia.
  destruct (lookup_lt_is_Some_2 (p0 :: ps) (current_index s + 1)) as [item Hitem];
    [simpl; lia|].
  rewrite Hitem.
  destruct (Hsend uid (ItogQuestion (current_index s + 1) item)) as [id Hid].
  rewrite Hid. simpl. rewrite users_get_set_eq.
  eexists.
  exists (set_question_message_id (Some id)
            (set_progress (current_index s + 1)
               match a with
               | Da => {[ current_index s ]} ∪ completed s
               | Net => completed s
               end s)).
  simpl. rewrite Hp. repeat (split; [reflexivity|]). reflexivity.
Qed.

Lemma answer_last env uid a w u s :
  always_delivers env ->
  profile_of uid w = Some u -> itog_state u = Some s ->
  current_index s + 1 = length (plans s) ->
  let done := match a with
              | Da => {[ current_index s ]} ∪ completed s
              | Net => completed s
              end in
  exists u',
    profile_of uid (snd (handle_itog_response env uid a w)) = Some u'
    /\ itog_state u' = None
    /\ (forall d, day_plans u' d
                  = if bool_decide (done = ∅) then day_plans u d
                    else if decide (d = day_name s)
                         then remaining_plans (plans s) done
                         else day_plans u d)
    /\ In (uid, ItogDone (size done) (length (plans s)), true)
          (outbox (snd (handle_itog_response env uid a w))).
Proof.
  intros Hsend Hu Hst Hlast done.
  set (s1 := set_progress (current_index s + 1) done s).
  assert (Hres : forall d,
    day_plans (apply_itog_results_to_plans u s1) d
    = if bool_decide (done = ∅) then day_plans u d
      else if decide (d = day_name s)
           then remaining_plans (plans s) done
           else day_plans u d).
  { intros d. rewrite day_plans_apply_itog_results. simpl.
    destruct (plans s) eqn:Hp; simpl in *; [lia|]. reflexivity. }
  unfold handle_itog_response. run. rewrite Hu. simpl. rewrite Hst. simpl.
  destruct (plans s) as [|p0 ps] eqn:Hp; simpl in Hlast; [lia|].
  simpl. rewrite (proj2 (Nat.leb_gt _ _)) by lia.
  rewrite (proj2 (Nat.leb_le _ _)) by lia.
  fold done. fold s1.
  destruct (Hsend uid (ItogDone (size done) (S (length ps)))) as [id Hid].
  rewrite Hid. simpl.
  destruct (Hsend uid (Notice BackToMainMenu)) as [id' Hid'].
  rewrite Hid'. simpl. rewrite !users_get_set_eq. simpl.
  eexists. split; [reflexivity|]. simpl. split; [reflexivity|].
  split; [exact Hres|].
  apply in_or_app. left. apply in_or_app. right. left. reflexivity.
Qed.

Lemma yes_positions_ge n answers i : i ∈ yes_positions n answers -> n <= i.
Proof.
  revert n. induction answers as [|[|] rest IH]; intros n; simpl.
  - set_solver.
  - intros [Hi|Hi]%elem_of_union.
    + apply elem_of_singleton in Hi. lia.
    + apply IH in Hi. lia.
  - intros Hi. apply IH in Hi. lia.
Qed.

Lemma size_yes_positions n answers :
  size (yes_positions n answers) = count_yes answers.
Proof.
  revert n. induction answers as [|[|] rest IH]; intros n; simpl.
  - reflexivity.
  - rewrite size_union, size_singleton, IH; [reflexivity|].
    intros i Hi Hi'. apply elem_of_singleton in Hi. subst i.
    apply yes_positions_ge in Hi'. lia.
  - apply IH.
Qed.

Lemma filter_ext_in_list {A} (f g : A -> bool) (l : list A) :
  (forall x, In x l -> f x = g x) -> List.filter f l = List.filter g l.
Proof.
  induction l as [|a l IH]; intros H; simpl; [reflexivity|].
  rewrite (H a) by (left; reflexivity).
  rewrite IH by (intros x Hx; apply H; right; exact Hx). reflexivity.
Qed.

Lemma enumerate_from_ge {A} (l : list A) : forall n i x,
  In (i, x) (enumerate_from n l) -> n <= i.
Proof.
  induction l as [|y l IH]; intros n i x; simpl; [tauto|].
  intros [[= <- _]|Hin]; [lia|]. apply IH in Hin. lia.
Qed.

(** What is left of a snapshot once the positions answered with yes are
    taken out is the items answered with no. *)
Lemma remaining_items_left ps : forall answers n,
  length answers = length ps ->
  map snd (List.filter (fun ip => bool_decide (fst ip ∉ yes_positions n answers))
                       (enumerate_from n ps))
  = items_left ps answers.
Proof.
  induction ps as [|p ps IH]; intros [|a rest] n Hlen; simpl in Hlen;
    try discriminate; [reflexivity|].
  injection Hlen as Hlen. destruct a; simpl.
  - rewrite bool_decide_eq_false_2 by set_solver.
    rewrite <- (IH rest (S n) Hlen). f_equal. apply filter_ext_in_list.
    intros [i x] Hin. apply enumerate_from_ge in Hin. simpl.
    apply bool_decide_ext. split; [set_solver|].
    intros Hi [Hn|Hy]%elem_of_union; [|tauto].
    apply elem_of_singleton in Hn. lia.
  - rewrite bool_decide_eq_true_2.
    + simpl. f_equal. apply IH. exact Hlen.
    + intros Hn. apply yes_positions_ge in Hn. lia.
Qed.

Lemma items_left_all_no ps : forall answers n,
  length answers = length ps -> yes_positions n answers = ∅ ->
  items_left ps answers = ps.
Proof.
  induction ps as [|p ps IH]; intros [|a rest] n Hlen Hy; simpl in Hlen;
    try discriminate; [reflexivity|].
  injection Hlen as Hlen. destruct a; simpl in *.
  - exfalso. set_solver.
  - f_equal. eapply IH; eauto.
Qed.

(** The answers still to come, for a session that stands at position [k]
    of a snapshot with [k + length answers] items. *)
Lemma answer_all_spec env uid : forall answers w u s,
  always_delivers env ->
  profile_of uid w = Some u -> itog_state u = Some s ->
  answers <> [] ->
  current_index s + length answers = length (plans s) ->
  let done := completed s ∪ yes_positions (current_index s) answers in
  exists u',
    profile_of uid (answer_all env uid answers w) = Some u'
    /\ itog_state u' = None
    /\ (forall d, day_plans u' d
                  = if bool_decide (done = ∅) then day_plans u d
                    else if decide (d = day_name s)
                         then remaining_plans (plans s) done
                         else day_plans u d)
    /\ In (uid, ItogDone (size done) (length (plans s)), true)
          (outbox (answer_all env uid answers w)).
Proof.
  induction answers as [|a rest IH]; intros w u s Hsend Hu Hst Hne Hlen;
    [congruence|].
  destruct rest as [|b rest].
  - simpl in Hlen. cbv zeta.
    destruct (answer_last env uid a w u s Hsend Hu Hst Hlen)
      as (u' & H1 & H2 & H3 & H4).
    assert (Hdone : completed s ∪ yes_positions (current_index s) [a]
                    = match a with
                      | Da => {[ current_index s ]} ∪ completed s
                      | Net => completed s
                      end).
    { destruct a; simpl; set_solver. }
    rewrite Hdone. exists u'. simpl. auto.
  - assert (Hlt : current_index s + 1 < length (plans s))
      by (simpl in Hlen; lia).
    destruct (answer_not_last env uid a w u s Hsend Hu Hst Hlt)
      as (u1 & s1 & G1 & G2 & G3 & G4 & G5 & G6 & G7).
    destruct (IH _ u1 s1 Hsend G1 G2) as (u' & H1 & H2 & H3 & H4);
      [discriminate|rewrite G3, G5; simpl in *; lia|].
    assert (Hdone : completed s1 ∪ yes_positions (current_index s1) (b :: rest)
                    = completed s ∪ yes_positions (current_index s) (a :: b :: rest)).
    { rewrite G5, G6. replace (current_index s + 1) with (S (current_index s)) by lia.
      destruct a; simpl; set_solver. }
    rewrite Hdone, G3, G4 in *.
    exists u'. split; [exact H1|]. split; [exact H2|]. split; [|exact H4].
    intros d. rewrite H3. unfold day_plans. rewrite G7. reflexivity.
Qed.

(** X1. A whole itog session.  For a user whose plan for today is not
    empty and a transport that delivers, [/itog] followed by one answer
    per item ends the session, reports the number of items answered with
    yes out of the number of items, and leaves as today's plan the items
    answered with no, in their order; the plans of the other days are as
    they were. *)
Theorem itog_session_leaves_unanswered_items env uid w user answers :
  always_delivers env ->
  profile_of uid w = Some user ->
  let today := today_weekday (get_user_now env user) in
  day_plans user today <> [] ->
  length answers = length (day_plans user today) ->
  let w' := answer_all env uid answers (snd (start_itog env uid w)) in
  exists user',
    profile_of uid w' = Some user'
    /\ itog_state user' = None
    /\ day_plans user' today = items_left (day_plans user today) answers
    /\ (forall d, d <> today -> day_plans user' d = day_plans user d)
    /\ In (uid, ItogDone (count_yes answers) (length answers), true) (outbox w').
Proof.
  intros Hsend Hu today Hne Hlen w'.
  assert (Hstart : exists s,
    profile_of uid (snd (start_itog env uid w))
      = Some (set_itog_state (Some s) user)
    /\ plans s = day_plans user today /\ day_name s = today
    /\ current_index s = 0 /\ completed s = ∅).
  { unfold start_itog. run. rewrite Hu. simpl. fold today.
    destruct (day_plans user today) as [|first ps] eqn:Hp; [congruence|].
    destruct (Hsend uid (ItogList (date_text (get_user_now env user)) today
                           (first :: ps))) as [id Hid].
    rewrite Hid. simpl.
    destruct (Hsend uid (ItogQuestion 0 first)) as [id' Hid'].
    rewrite Hid'. simpl. rewrite users_get_set_eq.
    eexists. split; [reflexivity|]. simpl. auto. }
  destruct Hstart as (s & Hs & Hplans & Hday & Hidx & Hdone).
  destruct (answer_all_spec env uid answers _ _ s Hsend Hs eq_refl)
    as (u' & H1 & H2 & H3 & H4).
  { intros ->. simpl in Hlen. destruct (day_plans user today); [congruence|discriminate]. }
  { rewrite Hidx, Hplans. simpl. exact Hlen. }
  rewrite Hidx, Hdone, Hplans, Hday in *.
  assert (Hset : (∅ : gset nat) ∪ yes_positions 0 answers = yes_positions 0 answers)
    by set_solver.
  rewrite Hset in *. rewrite size_yes_positions, <- Hlen in H4.
  exists u'. split; [exact H1|]. split; [exact H2|].
  split; [|split; [|exact H4]].
  - rewrite H3. rewrite decide_True by reflexivity.
    destruct (bool_decide (yes_positions 0 answers = ∅)) eqn:Hy.
    + apply bool_decide_eq_true in Hy. symmetry.
      apply (items_left_all_no _ _ 0 Hlen Hy).
    + apply (remaining_items_left _ _ 0 Hlen).
  - intros d Hd. rewrite H3. rewrite decide_False by exact Hd.
    destruct (bool_decide _); reflexivity.
Qed.

Lemma itog_session_leaves_unanswered_items_witness :
  exists user',
    profile_of "1" (answer_all ItogExample.env "1" [Da; Net]
                      (snd (start_itog ItogExample.env "1" ItogExample.w0)))
      = Some user'
    /\ itog_state user' = None
    /\ day_plans user' Monday = [ItogExample.item_b].
Proof.
  destruct (itog_session_leaves_unanswered_items ItogExample.env "1"
              ItogExample.w0
              (ItogExample.user [ItogExample.item_a; ItogExample.item_b] None)
              [Da; Net])
    as (user' & H1 & H2 & H3 & _).
  - intros chat m. eexists. reflexivity.
  - reflexivity.
  - discriminate.
  - reflexivity.
  - exists user'. split; [exact H1|]. split; [exact H2|]. exact H3.
Defined.

(* ===================================================================== *)
(** ** Replies to a user without a record *)
(* ===================================================================== *)

(** X2. A reply creates the record it notes its id in.  [/itog] from a
    user the users file does not list is answered with the request to
    run [/start] first, and [send_and_replace] leaves a record for the
    user that holds the ids of that reply and nothing else; so the next
    [/itog] finds a record, and answers that today has no entries. *)
Theorem itog_of_unknown_user_leaves_record env env' uid w id :
  profile_of uid w = None ->
  bot_send env uid (Notice StartFirst) = Some id ->
  let w1 := snd (start_itog env uid w) in
  sent_since w w1 = [(uid, Notice StartFirst, true)]
  /\ profile_of uid w1 = Some (set_last_bot_message id uid empty_profile)
  /\ exists ok,
       sent_since w1 (snd (start_itog env' uid w1))
       = [(uid, Notice NoEntriesToday, ok)].
Proof.
  intros Hu Hid. unfold start_itog. run. rewrite Hu. simpl. rewrite Hid. simpl.
  rewrite drop_app_length, users_get_set_eq. simpl.
  split; [reflexivity|]. split; [reflexivity|].
  replace (day_plans (set_last_bot_message id uid empty_profile)
             (today_weekday (get_user_now env'
                (set_last_bot_message id uid empty_profile))))
    with (@nil plan) by reflexivity.
  simpl.
  destruct (bot_send env' uid (Notice NoEntriesToday)); simpl;
    eexists; rewrite drop_app_length; reflexivity.
Qed.

Lemma itog_of_unknown_user_leaves_record_witness :
  let w := start_world [] ∅ in
  let w1 := snd (start_itog ItogExample.env "7" w) in
  sent_since w w1 = [("7", Notice StartFirst, true)]
  /\ profile_of "7" w1 = Some (set_last_bot_message 100 "7" empty_profile).
Proof.
  destruct (itog_of_unknown_user_leaves_record ItogExample.env ItogExample.env
              "7" (start_world [] ∅) 100 eq_refl eq_refl) as (H1 & H2 & _).
  split; [exact H1|exact H2].
Defined.

(* ===================================================================== *)
(** ** What the scheduler leaves alone *)
(* ===================================================================== *)

Lemma send_daily_notification_global env uid w :
  global_plans_file (disk (snd (send_daily_notification env uid w)))
  = global_plans_file (disk w).
Proof.
  rewrite send_daily_notification_run. simpl.
  destruct (users_get uid (users_file (disk w))) as [ud|]; [|reflexivity].
  destruct (user_plans ud) as [table|]; [|reflexivity].
  destruct (bot_send env uid _); reflexivity.
Qed.

Lemma send_daily_summary_global env uid w :
  global_plans_file (disk (snd (send_daily_summary env uid w)))
  = global_plans_file (disk w).
Proof.
  rewrite send_daily_summary_run. simpl.
  destruct (users_get uid (users_file (disk w))) as [ud|]; [|reflexivity].
  destruct (bot_send env uid _); reflexivity.
Qed.

Lemma scheduler_user_global env uw uid ud w :
  global_plans_file (disk (snd (scheduler_user env uw uid ud w)))
  = global_plans_file (disk w).
Proof.
  rewrite scheduler_user_run. cbv zeta.
  set (w1 := if brief_due env ud
             then snd (send_daily_notification env uid w) else w).
  assert (H1 : global_plans_file (disk w1) = global_plans_file (disk w)).
  { unfold w1. destruct (brief_due env ud); [|reflexivity].
    apply send_daily_notification_global. }
  destruct (remind_items_spec env uw uid
              (date_key (get_user_now env ud))
              (current_time_of (get_user_now env ud))
              (day_plans ud (today_weekday (get_user_now env ud))) ud w1)
    as (R & K & (_ & _ & _ & _ & _ & _ & _ & H2)).
  destruct (remind_items _ _ _ _ _ _ _ _) as [[ud1|] w2]; simpl in *;
    [|congruence].
  destruct (summary_due _ ud1); simpl; [|congruence].
  rewrite send_daily_summary_global. congruence.
Qed.

Lemma scheduler_loop_global env : forall todo visited w,
  global_plans_file (disk (snd (scheduler_loop env visited todo w)))
  = global_plans_file (disk w).
Proof.
  induction todo as [|[uid ud] rest IH]; intros visited w; [reflexivity|].
  rewrite scheduler_loop_cons.
  pose proof (scheduler_user_global env
                (fun q => visited ++ (uid, q) :: rest) uid ud w) as H.
  destruct (scheduler_user _ _ _ _ _) as [[ud'|] w1]; simpl in *.
  - rewrite IH. exact H.
  - exact H.
Qed.

(** X3. A tick of the scheduler leaves the users' settings alone: for
    every user of the file the time zone, the notification time, the
    plans, the setup flag and the itog session are after the tick what
    they were before it, reminder keys are added and none is removed; the
    file lists the same users, and the global plans are untouched. *)
Theorem scheduler_tick_keeps_settings env uid p w :
  distinct_ids (users_file (disk w)) ->
  profile_of uid w = Some p ->
  let w' := snd (scheduler_tick env w) in
  (exists q,
     profile_of uid w' = Some q
     /\ timezone q = timezone p
     /\ notification_time q = notification_time p
     /\ user_plans q = user_plans p
     /\ setup_complete q = setup_complete p
     /\ itog_state q = itog_state p
     /\ sent_keys p ⊆ sent_keys q)
  /\ ids (users_file (disk w')) = ids (users_file (disk w))
  /\ global_plans_file (disk w') = global_plans_file (disk w).
Proof.
  intros Hnd Hp. cbv zeta.
  destruct (tick_post_holds env uid p w Hnd Hp)
    as (B & R & S & K & q & (_ & _ & _ & _ & _ & _ & Hq & Hafter & _ & _ & Hids)).
  destruct Hafter as (H1 & H2 & H3 & H4 & H5 & H6).
  split; [|split; [exact Hids|]].
  - exists q. unfold profile_of. split; [exact Hq|].
    do 5 (split; [assumption|]). rewrite H6. set_solver.
  - rewrite scheduler_tick_run. simpl. apply scheduler_loop_global.
Qed.

Lemma scheduler_tick_keeps_settings_witness :
  let env := SchedulerExample.env_at 8 0 in
  let w := start_world SchedulerExample.two_users ∅ in
  exists q,
    profile_of "1" (snd (scheduler_tick env w)) = Some q
    /\ user_plans q = user_plans (SchedulerExample.runner ∅)
    /\ notification_time q = Some "07:00".
Proof.
  destruct (scheduler_tick_keeps_settings (SchedulerExample.env_at 8 0) "1"
              (SchedulerExample.runner ∅)
              (start_world SchedulerExample.two_users ∅))
    as ((q & H1 & _ & H3 & H4 & _) & _).
  - apply distinct_ids_two_users.
  - reflexivity.
  - exists q. split; [exact H1|]. split; [exact H4|exact H3].
Defined.

(* ===================================================================== *)
(** ** The scheduler's loop and one user's turn *)
(* ===================================================================== *)

(** The loop and one user whose record [p] is in the file and still to
    come: either the user is sent nothing and the record stays, or the
    user's turn takes place on the record [p], with a users dict in
    memory that holds the record being visited; what the user is sent is
    what that turn sends, and the record the file ends with is the one
    the turn left in the file or the one it left in memory. *)
Lemma scheduler_loop_own_turn env uid p : forall pre visited post w,
  ~ In uid (ids visited) -> ~ In uid (ids pre) -> ~ In uid (ids post) ->
  users_get uid (users_file (disk w)) = Some p ->
  ids (users_file (disk w)) = ids (visited ++ pre ++ (uid, p) :: post) ->
  let res := scheduler_loop env visited (pre ++ (uid, p) :: post) w in
  exists d,
    outbox (snd res) = outbox w ++ d
    /\ ((sent_to uid d = []
         /\ users_get uid (users_file (disk (snd res))) = Some p)
        \/ exists uw w1,
             users_get uid (users_file (disk w1)) = Some p
             /\ (forall q, users_get uid (uw q) = Some q)
             /\ sent_to uid d
                = sent_since w1 (snd (scheduler_user env uw uid p w1))
             /\ (users_get uid (users_file (disk (snd res)))
                 = users_get uid
                     (users_file (disk (snd (scheduler_user env uw uid p w1))))
                 \/ exists p_m,
                      fst (scheduler_user env uw uid p w1) = Some p_m
                      /\ users_get uid (users_file (disk (snd res)))
                         = Some p_m)).
Proof.
  induction pre as [|[uid' ud] pre IH]; intros visited post w Hv Hpre Hpost Hp Hids.
  - cbv zeta. simpl app. rewrite scheduler_loop_cons.
    set (uw := fun q => visited ++ (uid, q) :: post).
    assert (Huw : forall q, users_get uid (uw q) = Some q).
    { intros q. apply users_get_middle. exact Hv. }
    assert (Huw' : forall q, ids (uw q) = ids (users_file (disk w))).
    { intros q. rewrite Hids. apply ids_middle. }
    destruct (turn_sends_to_own env uw uid p w Huw') as (d1 & H1 & Hto).
    destruct (turn_frame env uw uid p w Huw')
      as (_ & _ & _ & _ & _ & _ & _ & _ & H6 & _). simpl in H6.
    assert (Hsince : sent_since w (snd (scheduler_user env uw uid p w)) = d1).
    { unfold sent_since. rewrite H1, drop_app_length. reflexivity. }
    destruct (scheduler_user env uw uid p w) as [[p_m|] w2] eqn:Hrun;
      simpl in *.
    + destruct (scheduler_loop_after env uid post (visited ++ [(uid, p_m)]) w2
                  Hpost) as (d2 & G1 & G2 & G3).
      { rewrite H6, Hids, app_cons_assoc. apply ids_middle. }
      simpl in *. exists (d1 ++ d2).
      split; [rewrite G1, H1, <- !app_assoc; reflexivity|].
      right. exists uw, w. rewrite Hrun. simpl.
      split; [exact Hp|]. split; [exact Huw|].
      split.
      { rewrite sent_to_app, G2, app_nil_r, Hsince. apply sent_to_all.
        exact Hto. }
      rewrite app_cons_assoc, users_get_middle in G3 by exact Hv.
      destruct G3 as [G3|G3]; [left; exact G3|right; eauto].
    + exists d1. split; [exact H1|].
      right. exists uw, w. rewrite Hrun. simpl.
      split; [exact Hp|]. split; [exact Huw|].
      split; [rewrite Hsince; apply sent_to_all; exact Hto|].
      left. reflexivity.
  - cbv zeta. simpl app. rewrite scheduler_loop_cons.
    assert (Hne : uid' <> uid) by (intros ->; apply Hpre; left; reflexivity).
    assert (Hpre' : ~ In uid (ids pre))
      by (intros H; apply Hpre; right; exact H).
    set (uw := fun q => visited ++ (uid', q) :: pre ++ (uid, p) :: post).
    assert (Huw : forall q, ids (uw q) = ids (users_file (disk w))).
    { intros q. rewrite Hids. apply ids_middle. }
    destruct (turn_sends_to_own env uw uid' ud w Huw) as (d1 & H1 & Hto).
    destruct (turn_frame env uw uid' ud w Huw)
      as (_ & _ & _ & _ & _ & _ & _ & _ & H6 & H7). simpl in *.
    assert (Hrec : users_get uid
                     (users_file (disk (snd (scheduler_user env uw uid' ud w))))
                   = Some p).
    { destruct (H7 uid (not_eq_sym Hne)) as [H|[q H]]; rewrite H; [exact Hp|].
      unfold uw. rewrite users_get_app, users_get_not_in by exact Hv.
      simpl. rewrite decide_False by exact Hne.
      apply users_get_middle. exact Hpre'. }
    destruct (scheduler_user env uw uid' ud w) as [[ud'|] w1]; simpl in *.
    + destruct (IH (visited ++ [(uid', ud')]) post w1) as (d2 & G1 & G2);
        auto.
      { unfold ids. rewrite map_app. simpl. intros Hin.
        apply in_app_or in Hin as [Hin|[Hin|[]]]; [apply Hv; exact Hin|].
        apply Hne. exact Hin. }
      { rewrite H6, Hids, app_cons_assoc. apply ids_middle. }
      simpl in *. exists (d1 ++ d2).
      split; [rewrite G1, H1, <- app_assoc; reflexivity|].
      rewrite sent_to_app, (sent_to_none uid uid' d1 Hne Hto). simpl.
      exact G2.
    + exists d1. split; [exact H1|]. left.
      split; [apply (sent_to_none uid uid' d1 Hne Hto)|exact Hrec].
Qed.

(** The same for a tick. *)
Lemma scheduler_tick_own_turn env uid p w :
  distinct_ids (users_file (disk w)) ->
  users_get uid (users_file (disk w)) = Some p ->
  let w' := snd (scheduler_tick env w) in
  (sent_to uid (sent_since w w') = []
   /\ users_get uid (users_file (disk w')) = Some p)
  \/ exists uw w1,
       users_get uid (users_file (disk w1)) = Some p
       /\ (forall q, users_get uid (uw q) = Some q)
       /\ sent_to uid (sent_since w w')
          = sent_since w1 (snd (scheduler_user env uw uid p w1))
       /\ (users_get uid (users_file (disk w'))
           = users_get uid
               (users_file (disk (snd (scheduler_user env uw uid p w1))))
           \/ exists p_m,
                fst (scheduler_user env uw uid p w1) = Some p_m
                /\ users_get uid (users_file (disk w')) = Some p_m).
Proof.
  intros Hnd Hp.
  destruct (distinct_ids_split uid p _ Hnd Hp) as (pre & post & Hus & Hpre & Hpost).
  cbv zeta. rewrite scheduler_tick_run. simpl.
  destruct (scheduler_loop_own_turn env uid p pre [] post w) as (d & H1 & H2);
    auto.
  { simpl. rewrite Hus. reflexivity. }
  rewrite <- Hus in *. simpl in *.
  assert (Hs : sent_since w
                 (snd (scheduler_loop env [] (users_file (disk w)) w)) = d).
  { unfold sent_since. rewrite H1, drop_app_length. reflexivity. }
  rewrite Hs. exact H2.
Qed.

(** The record a turn leaves in memory has the brief id the turn found. *)
Lemma turn_memory_brief_id env uw uid p w p_m :
  fst (scheduler_user env uw uid p w) = Some p_m ->
  last_message_id p_m = last_message_id p.
Proof.
  rewrite scheduler_user_run. cbv zeta.
  set (w1 := if brief_due env p
             then snd (send_daily_notification env uid w) else w).
  destruct (remind_items_spec env uw uid
              (date_key (get_user_now env p))
              (current_time_of (get_user_now env p))
              (day_plans p (today_weekday (get_user_now env p))) p w1)
    as (R & K & (_ & _ & _ & _ & H5 & _)).
  destruct (remind_items _ _ _ _ _ _ _ _) as [[ud1|] w2]; simpl in *;
    [|discriminate].
  destruct H5 as [H5|[H5 _]]; [discriminate|]. injection H5 as ->.
  destruct (summary_due _ _); simpl; intros [= <-]; reflexivity.
Qed.

(** When a turn delivers a reminder, the record it leaves in the file
    has the brief id the turn found: what [send_daily_notification] wrote
    is overwritten by the users dict in memory. *)
Lemma turn_file_brief_id env uw uid p w t x :
  users_get uid (users_file (disk w)) = Some p ->
  (forall q, users_get uid (uw q) = Some q) ->
  In (uid, Reminder t x, true)
     (sent_since w (snd (scheduler_user env uw uid p w))) ->
  exists p_d,
    users_get uid (users_file (disk (snd (scheduler_user env uw uid p w))))
      = Some p_d
    /\ last_message_id p_d = last_message_id p.
Proof.
  intros Hp Huw. rewrite scheduler_user_run. cbv zeta.
  destruct (brief_phase env uid p w Hp) as (B & p1 & HB1 & HB2 & _).
  cbv zeta in HB1.
  set (w1 := if brief_due env p
             then snd (send_daily_notification env uid w) else w) in *.
  set (now := get_user_now env p) in *.
  destruct (remind_items_spec env uw uid (date_key now) (current_time_of now)
              (day_plans p (today_weekday now)) p w1)
    as (R & K & (H1 & _ & _ & H4 & H5 & H6 & _)).
  assert (HinB : ~ In (uid, Reminder t x, true) B).
  { destruct HB2 as [[-> _]|(_ & _ & m & ok & Hm & ->)]; [tauto|].
    intros [[= -> _]|[]]. discriminate Hm. }
  assert (Hfile : In (uid, Reminder t x, true) R ->
            users_get uid
              (users_file (disk (snd (remind_items env uw uid (date_key now)
                 (current_time_of now) (day_plans p (today_weekday now)) p w1))))
            = Some (with_keys K p)).
  { intros Hin. destruct H6 as [[HK _]|[_ ->]]; [|apply Huw].
    exfalso. assert (Hk : sent_key (date_key now) t x ∈ K)
      by (apply H4; eauto).
    rewrite HK in Hk. set_solver. }
  destruct (remind_items _ _ _ _ _ _ _ _) as [[ud1|] w2]; simpl in *.
  - destruct H5 as [H5|[H5 _]]; [discriminate|]. injection H5 as ->.
    change (summary_due now (with_keys K p)) with (summary_due now p).
    destruct (summary_due now p); simpl.
    + rewrite send_daily_summary_run. simpl.
      destruct (users_get uid (users_file (disk w2))) as [r|] eqn:Hr.
      * destruct (bot_send env uid (summary_for env r)) as [id|]; simpl;
          unfold sent_since; simpl; rewrite H1, HB1, <- !app_assoc,
            drop_app_length; intros Hin;
          apply in_app_or in Hin as [Hin|Hin]; try tauto;
          apply in_app_or in Hin as [Hin|Hin];
          try (destruct Hin as [[=]|[]]);
          specialize (Hfile Hin); injection Hfile as ->.
        -- rewrite users_get_set_eq. eexists. split; reflexivity.
        -- rewrite Hr. eexists. split; reflexivity.
      * unfold sent_since. rewrite H1, HB1, <- !app_assoc, drop_app_length.
        intros Hin. apply in_app_or in Hin as [Hin|Hin]; [tauto|].
        specialize (Hfile Hin). discriminate.
    + unfold sent_since. rewrite H1, HB1, <- !app_assoc, drop_app_length.
      intros Hin. apply in_app_or in Hin as [Hin|Hin]; [tauto|].
      rewrite (Hfile Hin). eexists. split; reflexivity.
  - unfold sent_since. rewrite H1, HB1, <- !app_assoc, drop_app_length.
    intros Hin. apply in_app_or in Hin as [Hin|Hin]; [tauto|].
    rewrite (Hfile Hin). eexists. split; reflexivity.
Qed.

(* ===================================================================== *)
(** ** The id of the last brief *)
(* ===================================================================== *)

(** X4. A reminder overwrites the brief's id.  When a tick delivers a
    reminder to a user, the record the file has for the user after the
    tick holds the [last_message_id] it held before the tick, also when
    the same tick delivered a morning brief and [send_daily_notification]
    had stored the id of that brief: the scheduler saves its own copy of
    the users dict, read before the brief was sent. *)
Theorem reminder_overwrites_brief_id env uid p w t x :
  distinct_ids (users_file (disk w)) ->
  profile_of uid w = Some p ->
  In (uid, Reminder t x, true) (sent_since w (snd (scheduler_tick env w))) ->
  exists q,
    profile_of uid (snd (scheduler_tick env w)) = Some q
    /\ last_message_id q = last_message_id p.
Proof.
  intros Hnd Hp Hin. unfold profile_of in *.
  assert (Hin' : In (uid, Reminder t x, true)
                    (sent_to uid (sent_since w (snd (scheduler_tick env w))))).
  { apply sent_to_in. split; [exact Hin|reflexivity]. }
  destruct (scheduler_tick_own_turn env uid p w Hnd Hp)
    as [[Hnone _]|(uw & w1 & Hp1 & Huw & Hsent & Hq)].
  { rewrite Hnone in Hin'. destruct Hin'. }
  rewrite Hsent in Hin'.
  destruct (turn_file_brief_id env uw uid p w1 t x Hp1 Huw Hin')
    as (p_d & Hpd & Hid).
  destruct Hq as [Hq|(p_m & Hpm & Hq)].
  - exists p_d. rewrite Hq. auto.
  - exists p_m. split; [exact Hq|].
    apply (turn_memory_brief_id env uw uid p w1 p_m Hpm).
Qed.

Lemma reminder_overwrites_brief_id_witness :
  let env := SchedulerExample.env_at 8 0 in
  let w := start_world [("1", TurnExample.early_runner)] ∅ in
  let w' := snd (scheduler_tick env w) in
  In ("1", MorningBrief Monday [SchedulerExample.run_item] [], true)
     (sent_since w w')
  /\ bot_send env "1" (MorningBrief Monday [SchedulerExample.run_item] [])
     = Some 500
  /\ exists q, profile_of "1" w' = Some q /\ last_message_id q = Some 41.
Proof.
  split; [vm_compute; left; reflexivity|]. split; [reflexivity|].
  apply (reminder_overwrites_brief_id (SchedulerExample.env_at 8 0) "1"
           TurnExample.early_runner
           (start_world [("1", TurnExample.early_runner)] ∅) "08:00" "run").
  - apply distinct_ids_one.
  - reflexivity.
  - vm_compute. right. left. reflexivity.
Defined.

(* ===================================================================== *)
(** ** A record without a plans table *)
(* ===================================================================== *)

(** X5. No brief without a plans table.  [send_daily_notification] reads
    [user_data['plans']], and the [KeyError] of a record that has no such
    key is caught and logged: whatever the time and the settings, a tick
    sends such a user nothing but the evening summary, which reads the
    plans with a default, and it does send that one when it is due and
    the tick runs to its end. *)
Theorem no_brief_without_plans_table env uid p w :
  distinct_ids (users_file (disk w)) ->
  profile_of uid w = Some p ->
  user_plans p = None ->
  let res := scheduler_tick env w in
  (forall m ok, In (uid, m, ok) (sent_since w (snd res)) ->
                m = summary_for env p)
  /\ (fst res = Some true ->
      summary_due (get_user_now env p) p = true ->
      exists ok, In (uid, summary_for env p, ok) (sent_since w (snd res))).
Proof.
  intros Hnd Hp Hplans. unfold profile_of in Hp. cbv zeta.
  assert (Hall : forall m ok,
            In (uid, m, ok) (sent_since w (snd (scheduler_tick env w))) ->
            m = summary_for env p).
  { intros m ok Hin.
    assert (Hin' : In (uid, m, ok)
                      (sent_to uid (sent_since w (snd (scheduler_tick env w)))))
      by (apply sent_to_in; split; [exact Hin|reflexivity]).
    destruct (scheduler_tick_own_turn env uid p w Hnd Hp)
      as [[Hnone _]|(uw & w1 & Hp1 & Huw & Hsent & _)].
    { rewrite Hnone in Hin'. destruct Hin'. }
    rewrite Hsent in Hin'. clear Hsent Hin.
    revert Hin'. rewrite scheduler_user_run. cbv zeta.
    assert (Hw1 : (if brief_due env p
                   then snd (send_daily_notification env uid w1) else w1) = w1).
    { destruct (brief_due env p); [|reflexivity].
      rewrite send_daily_notification_run. simpl. rewrite Hp1, Hplans.
      reflexivity. }
    rewrite Hw1.
    assert (Hday : day_plans p (today_weekday (get_user_now env p)) = [])
      by (unfold day_plans; rewrite Hplans; reflexivity).
    rewrite Hday. simpl. unfold ret.
    destruct (summary_due (get_user_now env p) p); simpl.
    - rewrite send_daily_summary_run. simpl. rewrite Hp1.
      destruct (bot_send env uid (summary_for env p)); simpl;
        unfold sent_since; simpl; rewrite drop_app_length;
        intros [[= <- _]|[]]; reflexivity.
    - unfold sent_since. rewrite drop_all. intros []. }
  split; [exact Hall|].
  intros Hres Hdue.
  destruct (tick_post_holds env uid p w Hnd Hp)
    as (B & R & S & K & q & ((d & Hd1 & Hd2) & _ & _ & _ & _ & HS & _ & _ & _
                             & Hdone & _)).
  destruct (Hdone Hres) as (_ & _ & HS').
  destruct HS as [->|(_ & m & ok & _ & -> & _)]; [destruct (HS' Hdue eq_refl)|].
  assert (Hin : In (uid, m, ok) (sent_since w (snd (scheduler_tick env w)))).
  { unfold sent_since. rewrite Hd1, drop_app_length.
    apply (proj1 (sent_to_in uid (uid, m, ok) d)). rewrite Hd2.
    apply in_or_app. right. apply in_or_app. right. left. reflexivity. }
  exists ok. rewrite <- (Hall m ok Hin). exact Hin.
Qed.

Lemma no_brief_without_plans_table_witness :
  let env := SchedulerExample.env_at 9 0 in
  let w := start_world [("3", TurnExample.no_table)] ∅ in
  brief_due env TurnExample.no_table = true
  /\ forall m ok, In ("3", m, ok) (sent_since w (snd (scheduler_tick env w))) ->
                  m = summary_for env TurnExample.no_table.
Proof.
  split; [reflexivity|].
  apply (no_brief_without_plans_table (SchedulerExample.env_at 9 0) "3"
           TurnExample.no_table (start_world [("3", TurnExample.no_table)] ∅)).
  - apply distinct_ids_one.
  - reflexivity.
  - reflexivity.
Defined.

(* ===================================================================== *)
(** ** When a tick is cut short *)
(* ===================================================================== *)

Lemma cut_post_ret {A} env w (a : A) : cut_post env w (Some a, w) [].
Proof.
  unfold cut_post. simpl. rewrite app_nil_r.
  split; [reflexivity|]. split; constructor.
Qed.

(** Requests without a failed reminder, then a part of the tick. *)
Lemma cut_post_after {A} env w w1 (res : option A * World) D1 D :
  outbox w1 = outbox w ++ D1 ->
  Forall (from_transport env) D1 ->
  Forall (fun e => is_failed_reminder e = false) D1 ->
  cut_post env w1 res D ->
  cut_post env w res (D1 ++ D).
Proof.
  intros H1 Hf1 Hn1 (H2 & Hf2 & Hr). unfold cut_post.
  split; [rewrite H2, H1, app_assoc; reflexivity|].
  split; [apply Forall_app; auto|].
  destruct (fst res).
  - apply Forall_app; auto.
  - destruct Hr as (D' & e & -> & He & Hn').
    exists (D1 ++ D'), e. split; [rewrite app_assoc; reflexivity|].
    split; [exact He|]. apply Forall_app; auto.
Qed.

(** A part that ended normally, then requests without a failed
    reminder. *)
Lemma cut_post_then {A B} env w w2 w3 (a : A) (b : B) D D3 :
  cut_post env w (Some a, w2) D ->
  outbox w3 = outbox w2 ++ D3 ->
  Forall (from_transport env) D3 ->
  Forall (fun e => is_failed_reminder e = false) D3 ->
  cut_post env w (Some b, w3) (D ++ D3).
Proof.
  intros (H2 & Hf2 & Hr) H3 Hf3 Hn3. unfold cut_post in *. simpl in *.
  split; [rewrite H3, H2, app_assoc; reflexivity|].
  split; apply Forall_app; auto.
Qed.

Lemma remind_items_cut env uw uid tk ct : forall ps ud w,
  exists D, cut_post env w (remind_items env uw uid tk ct ps ud w) D.
Proof.
  induction ps as [|p ps IH]; intros ud w.
  { exists []. apply cut_post_ret. }
  rewrite remind_items_cons, remind_item_run.
  destruct p as [s|[t|] text]; try apply IH.
  destruct (String.eqb t ct
            && negb (bool_decide (sent_key tk t text ∈ sent_keys ud)));
    [|apply IH].
  destruct (bot_send env uid (Reminder t text)) as [id|] eqn:Hsend.
  - destruct (IH (add_sent_key (sent_key tk t text) ud)
                (with_users (uw (add_sent_key (sent_key tk t text) ud))
                   (with_sent (uid, Reminder t text, true) w))) as (D & HD).
    exists ([(uid, Reminder t text, true)] ++ D).
    refine (cut_post_after env w _ _ [(uid, Reminder t text, true)] D
              _ _ _ HD); [reflexivity| |].
    + constructor; [|constructor]. unfold from_transport. simpl.
      rewrite Hsend. reflexivity.
    + constructor; [reflexivity|constructor].
  - exists [(uid, Reminder t text, false)]. unfold cut_post. simpl.
    split; [reflexivity|]. split.
    + constructor; [|constructor]. unfold from_transport. simpl.
      rewrite Hsend. reflexivity.
    + exists [], (uid, Reminder t text, false).
      split; [reflexivity|]. split; [reflexivity|constructor].
Qed.

(** The brief and the summary are sent in a [try] of their own. *)
Lemma send_daily_notification_cut env uid w :
  exists D,
    outbox (snd (send_daily_notification env uid w)) = outbox w ++ D
    /\ Forall (from_transport env) D
    /\ Forall (fun e => is_failed_reminder e = false) D.
Proof.
  rewrite send_daily_notification_run. simpl.
  destruct (users_get uid (users_file (disk w))) as [ud|];
    [|exists []; rewrite app_nil_r; repeat split; constructor].
  destruct (user_plans ud) as [table|];
    [|exists []; rewrite app_nil_r; repeat split; constructor].
  destruct (bot_send env uid (brief_for env uid w ud table)) as [id|] eqn:Hsend;
    eexists [_]; simpl; (split; [reflexivity|]);
    (split; [|constructor; [reflexivity|constructor]]);
    (constructor; [|constructor]); unfold from_transport; simpl;
    rewrite Hsend; reflexivity.
Qed.

Lemma send_daily_summary_cut env uid w :
  exists D,
    outbox (snd (send_daily_summary env uid w)) = outbox w ++ D
    /\ Forall (from_transport env) D
    /\ Forall (fun e => is_failed_reminder e = false) D.
Proof.
  rewrite send_daily_summary_run. simpl.
  destruct (users_get uid (users_file (disk w))) as [ud|];
    [|exists []; rewrite app_nil_r; repeat split; constructor].
  destruct (bot_send env uid (summary_for env ud)) as [id|] eqn:Hsend;
    eexists [_]; simpl; (split; [reflexivity|]);
    (split; [|constructor; [reflexivity|constructor]]);
    (constructor; [|constructor]); unfold from_transport; simpl;
    rewrite Hsend; reflexivity.
Qed.

Lemma scheduler_user_cut env uw uid ud w :
  exists D, cut_post env w (scheduler_user env uw uid ud w) D.
Proof.
  rewrite scheduler_user_run. cbv zeta.
  set (w1 := if brief_due env ud
             then snd (send_daily_notification env uid w) else w).
  assert (H1 : exists D1,
             outbox w1 = outbox w ++ D1
             /\ Forall (from_transport env) D1
             /\ Forall (fun e => is_failed_reminder e = false) D1).
  { unfold w1. destruct (brief_due env ud).
    - apply send_daily_notification_cut.
    - exists []. rewrite app_nil_r. repeat split; constructor. }
  destruct H1 as (D1 & Ho1 & Hf1 & Hn1).
  destruct (remind_items_cut env uw uid
              (date_key (get_user_now env ud))
              (current_time_of (get_user_now env ud))
              (day_plans ud (today_weekday (get_user_now env ud))) ud w1)
    as (D2 & HD2).
  destruct (remind_items _ _ _ _ _ _ _ _) as [[ud1|] w2].
  - destruct (summary_due (get_user_now env ud) ud1).
    + destruct (send_daily_summary_cut env uid w2) as (D3 & Ho3 & Hf3 & Hn3).
      exists (D1 ++ D2 ++ D3). rewrite app_assoc.
      eapply cut_post_then; [|exact Ho3|exact Hf3|exact Hn3].
      eapply cut_post_after; eassumption.
    + exists (D1 ++ D2). eapply cut_post_after; eassumption.
  - exists (D1 ++ D2). eapply cut_post_after; eassumption.
Qed.

Lemma scheduler_loop_cut env : forall todo visited w,
  exists D, cut_post env w (scheduler_loop env visited todo w) D.
Proof.
  induction todo as [|[uid ud] rest IH]; intros visited w.
  { exists []. apply cut_post_ret. }
  rewrite scheduler_loop_cons.
  destruct (scheduler_user_cut env (fun q => visited ++ (uid, q) :: rest)
              uid ud w) as (D1 & HD1).
  destruct (scheduler_user _ _ _ _ _) as [[ud'|] w1].
  - destruct (IH (visited ++ [(uid, ud')]) w1) as (D2 & HD2).
    exists (D1 ++ D2). destruct HD1 as (Ho1 & Hf1 & Hn1). simpl in *.
    eapply cut_post_after; eassumption.
  - exists D1. exact HD1.
Qed.

Lemma last_failed_is_last {A} (f : A -> bool) (D' d1 d2 : list A) (e e' : A) :
  Forall (fun a => f a = false) D' ->
  D' ++ [e] = d1 ++ e' :: d2 -> f e' = true -> d2 = [].
Proof.
  intros Hn Heq He'.
  destruct d2 as [|a d2] using rev_ind; [reflexivity|]. clear IHd2.
  exfalso.
  change (d1 ++ e' :: d2 ++ [a]) with (d1 ++ (e' :: d2) ++ [a]) in Heq.
  rewrite app_assoc in Heq. apply app_inj_tail in Heq as [Heq _].
  subst D'. apply Forall_app in Hn as [_ Hn].
  apply Forall_cons_1 in Hn as [Hn _]. congruence.
Qed.

(** The requests of a tick: none of them a failed reminder when the tick
    ends normally, the last of them the only failed reminder when it ends
    with an exception. *)
Lemma scheduler_tick_cut env w :
  let res := scheduler_tick env w in
  let d := sent_since w (snd res) in
  Forall (from_transport env) d
  /\ ((fst res = Some true
       /\ Forall (fun e => is_failed_reminder e = false) d)
      \/ (fst res = Some false
          /\ exists D' e,
               d = D' ++ [e] /\ is_failed_reminder e = true
               /\ Forall (fun e => is_failed_reminder e = false) D')).
Proof.
  cbv zeta. rewrite scheduler_tick_run. simpl.
  destruct (scheduler_loop_cut env (users_file (disk w)) [] w)
    as (D & Ho & Hf & Hr).
  unfold sent_since. rewrite Ho, drop_app_length.
  split; [exact Hf|].
  destruct (fst (scheduler_loop env [] (users_file (disk w)) w)); simpl.
  - left. split; [reflexivity|exact Hr].
  - right. split; [reflexivity|exact Hr].
Qed.

(** X27. A failed reminder ends the tick.  Whenever the transport fails
    to deliver a per-item reminder that a tick of the scheduler requests,
    that request is the last one of the tick and the tick ends with the
    exception: nothing that is due after it, for the same user or for a
    user further down the file, is sent in that tick.  The flag of every
    request is what the transport made of it. *)
Theorem failed_reminder_ends_tick env w :
  let res := scheduler_tick env w in
  let d := sent_since w (snd res) in
  (forall d1 e d2,
     d = d1 ++ e :: d2 -> is_failed_reminder e = true ->
     d2 = [] /\ fst res = Some false)
  /\ Forall (from_transport env) d.
Proof.
  cbv zeta. destruct (scheduler_tick_cut env w) as (Hf & Hcases).
  split; [|exact Hf].
  intros d1 e d2 Heq He.
  destruct Hcases as [(_ & Hall)|(Hfalse & D' & e' & HD & He' & Hall)].
  - exfalso. rewrite Heq in Hall. apply Forall_app in Hall as [_ Hall].
    apply Forall_cons_1 in Hall as [Hall _]. congruence.
  - split; [|exact Hfalse].
    rewrite Heq in HD. symmetry in HD.
    apply (last_failed_is_last is_failed_reminder D' d1 d2 e' e Hall HD He).
Qed.

(** X28. When a tick runs to its end.  On users files whose tables hold
    a list for each day they list, as the tables of this model do, a tick
    ends with an exception only if one of its requests is a reminder that
    the transport does not deliver: failed briefs and failed summaries do
    not end it, and it runs to its end whenever the transport delivers
    every reminder. *)
Theorem tick_runs_to_end_unless_reminder_fails env w :
  let res := scheduler_tick env w in
  let d := sent_since w (snd res) in
  (fst res = Some true \/ fst res = Some false)
  /\ (fst res = Some false ->
      exists e, In e d /\ is_failed_reminder e = true)
  /\ (Forall (fun e => is_failed_reminder e = false) d -> fst res = Some true)
  /\ ((forall chat m, is_reminder m = true -> is_Some (bot_send env chat m)) ->
      fst res = Some true).
Proof.
  cbv zeta. destruct (scheduler_tick_cut env w) as (Hf & Hcases).
  destruct Hcases as [(Htrue & Hall)|(Hfalse & D' & e & HD & He & Hall)].
  - rewrite Htrue. split; [left; reflexivity|].
    split; [discriminate|]. split; reflexivity.
  - rewrite Hfalse. split; [right; reflexivity|].
    assert (Hin : In e (sent_since w (snd (scheduler_tick env w))))
      by (rewrite HD; apply in_or_app; right; left; reflexivity).
    split; [intros _; exists e; auto|].
    split.
    + intros Hall'. exfalso. rewrite Forall_forall in Hall'.
      rewrite (Hall' e (proj2 (list_elem_of_In _ _) Hin)) in He. discriminate.
    + intros Hdeliver. exfalso.
      rewrite Forall_forall in Hf.
      pose proof (Hf e (proj2 (list_elem_of_In _ _) Hin)) as Hflag.
      unfold from_transport in Hflag. unfold is_failed_reminder in He.
      apply andb_true_iff in He as [Hrem Hneg].
      rewrite Hflag in Hneg.
      rewrite bool_decide_true in Hneg by (apply Hdeliver; exact Hrem).
      discriminate.
Qed.

(* ===================================================================== *)
(** ** Message texts: escaping and the check-list *)
(* ===================================================================== *)

Lemma lit_examples :
  PyText.lit "&amp;" = [38; 97; 109; 112; 59]%N
  /\ PyText.lit "&lt;" = [38; 108; 116; 59]%N
  /\ PyText.lit "&gt;" = [38; 103; 116; 59]%N
  /\ PyText.lit "<s>" = [60; 115; 62]%N
  /\ PyText.lit "</s>" = [60; 47; 115; 62]%N
  /\ PyText.lit " — " = [32; 8212; 32]%N
  /\ PyText.lit "Да" = [1044; 1072]%N.
Proof. vm_compute. auto 10. Qed.

Lemma replace1_app old new a b :
  PyText.replace1 old new (a ++ b)
  = PyText.replace1 old new a ++ PyText.replace1 old new b.
Proof. unfold PyText.replace1. apply flat_map_app. Qed.

Lemma escape_html_app a b :
  escape_html (a ++ b) = escape_html a ++ escape_html b.
Proof. unfold escape_html. rewrite !replace1_app. reflexivity. Qed.

(** What a character becomes. *)
Lemma escape_html_char c :
  escape_html [c]
  = if (c =? 38)%N then [38; 97; 109; 112; 59]%N
    else if (c =? 60)%N then [38; 108; 116; 59]%N
    else if (c =? 62)%N then [38; 103; 116; 59]%N
    else [c].
Proof.
  unfold escape_html, PyText.replace1. simpl flat_map at 3.
  destruct (N.eqb_spec c 38) as [->|H38]; [reflexivity|].
  simpl. destruct (N.eqb_spec c 60) as [->|H60]; [reflexivity|].
  simpl. destruct (N.eqb_spec c 62) as [->|H62]; reflexivity.
Qed.

Lemma escape_html_cons c t :
  escape_html (c :: t) = escape_html [c] ++ escape_html t.
Proof. apply (escape_html_app [c] t). Qed.

Lemma html_plain_app a b : html_plain a -> html_plain b -> html_plain (a ++ b).
Proof.
  intros Ha Hb. induction Ha as [|c t H1 H2 H3 _ IH|e t He _ IH].
  - exact Hb.
  - simpl. apply plain_char; assumption.
  - rewrite <- app_assoc. apply plain_entity; assumption.
Qed.

Lemma no_markup_plain t : no_markup t = true -> html_plain t.
Proof.
  induction t as [|c t IH]; simpl; [constructor|].
  rewrite andb_true_iff, negb_true_iff, !orb_false_iff, !N.eqb_neq.
  intros [[[H1 H2] H3] Ht]. apply plain_char; auto.
Qed.

Lemma escape_html_plain t : html_plain (escape_html t).
Proof.
  induction t as [|c t IH]; [constructor|].
  rewrite escape_html_cons, escape_html_char.
  destruct (N.eqb_spec c 38); [apply (plain_entity (PyText.lit "&amp;"));
                                [left; reflexivity|exact IH]|].
  destruct (N.eqb_spec c 60); [apply (plain_entity (PyText.lit "&lt;"));
                                [right; left; reflexivity|exact IH]|].
  destruct (N.eqb_spec c 62); [apply (plain_entity (PyText.lit "&gt;"));
                                [right; right; left; reflexivity|exact IH]|].
  apply plain_char; assumption.
Qed.

Lemma escape_html_inj a : forall b, escape_html a = escape_html b -> a = b.
Proof.
  induction a as [|c a IH]; intros [|d b].
  - reflexivity.
  - rewrite escape_html_cons, escape_html_char.
    destruct (d =? 38)%N; [discriminate|].
    destruct (d =? 60)%N; [discriminate|].
    destruct (d =? 62)%N; discriminate.
  - rewrite escape_html_cons, escape_html_char.
    destruct (c =? 38)%N; [discriminate|].
    destruct (c =? 60)%N; [discriminate|].
    destruct (c =? 62)%N; discriminate.
  - rewrite (escape_html_cons c a), (escape_html_cons d b), !escape_html_char.
    destruct (N.eqb_spec c 38) as [->|C1];
      [|destruct (N.eqb_spec c 60) as [->|C2];
        [|destruct (N.eqb_spec c 62) as [->|C3]]];
    (destruct (N.eqb_spec d 38) as [->|D1];
      [|destruct (N.eqb_spec d 60) as [->|D2];
        [|destruct (N.eqb_spec d 62) as [->|D3]]]);
    simpl; intros H; injection H as H; try discriminate; try congruence;
    try (f_equal; apply IH; assumption).
    subst d. f_equal. apply IH. assumption.
Qed.

Lemma escape_html_no_markup a : no_markup a = true -> escape_html a = a.
Proof.
  induction a as [|c a IH]; [reflexivity|]. simpl.
  rewrite andb_true_iff, negb_true_iff, !orb_false_iff.
  intros [[[H1 H2] H3] Ha].
  rewrite escape_html_cons, escape_html_char, H1, H2, H3, (IH Ha).
  reflexivity.
Qed.

(** X6. Escaping for the HTML parse mode.  What [escape_html] returns
    holds no [<] and no [>], and no [&] but at the start of one of the
    entities [&amp;], [&lt;] and [&gt;]; a text with none of the three
    characters is returned as it is; and two texts with the same escaped
    form are the same text. *)
Theorem escape_html_safe_and_injective a b :
  html_plain (escape_html a)
  /\ (no_markup a = true -> escape_html a = a)
  /\ (escape_html a = escape_html b -> a = b).
Proof.
  split; [apply escape_html_plain|].
  split; [apply escape_html_no_markup|apply escape_html_inj].
Qed.

Lemma html_ok_app a b : html_ok a -> html_ok b -> html_ok (a ++ b).
Proof.
  intros Ha Hb. induction Ha as [|a1 a2 H1 _ IH|a1 a2 H1 _ IH].
  - exact Hb.
  - rewrite <- app_assoc. apply ok_plain; assumption.
  - rewrite <- !app_assoc. apply ok_strike; assumption.
Qed.

Lemma html_plain_ok a : html_plain a -> html_ok a.
Proof.
  intros H. rewrite <- (app_nil_r a). apply ok_plain; [exact H|constructor].
Qed.

Lemma html_ok_join sep lines :
  html_plain sep -> Forall html_ok lines -> html_ok (PyText.join sep lines).
Proof.
  intros Hsep. induction 1 as [|l ls Hl Hls IH]; [constructor|].
  destruct ls as [|l' ls]; [exact Hl|].
  change (html_ok (l ++ sep ++ PyText.join sep (l' :: ls))).
  apply html_ok_app; [exact Hl|].
  apply ok_plain; assumption.
Qed.

(** The digits of a number are no markup. *)
Lemma pretty_N_go_no_markup x : forall s,
  no_markup (PyText.of_str s) = true ->
  no_markup (PyText.of_str (pretty_N_go x s)) = true.
Proof.
  induction (N.lt_wf_0 x) as [x _ IH]. intros s Hs.
  destruct (decide (0 < x)%N) as [Hpos|Hzero].
  - rewrite pretty_N_go_step by exact Hpos.
    apply IH; [apply N.div_lt; [exact Hpos|reflexivity]|].
    change (PyText.of_str (String (pretty_N_char (x `mod` 10)) s))
      with (N_of_ascii (pretty_N_char (x `mod` 10)) :: PyText.of_str s).
    simpl. rewrite Hs, andb_true_r.
    unfold pretty_N_char.
    repeat (match goal with
            | |- context [match ?y with _ => _ end] => destruct y
            end; try reflexivity).
  - replace x with 0%N by lia. rewrite pretty_N_go_0. exact Hs.
Qed.

Lemma pretty_nat_no_markup (n : nat) :
  no_markup (PyText.of_str (pretty n)) = true.
Proof.
  unfold pretty, pretty_nat, pretty, pretty_N.
  destruct (decide (N.of_nat n = 0%N)); [reflexivity|].
  apply pretty_N_go_no_markup. reflexivity.
Qed.

Lemma no_markup_app a b : no_markup (a ++ b) = no_markup a && no_markup b.
Proof. apply forallb_app. Qed.

Lemma day_title_no_markup d : no_markup (day_title d) = true.
Proof. destruct d; vm_compute; reflexivity. Qed.

Lemma of_str_app (a b : string) :
  PyText.of_str (a +:+ b) = PyText.of_str a ++ PyText.of_str b.
Proof.
  unfold PyText.of_str. induction a as [|c a IH]; simpl; [reflexivity|].
  f_equal. exact IH.
Qed.

Lemma itog_list_line_ok completed ip : html_ok (itog_list_line completed ip).
Proof.
  unfold itog_list_line.
  apply ok_plain;
    [apply no_markup_plain, pretty_nat_no_markup|].
  apply ok_plain; [apply no_markup_plain; reflexivity|].
  destruct (bool_decide (fst ip ∈ completed)).
  - rewrite <- (app_nil_r (PyText.lit "</s>")).
    apply ok_strike; [apply escape_html_plain|constructor].
  - apply html_plain_ok, escape_html_plain.
Qed.

(** X7. The check-list is well-formed HTML.  Whatever the texts of the
    plan items and whichever positions are ticked off, the text that
    [build_itog_list_text] composes for a date without [&], [<] and [>]
    has no tags but pairs [<s>] ... [</s>], each around text without
    tags, and no [&] outside the three entities: the transport's HTML
    parse mode, under which [start_itog] sends it, accepts it. *)
Theorem itog_list_text_well_formed day date_text plans completed :
  no_markup (PyText.of_str date_text) = true ->
  html_ok (build_itog_list_text day date_text plans completed).
Proof.
  intros Hdate. unfold build_itog_list_text.
  assert (Hhead : html_ok
            (PyText.lit "📘 Итоговый чек-лист: " ++ PyText.of_str date_text
             ++ PyText.lit " • " ++ day_title day)).
  { apply html_plain_ok, no_markup_plain.
    rewrite !no_markup_app, Hdate, day_title_no_markup. reflexivity. }
  apply html_ok_join; [apply no_markup_plain; reflexivity|].
  assert (Hempty : html_ok []) by constructor.
  destruct plans as [|p ps].
  - simpl. apply List.Forall_cons; [exact Hhead|].
    apply List.Forall_cons; [exact Hempty|].
    apply List.Forall_cons; [|apply List.Forall_nil].
    apply html_plain_ok, no_markup_plain. reflexivity.
  - rewrite !Forall_app. split; [split|].
    + apply List.Forall_cons; [exact Hhead|].
      apply List.Forall_cons; [exact Hempty|apply List.Forall_nil].
    + apply Forall_forall. intros l Hl. apply list_elem_of_In in Hl.
      apply in_map_iff in Hl as (ip & <- & _). apply itog_list_line_ok.
    + apply List.Forall_cons; [exact Hempty|].
      apply List.Forall_cons; [|apply List.Forall_nil].
      apply html_plain_ok, no_markup_plain. reflexivity.
Qed.

Lemma itog_list_text_well_formed_witness :
  html_ok (build_itog_list_text Monday "06.01.2025"
             [PlanDict (Some "08:00") "run <fast> & far"; PlanDict None "rest"]
             {[ 0 ]}).
Proof.
  apply (itog_list_text_well_formed Monday "06.01.2025"
           [PlanDict (Some "08:00") "run <fast> & far"; PlanDict None "rest"]
           {[ 0 ]}).
  reflexivity.
Defined.

(** The text of that check-list. *)
Lemma itog_list_text_example :
  build_itog_list_text Monday "06.01.2025"
    [PlanDict (Some "08:00") "run <fast> & far"; PlanDict None "rest"] {[ 0 ]}
  = PyText.lit "📘 Итоговый чек-лист: 06.01.2025 • Понедельник

1. <s>08:00 — run &lt;fast&gt; &amp; far</s>
2. rest

Жми «Да» или «Нет» для каждого пункта ниже.".
Proof. vm_compute. reflexivity. Qed.

(* ===================================================================== *)
(** ** The dialogue *)
(* ===================================================================== *)

(** Unfolding of the operations of the dialogue's monad. *)
Ltac drun :=
  unfold Dialog.send_and_replace, Dialog.users_item, Dialog.bind, Dialog.ret,
    Dialog.raise, Dialog.load_users, Dialog.save_users,
    Dialog.load_global_plans, Dialog.save_global_plans, Dialog.get_context,
    Dialog.update_context, Dialog.reply_text in *;
  simpl in *.

(** Every send of the goal is delivered. *)
Ltac deliver H :=
  repeat match goal with
         | |- context [Dialog.transport ?e ?c ?r] =>
             lazymatch r with
             | context [Dialog.transport] => fail
             | _ => idtac
             end;
             let id := fresh "id" in
             let E := fresh "E" in
             destruct (H c r) as [id E]; rewrite E; simpl
         end.

Lemma dialog_send_and_replace_run env uid users r s :
  Dialog.send_and_replace env uid users r s =
  match Dialog.transport env uid r with
  | Some id =>
      let users' :=
        users_set uid
          (set_last_bot_message id uid
             (default empty_profile (users_get uid users))) users in
      (Some users',
       Dialog.mkState (mkDisk users' (global_plans_file (Dialog.files s)))
                      (Dialog.replies s ++ [(uid, r, true)])
                      (Dialog.user_data s))
  | None =>
      (None,
       Dialog.mkState (Dialog.files s)
                      (Dialog.replies s ++ [(uid, r, false)])
                      (Dialog.user_data s))
  end.
Proof.
  drun. destruct (Dialog.transport env uid r); reflexivity.
Qed.

(** *** [/start] *)

Lemma same_but_bot_message_refl p : same_but_bot_message p p.
Proof. unfold same_but_bot_message. auto 10. Qed.

Lemma same_but_bot_message_set id chat p :
  same_but_bot_message p (set_last_bot_message id chat p).
Proof. unfold same_but_bot_message. simpl. auto 10. Qed.

Lemma same_but_bot_message_trans p q r :
  same_but_bot_message p q -> same_but_bot_message q r ->
  same_but_bot_message p r.
Proof.
  unfold same_but_bot_message.
  intros (A1 & A2 & A3 & A4 & A5 & A6 & A7 & A8)
         (B1 & B2 & B3 & B4 & B5 & B6 & B7 & B8).
  repeat split; congruence.
Qed.

(** What [send_and_replace] does to the files: the record of the user
    gets the ids of the reply, the rest stays. *)
Lemma dialog_send_and_replace_files env uid users r s :
  let res := Dialog.send_and_replace env uid users r s in
  global_plans_file (Dialog.files (snd res))
  = global_plans_file (Dialog.files s)
  /\ Dialog.user_data (snd res) = Dialog.user_data s
  /\ match fst res with
     | Some users' =>
         users_file (Dialog.files (snd res)) = users'
         /\ (exists q, users_get uid users' = Some q
               /\ same_but_bot_message
                    (default empty_profile (users_get uid users)) q)
         /\ (forall uid', uid' <> uid ->
               users_get uid' users' = users_get uid' users)
     | None => Dialog.files (snd res) = Dialog.files s
     end.
Proof.
  cbv zeta. rewrite dialog_send_and_replace_run.
  destruct (Dialog.transport env uid r) as [id|]; simpl; [|auto].
  split; [reflexivity|]. split; [reflexivity|]. split; [reflexivity|].
  split.
  - eexists. split; [apply users_get_set_eq|].
    apply same_but_bot_message_set.
  - intros uid' Hne. apply users_get_set_ne. auto.
Qed.

(** *** [/start] *)

Lemma day_plans_with_defaults user d :
  day_plans (Dialog.with_defaults user) d = day_plans user d.
Proof.
  unfold day_plans, Dialog.with_defaults. simpl.
  destruct (user_plans user) as [table|]; [reflexivity|].
  destruct d; reflexivity.
Qed.

(** The record [/start] leaves for the user: the one it wrote, with or
    without the ids of the question for the notification time. *)
Lemma start_record env uid s :
  let user0 := match users_get uid (users_file (Dialog.files s)) with
               | None => new_profile
               | Some user => Dialog.with_defaults user
               end in
  let s' := snd (Dialog.start env uid s) in
  (exists user',
     users_get uid (users_file (Dialog.files s')) = Some user'
     /\ same_but_bot_message user0 user')
  /\ (forall uid', uid' <> uid ->
        users_get uid' (users_file (Dialog.files s'))
        = users_get uid' (users_file (Dialog.files s)))
  /\ global_plans_file (Dialog.files s')
     = global_plans_file (Dialog.files s).
Proof.
  cbv zeta. unfold Dialog.start.
  unfold Dialog.ensure_notification_time, Dialog.prompt_notification_time.
  drun.
  remember (match users_get uid (users_file (Dialog.files s)) with
            | None => new_profile
            | Some user => Dialog.with_defaults user
            end) as user0 eqn:Huser0.
  clear Huser0.
  assert (Hsaved : exists user',
            users_get uid (users_set uid user0 (users_file (Dialog.files s)))
              = Some user' /\ same_but_bot_message user0 user').
  { exists user0. split; [apply users_get_set_eq|apply same_but_bot_message_refl]. }
  assert (Hothers : forall uid', uid' <> uid ->
            users_get uid' (users_set uid user0 (users_file (Dialog.files s)))
            = users_get uid' (users_file (Dialog.files s))).
  { intros uid' Hne. apply users_get_set_ne. auto. }
  destruct (Dialog.transport env uid Dialog.Welcome); simpl; [|auto].
  destruct (Dialog.no_notification_time user0); simpl; [|auto].
  destruct (Dialog.waiting_for_time (Dialog.user_data s)); simpl; [auto|].
  destruct (Dialog.transport env uid Dialog.AskNotificationTime) as [id|];
    simpl; [|auto].
  rewrite !users_get_set_eq. simpl.
  split; [|split; [|reflexivity]].
  - eexists. split; [reflexivity|]. apply same_but_bot_message_set.
  - intros uid' Hne. rewrite users_get_set_ne by auto. apply Hothers, Hne.
Qed.

(** X9. [/start] resets nothing.  For a user the file lists, the record
    after [/start] has the notification time, the setup flag, the itog
    session, the bookkeeping of the scheduler and the plans of every day
    that it had, and reads the same time zone; what was missing is
    filled in, so the record now has a plans table.  For a new user the
    record is the fresh one: no notification time, setup not done, no
    plans.  No other user's record changes, nor do the global plans;
    all this whether or not the messages of [/start] are delivered. *)
Theorem start_resets_nothing env uid s :
  let us := users_file (Dialog.files s) in
  let s' := snd (Dialog.start env uid s) in
  let us' := users_file (Dialog.files s') in
  (exists user',
     users_get uid us' = Some user'
     /\ is_Some (user_plans user')
     /\ match users_get uid us with
        | None => same_but_bot_message new_profile user'
        | Some user =>
            notification_time user' = notification_time user
            /\ setup_complete user' = setup_complete user
            /\ itog_state user' = itog_state user
            /\ last_message_id user' = last_message_id user
            /\ last_summary_date user' = last_summary_date user
            /\ sent_keys user' = sent_keys user
            /\ (forall d, day_plans user' d = day_plans user d)
            /\ get_user_timezone user' = get_user_timezone user
        end)
  /\ (forall uid', uid' <> uid -> users_get uid' us' = users_get uid' us)
  /\ global_plans_file (Dialog.files s') = global_plans_file (Dialog.files s).
Proof.
  cbv zeta. destruct (start_record env uid s) as ((user' & Hget & Hsame) & Ho & Hg).
  split; [|split; [exact Ho|exact Hg]].
  exists user'. split; [exact Hget|].
  destruct Hsame as (H1 & H2 & H3 & H4 & H5 & H6 & H7 & H8).
  destruct (users_get uid (users_file (Dialog.files s))) as [user|].
  - split; [rewrite H3; eexists; reflexivity|].
    simpl in *. do 6 (split; [assumption|]).
    split.
    + intros d. rewrite <- (day_plans_with_defaults user d).
      unfold day_plans. rewrite H3. reflexivity.
    + unfold get_user_timezone. rewrite H1. simpl.
      destruct (timezone user); reflexivity.
  - split; [rewrite H3; eexists; reflexivity|].
    unfold same_but_bot_message. auto 10.
Qed.

(** *** Setting up the plans of a day *)

Lemma day_plans_set_user_plans table user d' :
  day_plans (set_user_plans (Some table) user) d' = default [] (table !! d').
Proof. reflexivity. Qed.

(** X10. The plans of a day, from [/plan] to the file.  For a user whose
    record has a plans table and a transport that delivers: [/plan], the
    button of a day, a plan entry that the parser reads and the button to
    go on take the dialogue through the states for choosing a day,
    entering plans and reviewing them and back to choosing a day; the
    review shows the items read from the entry, and afterwards the file
    has exactly these items as the plan of that day and the plans of the
    other days as they were, whatever the context held before. *)
Theorem plan_setup_stores_entry env uid d text plans s user table :
  Dialog.always_delivers env ->
  users_get uid (users_file (Dialog.files s)) = Some user ->
  user_plans user = Some table ->
  parse_plan_items (raw_items (PyStr.strip text)) = Some plans ->
  let r1 := Dialog.plan_command env uid s in
  let r2 := Dialog.choose_day env uid (Dialog.Pressed (Dialog.BtnDay d))
              (snd r1) in
  let r3 := Dialog.enter_plans env uid (Dialog.Entry text) (snd r2) in
  let r4 := Dialog.handle_review_action env uid
              (Dialog.Pressed Dialog.BtnContinue) (snd r3) in
  fst r1 = Some Dialog.CHOOSING_DAY
  /\ fst r2 = Some Dialog.ENTERING_PLANS
  /\ fst r3 = Some Dialog.REVIEW_PLANS
  /\ fst r4 = Some Dialog.CHOOSING_DAY
  /\ In (uid, Dialog.ReviewDay (Some d) (Dialog.PendingPlans plans), true)
        (Dialog.replies (snd r3))
  /\ exists user',
       users_get uid (users_file (Dialog.files (snd r4))) = Some user'
       /\ day_plans user' d = plans
       /\ (forall d', d' <> d -> day_plans user' d' = day_plans user d').
Proof.
  intros Hsend Hu Htable Hparse. cbv zeta.
  unfold Dialog.plan_command, Dialog.setup_plans. drun. rewrite Hu. simpl.
  deliver Hsend.
  unfold Dialog.choose_day. drun. deliver Hsend.
  unfold Dialog.enter_plans, Dialog.review_plans. drun. rewrite Hparse. simpl.
  deliver Hsend.
  unfold Dialog.handle_review_action, Dialog.store_day_plans. drun.
  rewrite !users_get_set_eq. simpl. rewrite Htable. simpl.
  deliver Hsend.
  repeat (split; [reflexivity|]).
  split; [apply in_or_app; right; left; reflexivity|].
  rewrite !users_get_set_eq. simpl.
  eexists. split; [reflexivity|].
  unfold day_plans. simpl. rewrite Htable. simpl.
  split; [rewrite lookup_insert_eq; reflexivity|].
  intros d' Hne. rewrite lookup_insert_ne by auto. reflexivity.
Qed.

Lemma plan_setup_stores_entry_witness :
  let env := Dialog.mkEnv (fun _ _ => Some 5) in
  let s := Dialog.start_state (mkDisk [("1", new_profile)] ∅)
             Dialog.empty_context in
  let r1 := Dialog.plan_command env "1" s in
  let r2 := Dialog.choose_day env "1" (Dialog.Pressed (Dialog.BtnDay Monday))
              (snd r1) in
  let r3 := Dialog.enter_plans env "1" (Dialog.Entry "08:00 run; read")
              (snd r2) in
  let r4 := Dialog.handle_review_action env "1"
              (Dialog.Pressed Dialog.BtnContinue) (snd r3) in
  exists user',
    users_get "1" (users_file (Dialog.files (snd r4))) = Some user'
    /\ day_plans user' Monday
       = [PlanDict (Some "08:00") "run"; PlanDict None "read"].
Proof.
  destruct (plan_setup_stores_entry (Dialog.mkEnv (fun _ _ => Some 5)) "1"
              Monday "08:00 run; read"
              [PlanDict (Some "08:00") "run"; PlanDict None "read"]
              (Dialog.start_state (mkDisk [("1", new_profile)] ∅)
                 Dialog.empty_context)
              new_profile empty_week)
    as (_ & _ & _ & _ & _ & user' & H1 & H2 & _).
  - intros chat r. eexists. reflexivity.
  - reflexivity.
  - reflexivity.
  - vm_compute. reflexivity.
  - exists user'. split; [exact H1|exact H2].
Defined.

(** X11. What the button to supplement does.  In the review of a day
    whose stored plan is [existing], the button to supplement, a further
    entry and the button to go on store [existing] followed by the items
    of the further entry: the items join the plan in the file, and the
    entry that was under review is dropped.  When the further entry
    holds no item (a text of blanks and semicolons), the handler takes
    the branch for replacing and the plan of the day ends up empty. *)
Theorem supplement_appends_to_stored_plan env uid d text plans s user table
    existing :
  Dialog.always_delivers env ->
  users_get uid (users_file (Dialog.files s)) = Some user ->
  user_plans user = Some table ->
  table !! d = Some existing ->
  Dialog.current_day (Dialog.user_data s) = Some d ->
  parse_plan_items (raw_items (PyStr.strip text)) = Some plans ->
  let r1 := Dialog.handle_review_action env uid
              (Dialog.Pressed Dialog.BtnSupplement) s in
  let r2 := Dialog.enter_plans env uid (Dialog.Entry text) (snd r1) in
  let r3 := Dialog.handle_review_action env uid
              (Dialog.Pressed Dialog.BtnContinue) (snd r2) in
  fst r1 = Some Dialog.ENTERING_PLANS
  /\ fst r2 = Some Dialog.REVIEW_PLANS
  /\ fst r3 = Some Dialog.CHOOSING_DAY
  /\ exists user',
       users_get uid (users_file (Dialog.files (snd r3))) = Some user'
       /\ day_plans user' d = match plans with
                              | [] => []
                              | _ :: _ => existing ++ plans
                              end
       /\ (forall d', d' <> d -> day_plans user' d' = day_plans user d').
Proof.
  intros Hsend Hu Htable Hday Hcur Hparse. cbv zeta.
  unfold Dialog.handle_review_action, Dialog.enter_plans, Dialog.review_plans,
    Dialog.store_day_plans.
  drun. rewrite Hu, Hparse. simpl. deliver Hsend.
  rewrite !users_get_set_eq. simpl. rewrite Htable, ?Hcur. simpl.
  destruct plans as [|p ps]; simpl.
  - deliver Hsend. repeat (split; [reflexivity|]).
    rewrite !users_get_set_eq. simpl.
    eexists. split; [reflexivity|].
    unfold day_plans. simpl. rewrite Htable. simpl.
    split; [rewrite lookup_insert_eq; reflexivity|].
    intros d' Hne. rewrite lookup_insert_ne by auto. reflexivity.
  - rewrite Hday. simpl. deliver Hsend. repeat (split; [reflexivity|]).
    rewrite !users_get_set_eq. simpl.
    eexists. split; [reflexivity|].
    unfold day_plans. simpl. rewrite Htable. simpl.
    split; [rewrite lookup_insert_eq; reflexivity|].
    intros d' Hne. rewrite lookup_insert_ne by auto. reflexivity.
Qed.

Lemma supplement_appends_to_stored_plan_witness :
  let env := Dialog.mkEnv (fun _ _ => Some 5) in
  let user := set_user_plans (Some {[ Monday := [PlanDict None "walk"] ]})
                new_profile in
  let s := Dialog.start_state (mkDisk [("1", user)] ∅)
             (Dialog.set_current_day (Some Monday) Dialog.empty_context) in
  let r1 := Dialog.handle_review_action env "1"
              (Dialog.Pressed Dialog.BtnSupplement) s in
  let r2 := Dialog.enter_plans env "1" (Dialog.Entry " ; ") (snd r1) in
  let r3 := Dialog.handle_review_action env "1"
              (Dialog.Pressed Dialog.BtnContinue) (snd r2) in
  exists user',
    users_get "1" (users_file (Dialog.files (snd r3))) = Some user'
    /\ day_plans user' Monday = [].
Proof.
  destruct (supplement_appends_to_stored_plan
              (Dialog.mkEnv (fun _ _ => Some 5)) "1" Monday " ; " []
              (Dialog.start_state
                 (mkDisk [("1", set_user_plans
                                  (Some {[ Monday := [PlanDict None "walk"] ]})
                                  new_profile)] ∅)
                 (Dialog.set_current_day (Some Monday) Dialog.empty_context))
              (set_user_plans (Some {[ Monday := [PlanDict None "walk"] ]})
                 new_profile)
              {[ Monday := [PlanDict None "walk"] ]}
              [PlanDict None "walk"])
    as (_ & _ & _ & user' & H1 & H2 & _).
  - intros chat r. eexists. reflexivity.
  - reflexivity.
  - reflexivity.
  - reflexivity.
  - reflexivity.
  - vm_compute. reflexivity.
  - exists user'. split; [exact H1|exact H2].
Defined.

(** X12. Without [/start], no plans.  A user the file does not list can
    go through [/plan], a day, an entry and the review, each answered in
    its turn, but the record that the first reply left for the user has
    no plans table: the button to go on raises the [KeyError] of
    [users[user_id]['plans']], the handler ends without a reply, and the
    file holds no plan for the user. *)
Theorem plans_of_unknown_user_are_not_stored env uid d text plans s :
  Dialog.always_delivers env ->
  users_get uid (users_file (Dialog.files s)) = None ->
  parse_plan_items (raw_items (PyStr.strip text)) = Some plans ->
  let r1 := Dialog.plan_command env uid s in
  let r2 := Dialog.choose_day env uid (Dialog.Pressed (Dialog.BtnDay d))
              (snd r1) in
  let r3 := Dialog.enter_plans env uid (Dialog.Entry text) (snd r2) in
  let r4 := Dialog.handle_review_action env uid
              (Dialog.Pressed Dialog.BtnContinue) (snd r3) in
  fst r3 = Some Dialog.REVIEW_PLANS
  /\ fst r4 = None
  /\ Dialog.replies (snd r4) = Dialog.replies (snd r3)
  /\ exists user',
       users_get uid (users_file (Dialog.files (snd r4))) = Some user'
       /\ user_plans user' = None
       /\ forall d', day_plans user' d' = [].
Proof.
  intros Hsend Hu Hparse. cbv zeta.
  unfold Dialog.plan_command, Dialog.setup_plans. drun. rewrite Hu. simpl.
  deliver Hsend.
  unfold Dialog.choose_day. drun. deliver Hsend.
  unfold Dialog.enter_plans, Dialog.review_plans. drun. rewrite Hparse. simpl.
  deliver Hsend.
  unfold Dialog.handle_review_action, Dialog.store_day_plans. drun.
  rewrite !users_get_set_eq. simpl.
  repeat (split; [reflexivity|]).
  rewrite !users_get_set_eq.
  eexists. split; [reflexivity|]. split; reflexivity.
Qed.

Lemma plans_of_unknown_user_are_not_stored_witness :
  let env := Dialog.mkEnv (fun _ _ => Some 5) in
  let s := Dialog.start_state (mkDisk [] ∅) Dialog.empty_context in
  let r1 := Dialog.plan_command env "1" s in
  let r2 := Dialog.choose_day env "1" (Dialog.Pressed (Dialog.BtnDay Monday))
              (snd r1) in
  let r3 := Dialog.enter_plans env "1" (Dialog.Entry "08:00 run") (snd r2) in
  let r4 := Dialog.handle_review_action env "1"
              (Dialog.Pressed Dialog.BtnContinue) (snd r3) in
  fst r3 = Some Dialog.REVIEW_PLANS /\ fst r4 = None.
Proof.
  destruct (plans_of_unknown_user_are_not_stored
              (Dialog.mkEnv (fun _ _ => Some 5)) "1" Monday "08:00 run"
              [PlanDict (Some "08:00") "run"]
              (Dialog.start_state (mkDisk [] ∅) Dialog.empty_context))
    as (H1 & H2 & _).
  - intros chat r. eexists. reflexivity.
  - reflexivity.
  - vm_compute. reflexivity.
  - split; [exact H1|exact H2].
Defined.

(** X13. Deleting the plans of a day.  For a user whose record has a
    plans table and a transport that delivers, the button to delete a
    day's plans followed by the button of a day empties the plan of that
    day, leaves the plans of the other days, ends the deleting mode and
    returns to the main menu; followed by anything that is no day, it
    changes no plan and the deleting mode stays on. *)
Theorem delete_day_empties_that_day env uid s user table :
  Dialog.always_delivers env ->
  users_get uid (users_file (Dialog.files s)) = Some user ->
  user_plans user = Some table ->
  let r1 := Dialog.choose_day env uid (Dialog.Pressed Dialog.BtnDeleteDay) s in
  fst r1 = Some Dialog.CHOOSING_DAY
  /\ (forall d,
        let r2 := Dialog.choose_day env uid (Dialog.Pressed (Dialog.BtnDay d))
                    (snd r1) in
        fst r2 = Some Dialog.MAIN_MENU
        /\ Dialog.deleting_day (Dialog.user_data (snd r2)) = false
        /\ exists user',
             users_get uid (users_file (Dialog.files (snd r2))) = Some user'
             /\ day_plans user' d = []
             /\ (forall d', d' <> d -> day_plans user' d' = day_plans user d'))
  /\ (forall t,
        let r2 := Dialog.choose_day env uid (Dialog.Typed t) (snd r1) in
        fst r2 = Some Dialog.CHOOSING_DAY
        /\ Dialog.deleting_day (Dialog.user_data (snd r2)) = true
        /\ exists user',
             users_get uid (users_file (Dialog.files (snd r2))) = Some user'
             /\ user_plans user' = user_plans user).
Proof.
  intros Hsend Hu Htable. cbv zeta.
  unfold Dialog.choose_day. drun. rewrite Hu. simpl.
  deliver Hsend. split; [reflexivity|]. split.
  - intros d.
    rewrite !users_get_set_eq. simpl. rewrite Htable. simpl.
    deliver Hsend. rewrite !users_get_set_eq. simpl.
    split; [reflexivity|]. split; [reflexivity|].
    eexists. split; [reflexivity|].
    unfold day_plans. simpl. rewrite Htable. simpl.
    split; [rewrite lookup_insert_eq; reflexivity|].
    intros d' Hne. rewrite lookup_insert_ne by auto. reflexivity.
  - intros t.
    deliver Hsend. rewrite !users_get_set_eq. simpl.
    split; [reflexivity|]. split; [reflexivity|].
    eexists. split; reflexivity.
Qed.

Lemma delete_day_empties_that_day_witness :
  let env := Dialog.mkEnv (fun _ _ => Some 5) in
  let user := set_user_plans (Some {[ Monday := [PlanDict None "walk"] ]})
                new_profile in
  let s := Dialog.start_state (mkDisk [("1", user)] ∅) Dialog.empty_context in
  let r1 := Dialog.choose_day env "1" (Dialog.Pressed Dialog.BtnDeleteDay) s in
  let r2 := Dialog.choose_day env "1" (Dialog.Pressed (Dialog.BtnDay Monday))
              (snd r1) in
  day_plans user Monday = [PlanDict None "walk"]
  /\ exists user',
       users_get "1" (users_file (Dialog.files (snd r2))) = Some user'
       /\ day_plans user' Monday = [].
Proof.
  split; [reflexivity|].
  destruct (delete_day_empties_that_day
              (Dialog.mkEnv (fun _ _ => Some 5)) "1"
              (Dialog.start_state
                 (mkDisk [("1", set_user_plans
                                  (Some {[ Monday := [PlanDict None "walk"] ]})
                                  new_profile)] ∅)
                 Dialog.empty_context)
              (set_user_plans (Some {[ Monday := [PlanDict None "walk"] ]})
                 new_profile)
              {[ Monday := [PlanDict None "walk"] ]})
    as (_ & H & _).
  - intros chat r. eexists. reflexivity.
  - reflexivity.
  - reflexivity.
  - destruct (H Monday) as (_ & _ & user' & H1 & H2 & _).
    exists user'. split; [exact H1|exact H2].
Defined.

(** *** The items of an entry *)

Lemma split_on_fields_no_sep sep s :
  Forall (fun f => PyStr.forall_chars (fun c => negb (Ascii.eqb c sep)) f = true)
         (PyStr.split_on sep s).
Proof.
  induction s as [|c s IH]; simpl.
  - apply List.Forall_cons; [reflexivity|apply List.Forall_nil].
  - destruct (Ascii.eqb c sep) eqn:Hc.
    + apply List.Forall_cons; [reflexivity|exact IH].
    + destruct (PyStr.split_on sep s) as [|f fs].
      * apply List.Forall_cons; [simpl; rewrite Hc; reflexivity|apply List.Forall_nil].
      * apply Forall_cons_1 in IH as [Hf Hfs].
        apply List.Forall_cons; [simpl; rewrite Hc; exact Hf|exact Hfs].
Qed.

Lemma lstrip_forall_chars p q s :
  PyStr.forall_chars q s = true ->
  PyStr.forall_chars q (PyStr.lstrip_with p s) = true.
Proof.
  induction s as [|c s IH]; simpl; [auto|].
  intros H. destruct (p c); [|exact H].
  apply andb_true_iff in H as [_ H]. auto.
Qed.

Lemma rstrip_forall_chars p q s :
  PyStr.forall_chars q s = true ->
  PyStr.forall_chars q (PyStr.rstrip_with p s) = true.
Proof.
  induction s as [|c s IH]; simpl; [auto|].
  intros H. apply andb_true_iff in H as [Hc Hs]. specialize (IH Hs).
  destruct (PyStr.rstrip_with p s) as [|c' r].
  - destruct (p c); simpl; [reflexivity|rewrite Hc; reflexivity].
  - simpl in *. rewrite Hc. exact IH.
Qed.

Lemma rstrip_idempotent p s :
  PyStr.rstrip_with p (PyStr.rstrip_with p s) = PyStr.rstrip_with p s.
Proof.
  induction s as [|c s IH]; simpl; [reflexivity|].
  destruct (PyStr.rstrip_with p s) as [|c' r] eqn:Hr.
  - destruct (p c) eqn:Hc; simpl; [reflexivity|rewrite Hc; reflexivity].
  - change (PyStr.rstrip_with p (String c (String c' r)))
      with (match PyStr.rstrip_with p (String c' r) with
            | EmptyString => if p c then EmptyString else String c EmptyString
            | r' => String c r'
            end).
    rewrite IH. reflexivity.
Qed.

Lemma lstrip_head p s :
  PyStr.lstrip_with p s = EmptyString
  \/ exists c r, PyStr.lstrip_with p s = String c r /\ p c = false.
Proof.
  induction s as [|c s IH]; simpl; [auto|].
  destruct (p c) eqn:Hc; [exact IH|]. right. eauto.
Qed.

Lemma lstrip_rstrip_lstrip p s :
  PyStr.lstrip_with p (PyStr.rstrip_with p (PyStr.lstrip_with p s))
  = PyStr.rstrip_with p (PyStr.lstrip_with p s).
Proof.
  destruct (lstrip_head p s) as [->|(c & r & -> & Hc)]; [reflexivity|].
  simpl. destruct (PyStr.rstrip_with p r); rewrite ?Hc; simpl;
    rewrite Hc; reflexivity.
Qed.

Lemma strip_lstrip s :
  PyStr.lstrip_with PyStr.isspace (PyStr.strip s) = PyStr.strip s.
Proof. unfold PyStr.strip. apply lstrip_rstrip_lstrip. Qed.

Lemma strip_rstrip s :
  PyStr.rstrip_with PyStr.isspace (PyStr.strip s) = PyStr.strip s.
Proof. unfold PyStr.strip. apply rstrip_idempotent. Qed.

(** The items of an entry are clean: not empty, no blank at either end,
    no semicolon. *)
Lemma raw_items_clean text :
  Forall (fun item => clean_text item = true) (raw_items text).
Proof.
  unfold raw_items. apply Forall_forall. intros item Hin.
  apply list_elem_of_In, in_map_iff in Hin as (f & <- & Hf).
  apply filter_In in Hf as [Hf Hne].
  pose proof (split_on_fields_no_sep ";" text) as Hsep.
  rewrite Forall_forall in Hsep.
  specialize (Hsep f (proj2 (list_elem_of_In _ _) Hf)).
  apply clean_text_intro.
  - apply negb_true_iff, String.eqb_neq in Hne. exact Hne.
  - apply strip_lstrip.
  - apply strip_rstrip.
  - unfold PyStr.strip. apply rstrip_forall_chars, lstrip_forall_chars, Hsep.
Qed.

(** *** Global plans *)

Lemma enter_global_plans_lookup env uid text s :
  global_plans_file
    (Dialog.files (snd (Dialog.enter_global_plans env uid text s))) !! uid
  = Some (match Dialog.global_action (Dialog.user_data s) with
          | Dialog.GlobalAdd =>
              default [] (global_plans_file (Dialog.files s) !! uid)
              ++ raw_items (PyStr.strip text)
          | Dialog.GlobalReplace => raw_items (PyStr.strip text)
          end).
Proof.
  unfold Dialog.enter_global_plans. drun.
  destruct (Dialog.transport env uid Dialog.GlobalUpdated); simpl;
    destruct (Dialog.global_action (Dialog.user_data s));
    apply lookup_insert_eq.
Qed.

(** X14. An entry of global plans is stored before it is confirmed.
    After [enter_global_plans] the global plans file holds for the user
    the items of the entry, after the user's earlier ones in the adding
    mode and in their place otherwise, whether or not the confirmation
    is delivered (the handler ends normally exactly when it is); the
    lists of the other users stay as they were.  The items stored are
    not empty and have no blank at either end and no semicolon. *)
Theorem global_plans_entry_is_stored env uid text s :
  let g := global_plans_file (Dialog.files s) in
  let new := raw_items (PyStr.strip text) in
  let res := Dialog.enter_global_plans env uid text s in
  let g' := global_plans_file (Dialog.files (snd res)) in
  g' !! uid
  = Some (match Dialog.global_action (Dialog.user_data s) with
          | Dialog.GlobalAdd => default [] (g !! uid) ++ new
          | Dialog.GlobalReplace => new
          end)
  /\ (forall uid', uid' <> uid -> g' !! uid' = g !! uid')
  /\ Forall (fun item => clean_text item = true) new
  /\ (is_Some (fst res)
      <-> is_Some (Dialog.transport env uid Dialog.GlobalUpdated)).
Proof.
  cbv zeta. split; [apply enter_global_plans_lookup|].
  unfold Dialog.enter_global_plans. drun.
  split; [|split; [apply raw_items_clean|]].
  - intros uid' Hne.
    destruct (Dialog.transport env uid Dialog.GlobalUpdated); simpl;
      destruct (Dialog.global_action (Dialog.user_data s));
      apply lookup_insert_ne; auto.
  - destruct (Dialog.transport env uid Dialog.GlobalUpdated); simpl.
    + split; intros _; eexists; reflexivity.
    + split; intros [x Hx]; discriminate.
Qed.

(** X15. The buttons of the global plans.  With a transport that
    delivers: the button to add followed by an entry leaves the user's
    earlier global plans followed by the items of the entry; the button
    to edit followed by an entry leaves the items of the entry alone;
    the button to delete removes the user's list and says so, or says
    that there is nothing to delete when there was none.  Each of the
    three ends in the main menu and leaves the lists of the other users
    as they were. *)
Theorem global_plans_buttons env uid text s :
  Dialog.always_delivers env ->
  let g := global_plans_file (Dialog.files s) in
  let new := raw_items (PyStr.strip text) in
  let after b :=
    Dialog.enter_global_plans env uid text
      (snd (Dialog.handle_global_action env uid (Dialog.Pressed b) s)) in
  let added := after Dialog.BtnAdd in
  let edited := after Dialog.BtnEdit in
  let deleted :=
    Dialog.handle_global_action env uid (Dialog.Pressed Dialog.BtnDelete) s in
  let lists (res : option Dialog.ConvState * Dialog.State) :=
    global_plans_file (Dialog.files (snd res)) in
  (fst added = Some Dialog.MAIN_MENU
   /\ lists added !! uid = Some (default [] (g !! uid) ++ new))
  /\ (fst edited = Some Dialog.MAIN_MENU
      /\ lists edited !! uid = Some new)
  /\ (fst deleted = Some Dialog.MAIN_MENU
      /\ lists deleted !! uid = None
      /\ In (uid,
             if bool_decide (is_Some (g !! uid))
             then Dialog.GlobalCleared else Dialog.NothingToDelete,
             true)
            (Dialog.replies (snd deleted)))
  /\ (forall uid', uid' <> uid ->
        lists added !! uid' = g !! uid'
        /\ lists edited !! uid' = g !! uid'
        /\ lists deleted !! uid' = g !! uid').
Proof.
  intros Hsend. cbv zeta.
  unfold Dialog.enter_global_plans, Dialog.handle_global_action. drun.
  deliver Hsend.
  split; [split; [reflexivity|apply lookup_insert_eq]|].
  split; [split; [reflexivity|apply lookup_insert_eq]|].
  destruct (global_plans_file (Dialog.files s) !! uid) as [l|] eqn:Hl; simpl;
    deliver Hsend.
  - split.
    + split; [reflexivity|]. split; [apply lookup_delete_eq|].
      apply in_or_app. left. apply in_or_app. right. left. reflexivity.
    + intros uid' Hne. rewrite !lookup_insert_ne by auto.
      rewrite lookup_delete_ne by auto. auto.
  - split.
    + split; [reflexivity|]. split; [exact Hl|].
      apply in_or_app. left. apply in_or_app. right. left. reflexivity.
    + intros uid' Hne. rewrite !lookup_insert_ne by auto. auto.
Qed.

Lemma global_plans_buttons_witness :
  let env := Dialog.mkEnv (fun _ _ => Some 5) in
  let s := Dialog.start_state (mkDisk [("1", new_profile)] {[ "1" := ["grow"] ]})
             Dialog.empty_context in
  global_plans_file
    (Dialog.files
       (snd (Dialog.enter_global_plans env "1" "learn; rest ;"
               (snd (Dialog.handle_global_action env "1"
                       (Dialog.Pressed Dialog.BtnAdd) s))))) !! "1"
  = Some ["grow"; "learn"; "rest"].
Proof.
  destruct (global_plans_buttons (Dialog.mkEnv (fun _ _ => Some 5)) "1"
              "learn; rest ;"
              (Dialog.start_state
                 (mkDisk [("1", new_profile)] {[ "1" := ["grow"] ]})
                 Dialog.empty_context))
    as ((_ & H) & _).
  - intros chat r. eexists. reflexivity.
  - etransitivity; [exact H|]. vm_compute. reflexivity.
Defined.

(** X16. The global plans of the brief are the ones entered.  After an
    entry of global plans in the replacing mode, confirmed or not, the
    morning brief that [send_daily_notification] composes for the user
    from the files lists today's plan and, as global plans, the items of
    that entry. *)
Theorem entered_global_plans_reach_the_brief denv env uid text s user table :
  users_get uid (users_file (Dialog.files s)) = Some user ->
  user_plans user = Some table ->
  Dialog.global_action (Dialog.user_data s) = Dialog.GlobalReplace ->
  let s' := snd (Dialog.enter_global_plans denv uid text s) in
  let w := start_world (users_file (Dialog.files s'))
             (global_plans_file (Dialog.files s')) in
  let today := today_weekday (get_user_now env user) in
  exists ok,
    sent_since w (snd (send_daily_notification env uid w))
    = [(uid,
        MorningBrief today (default [] (table !! today))
                     (raw_items (PyStr.strip text)),
        ok)].
Proof.
  intros Hu Htable Hmode. cbv zeta.
  pose proof (enter_global_plans_lookup denv uid text s) as Hg.
  rewrite Hmode in Hg.
  assert (Hrec : exists user',
            users_get uid
              (users_file (Dialog.files
                 (snd (Dialog.enter_global_plans denv uid text s))))
            = Some user'
            /\ user_plans user' = Some table
            /\ get_user_now env user' = get_user_now env user).
  { unfold Dialog.enter_global_plans. drun. rewrite Hu.
    destruct (Dialog.transport denv uid Dialog.GlobalUpdated) as [id|]; simpl.
    - rewrite users_get_set_eq. eexists. split; [reflexivity|].
      split; [exact Htable|reflexivity].
    - exists user. split; [exact Hu|]. split; [exact Htable|reflexivity]. }
  destruct Hrec as (user' & Hget & Htable' & Hnow).
  rewrite send_daily_notification_run. simpl. rewrite Hget, Htable'.
  unfold brief_for. simpl. rewrite Hg, Hnow. simpl.
  destruct (bot_send env uid _); simpl; eexists; unfold sent_since; simpl;
    reflexivity.
Qed.

Lemma entered_global_plans_reach_the_brief_witness :
  let denv := Dialog.mkEnv (fun _ _ => Some 5) in
  let s := Dialog.start_state (mkDisk [("2", SchedulerExample.reader)] ∅)
             Dialog.empty_context in
  let s' := snd (Dialog.enter_global_plans denv "2" "learn; rest" s) in
  let w := start_world (users_file (Dialog.files s'))
             (global_plans_file (Dialog.files s')) in
  exists ok,
    sent_since w (snd (send_daily_notification (SchedulerExample.env_at 8 0)
                         "2" w))
    = [("2", MorningBrief Monday [] ["learn"; "rest"], ok)].
Proof.
  destruct (entered_global_plans_reach_the_brief
              (Dialog.mkEnv (fun _ _ => Some 5)) (SchedulerExample.env_at 8 0)
              "2" "learn; rest"
              (Dialog.start_state (mkDisk [("2", SchedulerExample.reader)] ∅)
                 Dialog.empty_context)
              SchedulerExample.reader ∅ eq_refl eq_refl eq_refl) as [ok H].
  exists ok. etransitivity; [exact H|]. vm_compute. reflexivity.
Defined.

(** *** The main menu *)

(** X17. While the bot waits for the notification time, the main menu
    reads everything as a time: the text of every button, the buttons of
    the menu included, gets the answer that the time could not be read,
    the bot goes on waiting, and nothing of the user's settings and
    plans changes. *)
Theorem menu_button_read_as_time_while_waiting env uid b s :
  Dialog.waiting_for_time (Dialog.user_data s) = true ->
  let res := Dialog.main_menu env uid (Dialog.Pressed b) s in
  (exists ok,
     Dialog.replies (snd res)
     = Dialog.replies s ++ [(uid, Dialog.TimeError, ok)]
     /\ (fst res = Some Dialog.MAIN_MENU <-> ok = true))
  /\ Dialog.user_data (snd res) = Dialog.user_data s
  /\ global_plans_file (Dialog.files (snd res))
     = global_plans_file (Dialog.files s)
  /\ forall user,
       users_get uid (users_file (Dialog.files s)) = Some user ->
       exists user',
         users_get uid (users_file (Dialog.files (snd res))) = Some user'
         /\ same_but_bot_message user user'.
Proof.
  intros Hwait. cbv zeta.
  unfold Dialog.main_menu, Dialog.handle_time_input. drun.
  repeat (rewrite Hwait; simpl).
  destruct (Dialog.transport env uid Dialog.TimeError) as [id|]; simpl.
  - split; [exists true; split; [reflexivity|tauto]|].
    split; [reflexivity|]. split; [reflexivity|].
    intros user Hu. rewrite Hu, users_get_set_eq. simpl.
    eexists. split; [reflexivity|]. apply same_but_bot_message_set.
  - split; [exists false; split; [reflexivity|split; discriminate]|].
    split; [reflexivity|]. split; [reflexivity|].
    intros user Hu. exists user. split; [exact Hu|].
    apply same_but_bot_message_refl.
Qed.

Lemma menu_button_read_as_time_while_waiting_witness :
  let env := Dialog.mkEnv (fun _ _ => Some 5) in
  let s := Dialog.start_state (mkDisk [("1", new_profile)] ∅)
             (Dialog.set_waiting_for_time true Dialog.empty_context) in
  exists ok,
    Dialog.replies (snd (Dialog.main_menu env "1"
                           (Dialog.Pressed Dialog.BtnSetupPlans) s))
    = [("1", Dialog.TimeError, ok)].
Proof.
  destruct (menu_button_read_as_time_while_waiting
              (Dialog.mkEnv (fun _ _ => Some 5)) "1" Dialog.BtnSetupPlans
              (Dialog.start_state (mkDisk [("1", new_profile)] ∅)
                 (Dialog.set_waiting_for_time true Dialog.empty_context))
              eq_refl)
    as ((ok & H & _) & _).
  exists ok. exact H.
Defined.

(* ===================================================================== *)
(** ** The time zones of the file *)
(* ===================================================================== *)

Create HintDb files discriminated.

Lemma all_users_set P uid p us :
  all_users P us -> P p -> all_users P (users_set uid p us).
Proof.
  intros Hus Hp uid' user Hget.
  destruct (decide (uid = uid')) as [->|Hne].
  - rewrite users_get_set_eq in Hget. injection Hget as <-. exact Hp.
  - rewrite users_get_set_ne in Hget by assumption. eauto.
Qed.

Lemma users_set_ids uid p us :
  map fst (users_set uid p us)
  = if bool_decide (is_Some (users_get uid us)) then map fst us
    else map fst us ++ [uid].
Proof.
  induction us as [|[k q] us IH]; simpl; [reflexivity|].
  destruct (decide (k = uid)) as [->|Hne]; simpl; [reflexivity|].
  rewrite IH. destruct (bool_decide (is_Some (users_get uid us))); reflexivity.
Qed.

Lemma users_get_none_not_in uid us :
  users_get uid us = None -> uid ∉ map fst us.
Proof.
  induction us as [|[k q] us IH]; simpl; [intros _ H; inversion H|].
  destruct (decide (k = uid)) as [->|Hne]; [discriminate|].
  intros Hn Hin. apply elem_of_cons in Hin as [->|Hin]; [congruence|].
  exact (IH Hn Hin).
Qed.

Lemma distinct_ids_set uid p us :
  distinct_ids us -> distinct_ids (users_set uid p us).
Proof.
  unfold distinct_ids. intros Hnd. rewrite users_set_ids.
  destruct (users_get uid us) as [q|] eqn:Hq; simpl; [exact Hnd|].
  apply NoDup_app. split; [exact Hnd|]. split; [|apply NoDup_singleton].
  intros x Hx Hx'. apply list_elem_of_singleton in Hx'. subst x.
  exact (users_get_none_not_in uid us Hq Hx).
Qed.

Lemma zone_listed_default us uid :
  all_users zone_listed us ->
  zone_listed (default empty_profile (users_get uid us)).
Proof.
  intros Hus. destruct (users_get uid us) as [q|] eqn:Hq; simpl.
  - eapply Hus. exact Hq.
  - intros tz [=].
Qed.

Lemma zone_listed_same p q :
  timezone q = timezone p -> zone_listed p -> zone_listed q.
Proof. unfold zone_listed. intros ->. auto. Qed.

Lemma zone_listed_default_zone : In DEFAULT_TIMEZONE TIMEZONES.
Proof. left. reflexivity. Qed.

#[local] Hint Resolve all_users_set distinct_ids_set zone_listed_default : files.

(** A users dict that is in order stays so when a record of it gets the
    ids of a reply. *)
Lemma files_ok_reply (g : gmap string (list string)) uid id us :
  files_ok (mkDisk us g) ->
  files_ok (mkDisk (users_set uid
                      (set_last_bot_message id uid
                         (default empty_profile (users_get uid us))) us) g).
Proof.
  intros [Hnd Hz]. split; simpl in *; [auto with files|].
  apply all_users_set; [exact Hz|].
  apply (zone_listed_same (default empty_profile (users_get uid us)));
    [reflexivity|auto with files].
Qed.

(** Writing a record that keeps the time zone of one in order. *)
Lemma files_ok_set (g : gmap string (list string)) uid p us :
  files_ok (mkDisk us g) -> zone_listed p ->
  files_ok (mkDisk (users_set uid p us) g).
Proof.
  intros [Hnd Hz] Hp. split; simpl in *; auto with files.
Qed.

Lemma files_ok_eta d : files_ok d -> files_ok (mkDisk (users_file d) (global_plans_file d)).
Proof. destruct d. auto. Qed.

Lemma files_ok_lookup d uid user :
  files_ok d -> users_get uid (users_file d) = Some user -> zone_listed user.
Proof. intros [_ Hz] Hu. eapply Hz. exact Hu. Qed.

Lemma files_ok_users d d' :
  files_ok d -> users_file d' = users_file d -> files_ok d'.
Proof. unfold files_ok. intros H ->. exact H. Qed.

Lemma zone_listed_with_defaults user :
  zone_listed user -> zone_listed (Dialog.with_defaults user).
Proof.
  intros H tz. unfold Dialog.with_defaults. simpl.
  destruct (timezone user) as [tz0|] eqn:Htz; simpl; intros [= <-].
  - apply H. exact Htz.
  - apply zone_listed_default_zone.
Qed.

Lemma zone_listed_new_profile : zone_listed new_profile.
Proof. intros tz [= <-]. left. reflexivity. Qed.

(** The goals the handlers leave: a users dict built from the one of the
    file by writing records that keep their time zone. *)
Lemma zone_listed_empty_profile : zone_listed empty_profile.
Proof. intros tz [=]. Qed.

Ltac zone_solve H :=
  first
    [ assumption
    | apply zone_listed_new_profile
    | apply zone_listed_empty_profile
    | apply zone_listed_with_defaults; zone_solve H
    | eapply files_ok_lookup; [exact H|eassumption]
    | apply zone_listed_default; apply H
    | eapply zone_listed_same; [simpl; reflexivity|]; zone_solve H ].

Ltac files_solve H :=
  first
    [ exact H
    | apply (files_ok_users _ _ H); reflexivity
    | apply files_ok_reply; files_solve H
    | apply files_ok_set; [files_solve H|zone_solve H] ].

(** Case analysis on what a handler's body branches on. *)
Ltac crunch :=
  repeat (simpl; rewrite ?users_get_set_eq;
          match goal with
          | |- context [Dialog.transport ?e ?c ?r] =>
              lazymatch r with
              | context [Dialog.transport] => fail
              | _ => destruct (Dialog.transport e c r)
              end
          | |- context [match users_get ?u ?us with _ => _ end] =>
              destruct (users_get u us) eqn:?
          | |- context [match user_plans ?u with _ => _ end] =>
              destruct (user_plans u) eqn:?
          | |- context [match Dialog.current_day ?c with _ => _ end] =>
              destruct (Dialog.current_day c) eqn:?
          | |- context [match Dialog.action ?c with _ => _ end] =>
              destruct (Dialog.action c) eqn:?
          | |- context [match default [] (Dialog.current_plans ?c) with
                        | _ => _ end] =>
              destruct (default [] (Dialog.current_plans c)) eqn:?
          | |- context [match @lookup weekday _ _ _ ?d ?g with _ => _ end] =>
              destruct (g !! d) eqn:?
          | |- context [match @lookup string _ _ _ ?d ?g with _ => _ end] =>
              destruct (g !! d) eqn:?
          | |- context [if ?b then _ else _] => destruct b eqn:?
          end);
  simpl.

Lemma start_files_ok env uid s :
  files_ok (Dialog.files s) ->
  files_ok (Dialog.files (snd (Dialog.start env uid s))).
Proof.
  intros H. unfold Dialog.start, Dialog.ensure_notification_time,
    Dialog.prompt_notification_time. drun.
  destruct (users_get uid (users_file (Dialog.files s))) as [user|] eqn:Hu;
    crunch; files_solve H.
Qed.

Lemma setup_plans_files_ok env uid s :
  files_ok (Dialog.files s) ->
  files_ok (Dialog.files (snd (Dialog.setup_plans env uid s))).
Proof.
  intros H. unfold Dialog.setup_plans. drun. crunch; files_solve H.
Qed.

Lemma timezone_command_files_ok env uid s :
  files_ok (Dialog.files s) ->
  files_ok (Dialog.files (snd (Dialog.timezone_command env uid s))).
Proof.
  intros H. unfold Dialog.timezone_command. drun. crunch; files_solve H.
Qed.

Lemma global_plans_menu_files_ok env uid s :
  files_ok (Dialog.files s) ->
  files_ok (Dialog.files (snd (Dialog.global_plans_menu env uid s))).
Proof.
  intros H. unfold Dialog.global_plans_menu. drun. crunch; files_solve H.
Qed.

Lemma handle_time_input_files_ok env uid i s :
  files_ok (Dialog.files s) ->
  files_ok (Dialog.files (snd (Dialog.handle_time_input env uid i s))).
Proof.
  intros H. unfold Dialog.handle_time_input. drun.
  destruct (Dialog.waiting_for_time (Dialog.user_data s)); simpl.
  - destruct (match i with
              | Dialog.Pressed _ => None
              | Dialog.Typed t => parse_time_input (PyStr.strip t)
              end) as [t|]; crunch; files_solve H.
  - crunch; files_solve H.
Qed.

Lemma choose_day_files_ok env uid i s :
  files_ok (Dialog.files s) ->
  files_ok (Dialog.files (snd (Dialog.choose_day env uid i s))).
Proof.
  intros H.
  unfold Dialog.choose_day, Dialog.finish_setup,
    Dialog.ensure_notification_time, Dialog.prompt_notification_time.
  drun.
  destruct i as [b|t]; [destruct b|]; crunch; try files_solve H.
Qed.

Lemma review_plans_files_ok env uid s :
  files_ok (Dialog.files s) ->
  files_ok (Dialog.files (snd (Dialog.review_plans env uid s))).
Proof.
  intros H. unfold Dialog.review_plans. drun. crunch; files_solve H.
Qed.

Lemma enter_plans_files_ok env uid i s :
  files_ok (Dialog.files s) ->
  files_ok (Dialog.files (snd (Dialog.enter_plans env uid i s))).
Proof.
  intros H. unfold Dialog.enter_plans. drun.
  destruct i as [| |t].
  - crunch; files_solve H.
  - apply (review_plans_files_ok env uid
             (Dialog.mkState (Dialog.files s) (Dialog.replies s) _)). exact H.
  - destruct (parse_plan_items _); simpl; [|exact H].
    apply (review_plans_files_ok env uid
             (Dialog.mkState (Dialog.files s) (Dialog.replies s) _)). exact H.
Qed.

Lemma handle_review_action_files_ok env uid i s :
  files_ok (Dialog.files s) ->
  files_ok (Dialog.files (snd (Dialog.handle_review_action env uid i s))).
Proof.
  intros H. unfold Dialog.handle_review_action, Dialog.store_day_plans. drun.
  destruct i as [b|t]; [destruct b|]; crunch;
    try (apply files_ok_eta; exact H); try files_solve H.
Qed.

Lemma handle_global_action_files_ok env uid i s :
  files_ok (Dialog.files s) ->
  files_ok (Dialog.files (snd (Dialog.handle_global_action env uid i s))).
Proof.
  intros H. unfold Dialog.handle_global_action. drun.
  destruct i as [b|t]; [destruct b|]; crunch; try files_solve H.
Qed.

Lemma enter_global_plans_files_ok env uid text s :
  files_ok (Dialog.files s) ->
  files_ok (Dialog.files (snd (Dialog.enter_global_plans env uid text s))).
Proof.
  intros H. unfold Dialog.enter_global_plans. drun. crunch; files_solve H.
Qed.

Lemma main_menu_files_ok env uid i s :
  files_ok (Dialog.files s) ->
  files_ok (Dialog.files (snd (Dialog.main_menu env uid i s))).
Proof.
  intros H. unfold Dialog.main_menu. drun.
  destruct (Dialog.waiting_for_time (Dialog.user_data s));
    [apply handle_time_input_files_ok; exact H|].
  destruct (Dialog.choosing_timezone (Dialog.user_data s)).
  - destruct i as [b|t]; [crunch; files_solve H|].
    destruct (bool_decide (PyStr.strip t ∈ TIMEZONES)) eqn:Hin;
      [|crunch; files_solve H].
    apply bool_decide_eq_true, list_elem_of_In in Hin.
    assert (Hz : forall user, zone_listed (set_timezone (Some (PyStr.strip t)) user)).
    { intros user tz [= <-]. exact Hin. }
    crunch; try files_solve H;
      try apply files_ok_reply;
      (apply files_ok_set; [files_solve H|apply Hz]).
  - destruct i as [b|t]; [destruct b|];
      try apply setup_plans_files_ok; try apply global_plans_menu_files_ok;
      try apply timezone_command_files_ok; try exact H;
      unfold Dialog.show_weekly_plans; drun; crunch; files_solve H.
Qed.

Lemma start_itog_files_ok env uid w :
  files_ok (disk w) -> files_ok (disk (snd (start_itog env uid w))).
Proof.
  intros H. unfold start_itog. run.
  destruct (users_get uid (users_file (disk w))) as [user|] eqn:Hu; simpl.
  - destruct (day_plans user _) as [|first rest]; simpl.
    + destruct (bot_send env uid (Notice NoEntriesToday)); simpl;
        [|exact H].
      apply files_ok_set; [files_solve H|zone_solve H].
    + destruct (bot_send env uid (ItogList _ _ _)); simpl; [|exact H].
      destruct (bot_send env uid (ItogQuestion 0 first)); simpl; [|exact H].
      apply files_ok_set; [files_solve H|zone_solve H].
  - destruct (bot_send env uid (Notice StartFirst)); simpl; [|exact H].
    apply files_ok_set; [files_solve H|zone_solve H].
Qed.

Lemma zone_listed_apply_itog_results user state :
  zone_listed user -> zone_listed (apply_itog_results_to_plans user state).
Proof.
  unfold apply_itog_results_to_plans.
  destruct (_ || _); [auto|]. intros H. exact H.
Qed.

Lemma handle_itog_response_files_ok env uid answer w :
  files_ok (disk w) ->
  files_ok (disk (snd (handle_itog_response env uid answer w))).
Proof.
  intros H. unfold handle_itog_response. run.
  destruct (users_get uid (users_file (disk w))) as [user|] eqn:Hu; simpl;
    [|destruct (bot_send env uid _); simpl; [|exact H];
      apply files_ok_set; [files_solve H|zone_solve H]].
  assert (Hzu : zone_listed user) by (eapply files_ok_lookup; eauto).
  destruct (itog_state user) as [state|]; simpl;
    [|destruct (bot_send env uid _); simpl; [|exact H];
      apply files_ok_set; [files_solve H|zone_solve H]].
  assert (Hcleared : forall u g, zone_listed u ->
            files_ok (mkDisk (users_set uid (set_itog_state None u)
                                (users_file (disk w))) g)).
  { intros u g Hu'. apply files_ok_set; [files_solve H|exact Hu']. }
  assert (Hreply : forall id us g,
            files_ok (mkDisk us g) ->
            files_ok (mkDisk (users_set uid
                                (set_last_bot_message id uid
                                   (default empty_profile (users_get uid us)))
                                us) g)).
  { intros id us g Hus. apply files_ok_reply. exact Hus. }
  destruct (plans state) as [|p0 ps]; simpl.
  { destruct (bot_send env uid _); simpl; auto. }
  destruct (S (length ps) <=? current_index state); simpl.
  { pose proof (zone_listed_apply_itog_results user state Hzu) as Hz.
    destruct (bot_send env uid (Notice AllItemsReviewed)); simpl; auto.
    destruct (bot_send env uid (Notice WhatNext)); simpl; auto. }
  destruct (S (length ps) <=? current_index state + 1); simpl.
  { match goal with
    | |- context [apply_itog_results_to_plans user ?st] =>
        pose proof (zone_listed_apply_itog_results user st Hzu) as Hz
    end.
    destruct (bot_send env uid (ItogDone _ _)); simpl; auto.
    destruct (bot_send env uid (Notice BackToMainMenu)); simpl; auto. }
  destruct ((p0 :: ps) !! (current_index state + 1)) as [item|]; simpl;
    [|exact H].
  destruct (bot_send env uid (ItogQuestion _ item)); simpl; [|exact H].
  apply files_ok_set; [files_solve H|exact Hzu].
Qed.

Lemma users_get_is_some_in uid us :
  In uid (ids us) -> is_Some (users_get uid us).
Proof.
  induction us as [|[k q] us IH]; simpl; [tauto|].
  destruct (decide (k = uid)) as [->|Hne]; [eauto|].
  intros [Hk|Hin]; [congruence|auto].
Qed.

Lemma users_get_some_in uid us p : users_get uid us = Some p -> In uid (ids us).
Proof.
  induction us as [|[k q] us IH]; simpl; [discriminate|].
  destruct (decide (k = uid)) as [->|Hne]; [auto|].
  intros H. right. auto.
Qed.

Lemma scheduler_tick_files_ok env w :
  files_ok (disk w) -> files_ok (disk (snd (scheduler_tick env w))).
Proof.
  intros [Hnd Hz]. pose proof (scheduler_tick_ids env w) as Hids.
  split.
  - unfold distinct_ids. unfold ids in Hids. rewrite Hids. exact Hnd.
  - intros uid user' Hget.
    pose proof (users_get_some_in _ _ _ Hget) as Hin. rewrite Hids in Hin.
    destruct (users_get_is_some_in _ _ Hin) as [p Hp].
    destruct (tick_post_holds env uid p w Hnd Hp)
      as (B & R & S & K & q & (_ & _ & _ & _ & _ & _ & Hq & Hafter & _)).
    rewrite Hq in Hget. injection Hget as <-.
    destruct Hafter as (Htz & _).
    apply (zone_listed_same p); [exact Htz|]. eapply Hz. exact Hp.
Qed.

Lemma files_step_ok d d' : files_step d d' -> files_ok d -> files_ok d'.
Proof.
  intros [] H.
  - apply start_files_ok, H.
  - apply setup_plans_files_ok, H.
  - apply main_menu_files_ok, H.
  - apply timezone_command_files_ok, H.
  - apply choose_day_files_ok, H.
  - apply enter_plans_files_ok, H.
  - apply handle_review_action_files_ok, H.
  - apply handle_global_action_files_ok, H.
  - apply enter_global_plans_files_ok, H.
  - apply start_itog_files_ok, H.
  - apply handle_itog_response_files_ok, H.
  - apply scheduler_tick_files_ok, H.
Qed.

(** X18. No time zone but a listed one.  Through any sequence of runs
    of the handlers of the dialogue and the itog review and of ticks of
    the scheduler, for any users, inputs, contexts, transports and
    clocks, the users file keeps one record per user id, and every time
    zone it stores is one of [TIMEZONES]: [/start] writes the default,
    which is in the list, the main menu writes a zone only after finding
    it in the list, and nothing else writes one. *)
Theorem stored_time_zones_are_listed d d' :
  rtc files_step d d' -> files_ok d -> files_ok d'.
Proof.
  induction 1 as [|d1 d2 d3 Hstep _ IH]; [auto|].
  intros H. apply IH. eapply files_step_ok; eassumption.
Qed.

Lemma stored_time_zones_are_listed_witness :
  let env := Dialog.mkEnv (fun _ _ => Some 5) in
  let s0 := Dialog.start_state (mkDisk [] ∅) Dialog.empty_context in
  let s1 := snd (Dialog.start env "1" s0) in
  let s2 := snd (Dialog.timezone_command env "1" s1) in
  let s3 := snd (Dialog.main_menu env "1" (Dialog.Typed "Europe/Moscow") s2) in
  files_ok (Dialog.files s3).
Proof.
  cbv zeta.
  apply (stored_time_zones_are_listed (mkDisk [] ∅)).
  - eapply rtc_l;
      [exact (by_start (Dialog.mkEnv (fun _ _ => Some 5)) "1"
                (Dialog.start_state (mkDisk [] ∅) Dialog.empty_context))|].
    eapply rtc_l; [apply by_timezone_command|].
    eapply rtc_l; [apply by_main_menu|]. apply rtc_refl.
  - split; [apply NoDup_nil_2|]. intros uid user [=].
Defined.

(** *** The question for the notification time *)

(** X19. The notification time is asked for once.  For a user without
    a notification time and a transport that delivers, [/start] sends
    its welcome and the question for the time and marks the context as
    waiting for the answer; a second [/start], the answer not yet given,
    sends the welcome alone. *)
Theorem notification_time_is_asked_once env uid s :
  Dialog.always_delivers env ->
  Dialog.waiting_for_time (Dialog.user_data s) = false ->
  match users_get uid (users_file (Dialog.files s)) with
  | Some user => Dialog.no_notification_time user = true
  | None => True
  end ->
  let r1 := Dialog.start env uid s in
  let r2 := Dialog.start env uid (snd r1) in
  fst r1 = Some Dialog.MAIN_MENU
  /\ Dialog.replies (snd r1)
     = Dialog.replies s
       ++ [(uid, Dialog.Welcome, true); (uid, Dialog.AskNotificationTime, true)]
  /\ Dialog.waiting_for_time (Dialog.user_data (snd r1)) = true
  /\ fst r2 = Some Dialog.MAIN_MENU
  /\ Dialog.replies (snd r2)
     = Dialog.replies (snd r1) ++ [(uid, Dialog.Welcome, true)]
  /\ Dialog.waiting_for_time (Dialog.user_data (snd r2)) = true.
Proof.
  intros Hsend Hwait Hnone. cbv zeta.
  assert (Hfirst : exists user0 id,
            Dialog.no_notification_time user0 = true
            /\ Dialog.start env uid s
               = (Some Dialog.MAIN_MENU,
                  Dialog.mkState
                    (mkDisk (users_set uid (set_last_bot_message id uid user0)
                               (users_set uid user0
                                  (users_file (Dialog.files s))))
                            (global_plans_file (Dialog.files s)))
                    (Dialog.replies s
                     ++ [(uid, Dialog.Welcome, true);
                         (uid, Dialog.AskNotificationTime, true)])
                    (Dialog.set_waiting_for_time true (Dialog.user_data s)))).
  { unfold Dialog.start, Dialog.ensure_notification_time,
      Dialog.prompt_notification_time. drun.
    remember (match users_get uid (users_file (Dialog.files s)) with
              | Some user => Dialog.with_defaults user
              | None => new_profile
              end) as user0 eqn:Huser0.
    assert (Hno : Dialog.no_notification_time user0 = true).
    { subst user0.
      destruct (users_get uid (users_file (Dialog.files s))); [exact Hnone|].
      reflexivity. }
    destruct (Hsend uid Dialog.Welcome) as [id0 E0].
    destruct (Hsend uid Dialog.AskNotificationTime) as [id1 E1].
    exists user0, id1. split; [exact Hno|].
    rewrite E0. simpl. rewrite Hno. simpl. rewrite Hwait. simpl.
    rewrite E1. simpl. rewrite users_get_set_eq. simpl.
    rewrite <- app_assoc. reflexivity. }
  destruct Hfirst as (user0 & id & Hno & ->). simpl.
  split; [reflexivity|]. split; [reflexivity|]. split; [reflexivity|].
  unfold Dialog.start, Dialog.ensure_notification_time. drun.
  rewrite !users_get_set_eq. simpl.
  destruct (Hsend uid Dialog.Welcome) as [id0 E0]. rewrite E0. simpl.
  assert (Hno' : Dialog.no_notification_time
                   (Dialog.with_defaults (set_last_bot_message id uid user0))
                 = true) by exact Hno.
  rewrite Hno'. simpl. auto.
Qed.

Lemma notification_time_is_asked_once_witness :
  let env := Dialog.mkEnv (fun _ _ => Some 5) in
  let s := Dialog.start_state (mkDisk [] ∅) Dialog.empty_context in
  let r1 := Dialog.start env "1" s in
  Dialog.replies (snd r1)
  = [("1", Dialog.Welcome, true); ("1", Dialog.AskNotificationTime, true)]
  /\ Dialog.replies (snd (Dialog.start env "1" (snd r1)))
     = Dialog.replies (snd r1) ++ [("1", Dialog.Welcome, true)].
Proof.
  destruct (notification_time_is_asked_once (Dialog.mkEnv (fun _ _ => Some 5))
              "1" (Dialog.start_state (mkDisk [] ∅) Dialog.empty_context))
    as (_ & H1 & _ & _ & H2 & _).
  - intros chat r. eexists. reflexivity.
  - reflexivity.
  - exact I.
  - split; [exact H1|exact H2].
Defined.

(* ===================================================================== *)
(** ** From the dialogue to the scheduler *)
(* ===================================================================== *)

Lemma plan_command_record env uid s u :
  Dialog.always_delivers env ->
  users_get uid (users_file (Dialog.files s)) = Some u ->
  exists u',
    users_get uid (users_file (Dialog.files (snd (Dialog.plan_command env uid s))))
      = Some u'
    /\ same_but_bot_message u u'.
Proof.
  intros Hsend Hu. unfold Dialog.plan_command, Dialog.setup_plans. drun.
  rewrite Hu. simpl. deliver Hsend. rewrite users_get_set_eq.
  eexists. split; [reflexivity|]. apply same_but_bot_message_set.
Qed.

Lemma choose_day_done_record env uid s u :
  Dialog.always_delivers env ->
  users_get uid (users_file (Dialog.files s)) = Some u ->
  let res := Dialog.choose_day env uid (Dialog.Pressed Dialog.BtnDone) s in
  fst res = Some Dialog.MAIN_MENU
  /\ exists u',
       users_get uid (users_file (Dialog.files (snd res))) = Some u'
       /\ same_but_bot_message (set_setup_complete true u) u'.
Proof.
  intros Hsend Hu. cbv zeta.
  unfold Dialog.choose_day, Dialog.finish_setup,
    Dialog.ensure_notification_time, Dialog.prompt_notification_time.
  drun. rewrite Hu. simpl. deliver Hsend. rewrite !users_get_set_eq. simpl.
  destruct (Dialog.no_notification_time _); simpl.
  - destruct (Dialog.waiting_for_time (Dialog.user_data s)); simpl.
    + rewrite users_get_set_eq. split; [reflexivity|].
      eexists. split; [reflexivity|]. apply same_but_bot_message_set.
    + deliver Hsend. rewrite !users_get_set_eq. simpl.
      split; [reflexivity|]. eexists. split; [reflexivity|].
      eapply same_but_bot_message_trans; apply same_but_bot_message_set.
  - rewrite users_get_set_eq. split; [reflexivity|].
    eexists. split; [reflexivity|]. apply same_but_bot_message_set.
Qed.

(** X20. Setup finished, time not given: the brief comes at 09:00.  A
    new user who sends [/start], then [/plan] and the button that ends
    the setup, without answering the question for the notification time,
    is left with a record whose setup is complete and whose notification
    time is missing.  On these files a tick of the scheduler that runs to
    its end at 09:00 of the default zone's clock sends the user a morning
    brief. *)
Theorem setup_without_time_is_briefed_at_nine denv env uid s :
  Dialog.always_delivers denv ->
  files_ok (Dialog.files s) ->
  users_get uid (users_file (Dialog.files s)) = None ->
  let s1 := snd (Dialog.start denv uid s) in
  let s2 := snd (Dialog.plan_command denv uid s1) in
  let r3 := Dialog.choose_day denv uid (Dialog.Pressed Dialog.BtnDone) s2 in
  let w := start_world (users_file (Dialog.files (snd r3)))
             (global_plans_file (Dialog.files (snd r3))) in
  fst r3 = Some Dialog.MAIN_MENU
  /\ (exists p,
        profile_of uid w = Some p
        /\ setup_complete p = true /\ notification_time p = None)
  /\ (current_time_of (clock env DEFAULT_TIMEZONE) = "09:00" ->
      fst (scheduler_tick env w) = Some true ->
      exists m ok,
        is_morning_brief m = true
        /\ In (uid, m, ok) (sent_since w (snd (scheduler_tick env w)))).
Proof.
  intros Hsend Hok Hu. cbv zeta.
  destruct (start_record denv uid s) as ((u1 & Hu1 & Hsame1) & _ & _).
  cbv zeta in Hu1, Hsame1. rewrite Hu in Hsame1.
  destruct (plan_command_record denv uid _ u1 Hsend Hu1) as (u2 & Hu2 & Hsame2).
  destruct (choose_day_done_record denv uid _ u2 Hsend Hu2)
    as (Hstate & p & Hp & Hsame3).
  assert (Hfinal : files_ok (Dialog.files
            (snd (Dialog.choose_day denv uid (Dialog.Pressed Dialog.BtnDone)
               (snd (Dialog.plan_command denv uid
                       (snd (Dialog.start denv uid s)))))))).
  { apply choose_day_files_ok, setup_plans_files_ok, start_files_ok, Hok. }
  destruct Hsame1 as (A1 & A2 & A3 & A4 & _).
  destruct Hsame2 as (B1 & B2 & B3 & B4 & _).
  destruct Hsame3 as (C1 & C2 & C3 & C4 & _).
  assert (Hsetup : setup_complete p = true) by exact C4.
  assert (Htime : notification_time p = None).
  { rewrite C2. simpl. rewrite B2, A2. reflexivity. }
  assert (Hzone : timezone p = Some DEFAULT_TIMEZONE).
  { rewrite C1. simpl. rewrite B1, A1. reflexivity. }
  assert (Hplans : is_Some (user_plans p)).
  { rewrite C3. simpl. rewrite B3, A3. eexists. reflexivity. }
  split; [exact Hstate|]. split; [exists p; auto|].
  intros Hnine Hdone.
  set (w := start_world _ _) in *.
  destruct (tick_post_holds env uid p w (proj1 Hfinal) Hp)
    as (B & R & S & K & q & ((d & Hd1 & Hd2) & HB & _ & _ & _ & _ & _ & _ & _
                             & Hall & _)).
  destruct (Hall Hdone) as (Hbrief & _).
  assert (Hdue : brief_due env p = true).
  { apply brief_due_iff. split; [exact Hsetup|].
    unfold get_user_now, get_user_timezone, effective_notification_time.
    rewrite Hzone, Htime. exact Hnine. }
  destruct HB as [->|(_ & m & ok & Hm & ->)];
    [destruct (Hbrief Hdue Hplans eq_refl)|].
  exists m, ok. split; [exact Hm|].
  unfold sent_since. rewrite Hd1, drop_app_length.
  apply (proj1 (sent_to_in uid (uid, m, ok) d)). rewrite Hd2.
  left. reflexivity.
Qed.

Lemma setup_without_time_is_briefed_at_nine_witness :
  let denv := Dialog.mkEnv (fun _ _ => Some 5) in
  let s := Dialog.start_state (mkDisk [] ∅) Dialog.empty_context in
  let s1 := snd (Dialog.start denv "1" s) in
  let s2 := snd (Dialog.plan_command denv "1" s1) in
  let r3 := Dialog.choose_day denv "1" (Dialog.Pressed Dialog.BtnDone) s2 in
  let w := start_world (users_file (Dialog.files (snd r3)))
             (global_plans_file (Dialog.files (snd r3))) in
  let env := SchedulerExample.env_at 9 0 in
  exists m ok,
    is_morning_brief m = true
    /\ In ("1", m, ok) (sent_since w (snd (scheduler_tick env w))).
Proof.
  destruct (setup_without_time_is_briefed_at_nine
              (Dialog.mkEnv (fun _ _ => Some 5)) (SchedulerExample.env_at 9 0)
              "1" (Dialog.start_state (mkDisk [] ∅) Dialog.empty_context))
    as (_ & _ & H).
  - intros chat r. eexists. reflexivity.
  - split; [apply NoDup_nil_2|]. intros uid user [=].
  - reflexivity.
  - apply H; reflexivity.
Defined.

(* ===================================================================== *)
(** ** Choosing a time zone *)
(* ===================================================================== *)


